(** * singbox-manager: state -> configuration compilation, client descriptors,
      roster lifecycle

    A shallow embedding of the TypeScript sources

      - [types/index.d.ts]            (the data model),
      - [utils/crypto.js]             ([generateUUID], [generateShortIds]),
      - [core/config-generator.js]    ([toSingboxConfig], [generateVlessUri],
                                       [generateClientConfig], ...),
      - [core/user-manager.js]        (class [UserManager]),
      - [cli/index.ts]                (the [user:*] commands),
      - [server.ts]                   (the HTTP handlers),

    followed by the properties of these functions.

    Conventions of the embedding.

    - A JavaScript string is represented by the bytes of its UTF-8 encoding
      (a Rocq [string]); only well-formed text is representable, so the
      lone-surrogate corner of [encodeURIComponent] and of the [USVString]
      conversion is outside the model.  [===] on strings is equality of the
      byte sequences.
    - A JavaScript number that holds a port, a counter or a timestamp is an
      integer ([Z]); [`${n}`] is its decimal rendering.  The creation date
      of a user always comes from [new Date()] and is such a timestamp; the
      expiry date is handed in by the caller and may be an Invalid Date
      ([JS.Date.t]).
    - Randomness ([randomBytes]), the clock ([new Date()]) and the key pair
      printed by the external binary are explicit arguments of the functions
      that consume them.
    - The manager object and the file system are threaded through a small
      state-and-exception monad; a thrown exception keeps the mutations made
      before it, like in JavaScript.
    - Only [logger.warn] and [logger.error] lines are recorded; the
      informational output of the logger is not modelled. *)

From Stdlib Require Import ZArith Lia Ascii String List Bool.
From stdpp Require Import base option list strings pretty.
Import ListNotations.

Local Open Scope string_scope.
Local Open Scope Z_scope.

(* ===================================================================== *)
(** * JavaScript built-ins used by the sources *)
(* ===================================================================== *)

Module JS.

(** The double-quote character. *)
Definition dq : string := String "034"%char EmptyString.

(** [a || b] on strings: the empty string is falsy. *)
Definition or_string (a : option string) (b : string) : string :=
  match a with
  | Some s => if String.eqb s EmptyString then b else s
  | None => b
  end.

(** [a || 0] on numbers: [undefined] and [0] are falsy. *)
Definition or_zero (a : option Z) : Z :=
  match a with
  | Some n => if n =? 0 then 0 else n
  | None => 0
  end.

(** [String(v)] for a value that is a string or [undefined]. *)
Definition toString (v : option string) : string :=
  match v with
  | Some s => s
  | None => "undefined"
  end.

(** [`${n}`] for an integral number. *)
Definition numberToString (n : Z) : string := pretty n.

Definition in_range (lo hi : N) (c : ascii) : bool :=
  let n := N_of_ascii c in ((lo <=? n) && (n <=? hi))%N.

Definition isAsciiAlphanumeric (c : ascii) : bool :=
  in_range 48 57 c || in_range 65 90 c || in_range 97 122 c.

Fixpoint mem_char (c : ascii) (s : string) : bool :=
  match s with
  | EmptyString => false
  | String d r => Ascii.eqb c d || mem_char c r
  end.

Definition hexDigitUpper (n : N) : ascii :=
  match n with
  | 0 => "0" | 1 => "1" | 2 => "2" | 3 => "3" | 4 => "4" | 5 => "5"
  | 6 => "6" | 7 => "7" | 8 => "8" | 9 => "9" | 10 => "A" | 11 => "B"
  | 12 => "C" | 13 => "D" | 14 => "E" | _ => "F"
  end%char%N.

Definition hexDigitLower (n : N) : ascii :=
  match n with
  | 0 => "0" | 1 => "1" | 2 => "2" | 3 => "3" | 4 => "4" | 5 => "5"
  | 6 => "6" | 7 => "7" | 8 => "8" | 9 => "9" | 10 => "a" | 11 => "b"
  | 12 => "c" | 13 => "d" | 14 => "e" | _ => "f"
  end%char%N.

(** [%XX] with upper-case hexadecimal digits. *)
Definition percentEncodeByte (c : ascii) : string :=
  let n := N_of_ascii c in
  String "%" (String (hexDigitUpper (n / 16)) (String (hexDigitUpper (n mod 16)) EmptyString))%N.

(** ECMAScript [encodeURIComponent]: every byte of the UTF-8 encoding is
    escaped except the unreserved set [A-Z a-z 0-9 - _ . ! ~ * ' ( )]. *)
Definition uriUnreserved (c : ascii) : bool :=
  isAsciiAlphanumeric c || mem_char c "-_.!~*'()".

Fixpoint encodeURIComponent (s : string) : string :=
  match s with
  | EmptyString => EmptyString
  | String c r =>
      (if uriUnreserved c then String c EmptyString else percentEncodeByte c)
        ++ encodeURIComponent r
  end.

(** WHATWG application/x-www-form-urlencoded byte serializer, the encoding
    behind [URLSearchParams.prototype.toString]: alphanumerics and
    [* - . _] stay, a space becomes [+], every other byte is escaped. *)
Definition formUnreserved (c : ascii) : bool :=
  isAsciiAlphanumeric c || mem_char c "*-._".

Fixpoint formUrlencode (s : string) : string :=
  match s with
  | EmptyString => EmptyString
  | String c r =>
      (if formUnreserved c then String c EmptyString
       else if Ascii.eqb c " " then "+"
       else percentEncodeByte c)
        ++ formUrlencode r
  end.

(** [new URLSearchParams(record).toString()]: the pairs in insertion
    order, [name=value] joined by [&]. *)
Fixpoint URLSearchParams_toString (params : list (string * string)) : string :=
  match params with
  | [] => EmptyString
  | [(k, v)] => formUrlencode k ++ "=" ++ formUrlencode v
  | (k, v) :: rest =>
      formUrlencode k ++ "=" ++ formUrlencode v ++ "&" ++ URLSearchParams_toString rest
  end.

(** [Buffer.prototype.toString('hex')]: two lower-case digits per byte. *)
Fixpoint toHex (bytes : list Z) : string :=
  match bytes with
  | [] => EmptyString
  | b :: r =>
      String (hexDigitLower (Z.to_N (b / 16)))
        (String (hexDigitLower (Z.to_N (b mod 16))) (toHex r))
  end.

(** [s.slice(from, to)] for [0 <= from <= to]. *)
Definition slice (s : string) (from to : nat) : string :=
  String.substring from (to - from) s.

(** [parts.join(sep)]. *)
Fixpoint join (sep : string) (parts : list string) : string :=
  match parts with
  | [] => EmptyString
  | [p] => p
  | p :: rest => p ++ sep ++ join sep rest
  end.

(** [buf[i] = v] on a [Buffer]: the byte is stored modulo 256; a write
    past the end is ignored. *)
Definition bufferSet (buf : list Z) (i : nat) (v : Z) : list Z :=
  <[i := v mod 256]> buf.

(** [buf[i]] read as a number for the bit operations ([undefined] coerces
    to [0]). *)
Definition bufferGet (buf : list Z) (i : nat) : Z :=
  default 0 (buf !! i).

(** A [Date] object: its time value in milliseconds since the epoch, or
    an Invalid Date, whose time value is NaN ([new Date(NaN)], a time value
    out of range). *)
Module Date.
Inductive t :=
| Valid (time : Z)
| Invalid.
End Date.

End JS.

(* ===================================================================== *)
(** * Data model ([types/index.d.ts]) *)
(* ===================================================================== *)

Inductive Protocol := Vless | Vmess | Trojan | Shadowsocks | Hysteria2.
Inductive Transport := Tcp | Ws | Grpc | Http.
Inductive TLSType := TlsPlain | TlsReality | TlsNone.
Inductive LogLevel := LTrace | LDebug | LInfo | LWarn | LError | LFatal | LPanic.

Definition Protocol_eqb (a b : Protocol) : bool :=
  match a, b with
  | Vless, Vless | Vmess, Vmess | Trojan, Trojan
  | Shadowsocks, Shadowsocks | Hysteria2, Hysteria2 => true
  | _, _ => false
  end.

Definition TLSType_eqb (a b : TLSType) : bool :=
  match a, b with
  | TlsPlain, TlsPlain | TlsReality, TlsReality | TlsNone, TlsNone => true
  | _, _ => false
  end.

(** The string a protocol tag stands for. *)
Definition Protocol_string (p : Protocol) : string :=
  match p with
  | Vless => "vless" | Vmess => "vmess" | Trojan => "trojan"
  | Shadowsocks => "shadowsocks" | Hysteria2 => "hysteria2"
  end.

Definition LogLevel_string (l : LogLevel) : string :=
  match l with
  | LTrace => "trace" | LDebug => "debug" | LInfo => "info" | LWarn => "warn"
  | LError => "error" | LFatal => "fatal" | LPanic => "panic"
  end.

Module User.
Record t := mk {
  id : string;
  name : string;
  email : option string;
  createdAt : Z;
  expiresAt : option JS.Date.t;
  enabled : bool;
  trafficLimit : Z;
  trafficUsed : Z;
}.

(** [user.enabled = b]. *)
Definition set_enabled (b : bool) (u : t) : t :=
  mk (id u) (name u) (email u) (createdAt u) (expiresAt u) b
     (trafficLimit u) (trafficUsed u).
End User.

Module RealityConfig.
Record t := mk {
  dest : string;
  serverNames : list string;
  privateKey : string;
  publicKey : string;
  shortIds : list string;
}.
End RealityConfig.

Module InboundConfig.
Record t := mk {
  tag : string;
  protocol : Protocol;
  listen : string;
  port : Z;
  transport : option Transport;
  tlsType : TLSType;
  reality : option RealityConfig.t;
}.
End InboundConfig.

Module DNSConfig.
Record t := mk {
  servers : list string;
  useSystemDns : bool;
}.
End DNSConfig.

Module ServerConfig.
Record t := mk {
  host : string;
  inbounds : list InboundConfig.t;
  dns : option DNSConfig.t;
  logLevel : LogLevel;
}.
End ServerConfig.

(** The [manual] object of a client descriptor. *)
Module Manual.
Record t := mk {
  address : string;
  port : Z;
  uuid : string;
  flow : string;
  security : string;
  sni : string;
  fingerprint : string;
  publicKey : string;
  shortId : string;
}.
End Manual.

Module ClientConfig.
Record t := mk {
  userId : string;
  protocol : Protocol;
  uri : string;
  qrCode : option string;
  manual : option Manual.t;
}.
End ClientConfig.

Module ManagerState.
Record t := mk {
  version : Z;
  server : ServerConfig.t;
  users : list User.t;
  clientConfigs : list ClientConfig.t;
}.

Definition set_server (sv : ServerConfig.t) (s : t) : t :=
  mk (version s) sv (users s) (clientConfigs s).
Definition set_users (us : list User.t) (s : t) : t :=
  mk (version s) (server s) us (clientConfigs s).
Definition set_clientConfigs (cs : list ClientConfig.t) (s : t) : t :=
  mk (version s) (server s) (users s) cs.
End ManagerState.

(** ** Sing-box native configuration *)

Module SingboxUser.
Record t := mk { uuid : string; name : string; flow : string }.
End SingboxUser.

Module SingboxHandshake.
Record t := mk { server : string; server_port : Z }.
End SingboxHandshake.

Module SingboxReality.
Record t := mk {
  enabled : bool;
  handshake : SingboxHandshake.t;
  private_key : string;
  short_id : list string;
}.
End SingboxReality.

Module SingboxTls.
Record t := mk {
  enabled : bool;
  server_name : option string;
  reality : SingboxReality.t;
}.
End SingboxTls.

Module SingboxInbound.
Record t := mk {
  type : string;
  tag : string;
  listen : string;
  listen_port : Z;
  users : list SingboxUser.t;
  tls : option SingboxTls.t;
}.
End SingboxInbound.

Module SingboxDnsServer.
Record t := mk { tag : string; address : string }.
End SingboxDnsServer.

Module SingboxOutbound.
Record t := mk { type : string; tag : string }.
End SingboxOutbound.

Module SingboxConfig.
Record t := mk {
  log_level : string;
  log_timestamp : bool;
  dns_servers : option (list SingboxDnsServer.t);
  inbounds : list SingboxInbound.t;
  outbounds : list SingboxOutbound.t;
}.
End SingboxConfig.

(* ===================================================================== *)
(** * Exceptions and results *)
(* ===================================================================== *)

Inductive Exception :=
| Error (message : string)        (* [throw new Error(message)] *)
| TypeError (message : string)    (* a property read on [undefined] *)
| SyntaxError                     (* [JSON.parse] on malformed text *)
| SystemError (code : string)     (* a failed file-system call *)
| RangeError (message : string).  (* [toISOString] on an Invalid Date *)

Inductive Result (A : Type) :=
| Return (a : A)
| Throw (e : Exception).
Arguments Return {A} a.
Arguments Throw {A} e.

Definition result_bind {A B} (r : Result A) (k : A -> Result B) : Result B :=
  match r with
  | Return a => k a
  | Throw e => Throw e
  end.

(** [xs.map(f)] where [f] may throw: elements are visited left to right and
    the first exception ends the loop. *)
Fixpoint result_map {A B} (f : A -> Result B) (xs : list A) : Result (list B) :=
  match xs with
  | [] => Return []
  | x :: r =>
      result_bind (f x) (fun y =>
      result_bind (result_map f r) (fun ys => Return (y :: ys)))
  end.

(* ===================================================================== *)
(** * [utils/crypto.js] *)
(* ===================================================================== *)

(** [generateUUID()], as a function of the 16 bytes [randomBytes(16)]
    returned. *)
Definition generateUUID (random16 : list Z) : string :=
  let bytes := random16 in
  let bytes := JS.bufferSet bytes 6
                 (Z.lor (Z.land (JS.bufferGet bytes 6) 0x0f) 0x40) in
  let bytes := JS.bufferSet bytes 8
                 (Z.lor (Z.land (JS.bufferGet bytes 8) 0x3f) 0x80) in
  let hex := JS.toHex bytes in
  JS.join "-" [ JS.slice hex 0 8; JS.slice hex 8 12; JS.slice hex 12 16;
                JS.slice hex 16 20; JS.slice hex 20 32 ].

(** The buffer [generateUUID] prints: the random bytes with the version and
    variant bits set. *)
Definition uuidBytes (random16 : list Z) : list Z :=
  let bytes := random16 in
  let bytes := JS.bufferSet bytes 6
                 (Z.lor (Z.land (JS.bufferGet bytes 6) 0x0f) 0x40) in
  JS.bufferSet bytes 8 (Z.lor (Z.land (JS.bufferGet bytes 8) 0x3f) 0x80).

(** The value of a hexadecimal digit. *)
Definition hexValue (c : ascii) : N :=
  let n := N_of_ascii c in
  (if (n <? 58) then n - 48 else n - 87)%N.

(** [generateShortId(length = 8)], as a function of the bytes
    [randomBytes(length / 2)] returned. *)
Definition generateShortId (random : list Z) : string := JS.toHex random.

(** [generateShortIds(count)]: [draw i] is the result of the [i]-th call of
    [randomBytes(4)]. *)
Definition generateShortIds (count : nat) (draw : nat -> list Z) : list string :=
  List.map (fun i => generateShortId (draw i)) (seq 0 count).

(** What the environment supplies to one run of
    [generateDefaultServerConfig]: the key pair returned by
    [generateRealityKeyPair()] (printed by the external binary, or the
    fallback) and the random bytes behind the short ids. *)
Module Entropy.
Record t := mk {
  keyPair : string * string;          (* (privateKey, publicKey) *)
  shortIdBytes : nat -> list Z;
}.
End Entropy.

(* ===================================================================== *)
(** * [core/config-generator.js] *)
(* ===================================================================== *)

Definition DEFAULT_REALITY_TARGETS : list string :=
  [ "www.google.com"; "www.microsoft.com"; "www.apple.com"; "www.amazon.com" ].

Definition FLOW : string := "xtls-rprx-vision".

Definition generateRealityConfig (dest : option string) (e : Entropy.t)
  : RealityConfig.t :=
  let '(privateKey, publicKey) := Entropy.keyPair e in
  let target := JS.or_string dest (JS.toString (head DEFAULT_REALITY_TARGETS)) in
  RealityConfig.mk target [target] privateKey publicKey
    (generateShortIds 4 (Entropy.shortIdBytes e)).

Definition generateDefaultServerConfig (host : string) (port : Z) (e : Entropy.t)
  : ServerConfig.t :=
  let reality := generateRealityConfig None e in
  ServerConfig.mk host
    [ InboundConfig.mk "vless-reality" Vless "0.0.0.0" port None TlsReality
        (Some reality) ]
    (Some (DNSConfig.mk ["8.8.8.8"; "1.1.1.1"] false))
    LInfo.

(** The entry emitted for one enabled user. *)
Definition toSingboxUser (u : User.t) : SingboxUser.t :=
  SingboxUser.mk (User.id u) (User.name u) FLOW.

Definition toSingboxInbound (users : list User.t) (inbound : InboundConfig.t)
  : SingboxInbound.t :=
  let base_users :=
    List.map toSingboxUser (List.filter (fun u => User.enabled u) users) in
  let tls :=
    match InboundConfig.tlsType inbound, InboundConfig.reality inbound with
    | TlsReality, Some r =>
        Some (SingboxTls.mk true (head (RealityConfig.serverNames r))
                (SingboxReality.mk true
                   (SingboxHandshake.mk (RealityConfig.dest r) 443)
                   (RealityConfig.privateKey r)
                   (RealityConfig.shortIds r)))
    | _, _ => None
    end in
  SingboxInbound.mk
    (Protocol_string (InboundConfig.protocol inbound))
    (InboundConfig.tag inbound)
    (InboundConfig.listen inbound)
    (InboundConfig.port inbound)
    base_users
    tls.

Definition toSingboxConfig (serverConfig : ServerConfig.t) (users : list User.t)
  : SingboxConfig.t :=
  let inbounds := List.map (toSingboxInbound users) (ServerConfig.inbounds serverConfig) in
  SingboxConfig.mk
    (LogLevel_string (ServerConfig.logLevel serverConfig))
    true
    (option_map
       (fun d => imap (fun i s => SingboxDnsServer.mk ("dns-" ++ JS.numberToString (Z.of_nat i)) s)
                   (DNSConfig.servers d))
       (ServerConfig.dns serverConfig))
    inbounds
    [ SingboxOutbound.mk "direct" "direct"; SingboxOutbound.mk "block" "block" ].

Definition UNSUPPORTED : string := "Only VLESS+Reality is supported".

Definition generateVlessUri (user : User.t) (serverConfig : ServerConfig.t)
    (inbound : InboundConfig.t) : Result string :=
  if negb (Protocol_eqb (InboundConfig.protocol inbound) Vless)
     || negb (TLSType_eqb (InboundConfig.tlsType inbound) TlsReality)
  then Throw (Error UNSUPPORTED)
  else
    match InboundConfig.reality inbound with
    | None => Throw (TypeError "Cannot read properties of undefined (reading 'publicKey')")
    | Some reality =>
        let params := JS.URLSearchParams_toString
          [ ("type", "tcp");
            ("security", "reality");
            ("pbk", RealityConfig.publicKey reality);
            ("fp", "chrome");
            ("sni", JS.toString (head (RealityConfig.serverNames reality)));
            ("sid", JS.toString (head (RealityConfig.shortIds reality)));
            ("flow", FLOW) ] in
        let uri :=
          "vless://" ++ User.id user ++ "@" ++ ServerConfig.host serverConfig ++ ":"
            ++ JS.numberToString (InboundConfig.port inbound) ++ "?" ++ params
            ++ "#" ++ JS.encodeURIComponent (User.name user) in
        Return uri
    end.

(** [inbound.reality?.f[0] || ''] *)
Definition realityFieldOrEmpty (inbound : InboundConfig.t)
    (f : RealityConfig.t -> option string) : string :=
  JS.or_string (match InboundConfig.reality inbound with
                | Some r => f r
                | None => None
                end) EmptyString.

Definition manualOf (user : User.t) (serverConfig : ServerConfig.t)
    (inbound : InboundConfig.t) : Manual.t :=
  Manual.mk
    (ServerConfig.host serverConfig)
    (InboundConfig.port inbound)
    (User.id user)
    FLOW
    "reality"
    (realityFieldOrEmpty inbound (fun r => head (RealityConfig.serverNames r)))
    "chrome"
    (realityFieldOrEmpty inbound (fun r => Some (RealityConfig.publicKey r)))
    (realityFieldOrEmpty inbound (fun r => head (RealityConfig.shortIds r))).

Definition generateClientConfig (user : User.t) (serverConfig : ServerConfig.t)
  : Result (list ClientConfig.t) :=
  result_map
    (fun inbound =>
       result_bind (generateVlessUri user serverConfig inbound) (fun uri =>
       Return (ClientConfig.mk (User.id user) (InboundConfig.protocol inbound)
                 uri None (Some (manualOf user serverConfig inbound)))))
    (ServerConfig.inbounds serverConfig).

(* ===================================================================== *)
(** * The manager object, the file system and the monad of the methods *)
(* ===================================================================== *)

(** What [readFile(statePath)] followed by [JSON.parse] finds.  The dates
    of a stored state are in the file as ISO strings; [Stored s] names the
    file by the state [s] it denotes, each string read as its date. *)
Inductive StateFile :=
| NoFile                             (* [existsSync] is false, [readFile] throws *)
| Garbled                            (* a file that [JSON.parse] rejects *)
| Stored (s : ManagerState.t).       (* a file that parses, denoting [s] *)

Module Disk.
Record t := mk {
  stateFile : StateFile;
  configFile : option SingboxConfig.t;
  writable : bool;                   (* whether [mkdir]/[writeFile] succeed *)
}.
Definition set_stateFile (f : StateFile) (d : t) : t :=
  mk f (configFile d) (writable d).
Definition set_configFile (c : SingboxConfig.t) (d : t) : t :=
  mk (stateFile d) (Some c) (writable d).
End Disk.

(** The supervised proxy process of [server.ts]. *)
Module Proc.
Record t := mk {
  running : bool;                    (* [singboxProcess !== null] *)
  binaryInstalled : bool;            (* some [sing-box version] call succeeds *)
  hups : nat;                        (* [pkill -HUP sing-box] calls that succeeded *)
  scheduledStarts : nat;             (* pending [setTimeout(startSingbox, 1000)] *)
}.
End Proc.

Inductive LogKind := LogWarn | LogError.

Module World.
Record t := mk {
  state : ManagerState.t;            (* [this.state] / the global [state] *)
  disk : Disk.t;
  proc : Proc.t;
  diagnostics : list (LogKind * string);
}.
Definition set_state (s : ManagerState.t) (w : t) : t :=
  mk s (disk w) (proc w) (diagnostics w).
Definition set_disk (d : Disk.t) (w : t) : t :=
  mk (state w) d (proc w) (diagnostics w).
Definition set_proc (p : Proc.t) (w : t) : t :=
  mk (state w) (disk w) p (diagnostics w).
Definition add_diagnostic (k : LogKind) (m : string) (w : t) : t :=
  mk (state w) (disk w) (proc w) (diagnostics w ++ [(k, m)]).
End World.

Definition M (A : Type) : Type := World.t -> Result A * World.t.

Definition ret {A} (a : A) : M A := fun w => (Return a, w).
Definition throw {A} (e : Exception) : M A := fun w => (Throw e, w).
Definition bind {A B} (m : M A) (k : A -> M B) : M B :=
  fun w =>
    match m w with
    | (Return a, w') => k a w'
    | (Throw e, w') => (Throw e, w')
    end.
Definition get : M World.t := fun w => (Return w, w).
Definition modify (f : World.t -> World.t) : M unit := fun w => (Return tt, f w).
Definition lift {A} (r : Result A) : M A := fun w => (r, w).
(** [try { body } catch { handler }] *)
Definition try_catch {A} (body : M A) (handler : Exception -> M A) : M A :=
  fun w =>
    match body w with
    | (Return a, w') => (Return a, w')
    | (Throw e, w') => handler e w'
    end.

Declare Scope manager_scope.
Delimit Scope manager_scope with manager.
Notation "x <- c ;; k" := (bind c (fun x => k))
  (at level 100, c at next level, right associativity) : manager_scope.
Notation "c ;; k" := (bind c (fun _ => k))
  (at level 100, right associativity) : manager_scope.
Local Open Scope manager_scope.

Definition getState : M ManagerState.t :=
  w <- get ;; ret (World.state w).
Definition modifyState (f : ManagerState.t -> ManagerState.t) : M unit :=
  modify (fun w => World.set_state (f (World.state w)) w).
Definition warn (m : string) : M unit := modify (World.add_diagnostic LogWarn m).
Definition error (m : string) : M unit := modify (World.add_diagnostic LogError m).

(** [writeFile] (after [mkdir] of a missing directory). *)
Definition writeFile (put : Disk.t -> Disk.t) : M unit :=
  w <- get ;;
  if Disk.writable (World.disk w)
  then modify (World.set_disk (put (World.disk w)))
  else throw (SystemError "EACCES").

(** [saveConfig(config, path)] of [config-generator.js]. *)
Definition saveConfig (config : SingboxConfig.t) : M unit :=
  writeFile (Disk.set_configFile config).

(* ===================================================================== *)
(** * [core/user-manager.js]: class [UserManager] *)
(* ===================================================================== *)

(** [u.name === nameOrId || u.id === nameOrId] *)
Definition matches (nameOrId : string) (u : User.t) : bool :=
  String.eqb (User.name u) nameOrId || String.eqb (User.id u) nameOrId.

(** [xs.findIndex(p)], with [None] for [-1]. *)
Fixpoint findIndex {A} (p : A -> bool) (xs : list A) : option nat :=
  match xs with
  | [] => None
  | x :: r => if p x then Some 0%nat else option_map S (findIndex p r)
  end.

(** [xs.find(p)]. *)
Definition find {A} (p : A -> bool) (xs : list A) : option A :=
  List.find p xs.

Module AddUserOptions.
Record t := mk {
  email : option string;
  expiresAt : option JS.Date.t;
  trafficLimit : option Z;
}.
Definition none : t := mk None None None.
End AddUserOptions.

Module UserManager.

(** The state built by the constructor. *)
Definition initialState : ManagerState.t :=
  ManagerState.mk 1 (ServerConfig.mk EmptyString [] None LInfo) [] [].

(** The [map] of [loadState] that turns the date strings back into dates:
    the dates of a stored state are already dates here, and an absent
    [expiresAt] stays absent. *)
Definition reviveUser (u : User.t) : User.t :=
  User.mk (User.id u) (User.name u) (User.email u) (User.createdAt u)
    (match User.expiresAt u with Some e => Some e | None => None end)
    (User.enabled u) (User.trafficLimit u) (User.trafficUsed u).

Definition loadState : M unit :=
  w <- get ;;
  match Disk.stateFile (World.disk w) with
  | NoFile => throw (SystemError "ENOENT")
  | Garbled => throw SyntaxError
  | Stored s =>
      modifyState (fun _ => s) ;;
      modifyState (fun s => ManagerState.set_users
                              (List.map reviveUser (ManagerState.users s)) s)
  end.

(** What [JSON.stringify] writes for a user: [Date.prototype.toJSON] gives
    the ISO string of a valid date, which reads back as the same date, and
    [null] for an Invalid Date, which [loadState] reads back as no expiry
    date ([u.expiresAt ? ... : undefined]). *)
Definition stringifyUser (u : User.t) : User.t :=
  User.mk (User.id u) (User.name u) (User.email u) (User.createdAt u)
    (match User.expiresAt u with
     | Some (JS.Date.Valid time) => Some (JS.Date.Valid time)
     | Some JS.Date.Invalid => None
     | None => None
     end)
    (User.enabled u) (User.trafficLimit u) (User.trafficUsed u).

(** The state that the text [JSON.stringify(this.state, null, 2)] denotes. *)
Definition stringify (s : ManagerState.t) : ManagerState.t :=
  ManagerState.set_users (List.map stringifyUser (ManagerState.users s)) s.

Definition saveState : M unit :=
  s <- getState ;;
  writeFile (Disk.set_stateFile (Stored (stringify s))).

Definition regenerateConfig : M unit :=
  s <- getState ;;
  saveConfig (toSingboxConfig (ManagerState.server s) (ManagerState.users s)).

(** [logger.kv('Expires', user.expiresAt?.toISOString() || 'Never')].  The
    line itself is informational output; [toISOString] throws a
    [RangeError] on an Invalid Date. *)
Definition kvExpires (expiresAt : option JS.Date.t) : M unit :=
  match expiresAt with
  | Some JS.Date.Invalid => throw (RangeError "Invalid time value")
  | Some (JS.Date.Valid _) => ret tt
  | None => ret tt
  end.

Definition existsSync_statePath : M bool :=
  w <- get ;;
  ret (match Disk.stateFile (World.disk w) with NoFile => false | _ => true end).

Definition initialize (host : string) (port : Z) (e : Entropy.t) : M unit :=
  present <- existsSync_statePath ;;
  if present then
    loadState ;;
    ret tt
  else
    modifyState (ManagerState.set_server (generateDefaultServerConfig host port e)) ;;
    saveState ;;
    regenerateConfig.

Definition duplicateMessage (name : string) : string :=
  "User " ++ JS.dq ++ name ++ JS.dq ++ " already exists".

(** [addUser(name, options)]; [random16] is what [randomBytes(16)] returns
    inside [generateUUID()], [now] is [new Date()]. *)
Definition addUser (name : string) (options : AddUserOptions.t)
    (random16 : list Z) (now : Z) : M (User.t * list ClientConfig.t) :=
  s <- getState ;;
  if existsb (fun u => String.eqb (User.name u) name) (ManagerState.users s)
  then throw (Error (duplicateMessage name))
  else
    let user :=
      User.mk (generateUUID random16) name (AddUserOptions.email options) now
        (AddUserOptions.expiresAt options) true
        (JS.or_zero (AddUserOptions.trafficLimit options)) 0 in
    modifyState (fun s => ManagerState.set_users (ManagerState.users s ++ [user]) s) ;;
    s <- getState ;;
    configs <- lift (generateClientConfig user (ManagerState.server s)) ;;
    modifyState (fun s => ManagerState.set_clientConfigs
                            (ManagerState.clientConfigs s ++ configs) s) ;;
    saveState ;;
    regenerateConfig ;;
    kvExpires (User.expiresAt user) ;;
    ret (user, configs).

Definition notFoundMessage (nameOrId : string) : string :=
  "User " ++ JS.dq ++ nameOrId ++ JS.dq ++ " not found".

Definition removeUser (nameOrId : string) : M bool :=
  s <- getState ;;
  match findIndex (matches nameOrId) (ManagerState.users s) with
  | None =>
      warn (notFoundMessage nameOrId) ;;
      ret false
  | Some index =>
      match ManagerState.users s !! index with
      | None => throw (TypeError "Cannot read properties of undefined (reading 'id')")
      | Some user =>
          modifyState (fun s => ManagerState.set_users
                                  (delete index (ManagerState.users s)) s) ;;
          modifyState (fun s => ManagerState.set_clientConfigs
                                  (List.filter
                                     (fun c => negb (String.eqb (ClientConfig.userId c) (User.id user)))
                                     (ManagerState.clientConfigs s)) s) ;;
          saveState ;;
          regenerateConfig ;;
          ret true
      end
  end.

(** [find] returns a reference to the first matching roster entry and
    [user.enabled = enabled] writes through it: the entry at the first
    matching index is updated in place. *)
Definition setUserEnabled (nameOrId : string) (enabled : bool) : M bool :=
  s <- getState ;;
  match findIndex (matches nameOrId) (ManagerState.users s) with
  | None =>
      warn (notFoundMessage nameOrId) ;;
      ret false
  | Some index =>
      modifyState (fun s => ManagerState.set_users
                              (alter (User.set_enabled enabled) index (ManagerState.users s)) s) ;;
      saveState ;;
      regenerateConfig ;;
      ret true
  end.

Definition getUsers : M (list User.t) :=
  s <- getState ;; ret (ManagerState.users s).

Definition getUser (nameOrId : string) : M (option User.t) :=
  s <- getState ;; ret (find (matches nameOrId) (ManagerState.users s)).

Definition getClientConfigs (nameOrId : string) : M (list ClientConfig.t) :=
  user <- getUser nameOrId ;;
  match user with
  | None => ret []
  | Some user =>
      s <- getState ;;
      ret (List.filter (fun c => String.eqb (ClientConfig.userId c) (User.id user))
             (ManagerState.clientConfigs s))
  end.

Definition getServerConfig : M ServerConfig.t :=
  s <- getState ;; ret (ManagerState.server s).

Definition getPublicKey : M (option string) :=
  s <- getState ;;
  ret (match find (fun i => TLSType_eqb (InboundConfig.tlsType i) TlsReality)
               (ServerConfig.inbounds (ManagerState.server s)) with
       | Some inbound => option_map RealityConfig.publicKey (InboundConfig.reality inbound)
       | None => None
       end).

Definition exportUserConfig (nameOrId : string) : M (option string) :=
  configs <- getClientConfigs nameOrId ;;
  ret (option_map ClientConfig.uri (head configs)).

Definition getStats : M (nat * nat * nat) :=
  s <- getState ;;
  let users := ManagerState.users s in
  ret (length users,
       length (List.filter (fun u => User.enabled u) users),
       length (List.filter (fun u => negb (User.enabled u)) users)).

End UserManager.

(* ===================================================================== *)
(** * [cli/index.ts]: the user commands *)
(* ===================================================================== *)

Module Cli.

(** How a command's action ends: it runs to its end, or it calls
    [process.exit(code)].  An exception that leaves the action is the
    [Throw] of the monad. *)
Inductive Ending :=
| Completed
| Exit (code : Z).

Definition NOT_INITIALIZED_ADD : string :=
  "Manager not initialized. Run " ++ JS.dq ++ "singbox-manager init" ++ JS.dq ++ " first.".
Definition NOT_INITIALIZED : string := "Manager not initialized.".

(** [try { await manager.loadState(); } catch { logger.error(msg); process.exit(1); }]
    followed by [rest]. *)
Definition loadOrExit (msg : string) (rest : M Ending) : M Ending :=
  loaded <- try_catch (UserManager.loadState ;; ret true)
                      (fun _ => error msg ;; ret false) ;;
  if loaded : bool then rest else ret (Exit 1).

(** [init --host --port]. *)
Definition init (host : string) (port : Z) (e : Entropy.t) : M Ending :=
  UserManager.initialize host port e ;;
  ret Completed.

(** [user:add --name --email --expires]; [expiresAt] is the date computed
    from [--expires], [new Date(Date.now() + parseInt(days, 10) * 86400000)]:
    an Invalid Date when the text is not a number or the sum is out of
    range. *)
Definition user_add (name : string) (email : option string)
    (expiresAt : option JS.Date.t)
    (random16 : list Z) (now : Z) : M Ending :=
  loadOrExit NOT_INITIALIZED_ADD
    (UserManager.addUser name (AddUserOptions.mk email expiresAt None) random16 now ;;
     ret Completed).

(** [user:remove <name>]. *)
Definition user_remove (name : string) : M Ending :=
  loadOrExit NOT_INITIALIZED
    (removed <- UserManager.removeUser name ;;
     if removed : bool then ret Completed else ret (Exit 1)).

(** [user:list]. *)
Definition user_list : M Ending :=
  loadOrExit NOT_INITIALIZED
    (UserManager.getUsers ;;
     ret Completed).

(** [user:show <name>]. *)
Definition user_show (name : string) : M Ending :=
  loadOrExit NOT_INITIALIZED
    (user <- UserManager.getUser name ;;
     match user with
     | None => error (UserManager.notFoundMessage name) ;; ret (Exit 1)
     | Some user =>
         UserManager.kvExpires (User.expiresAt user) ;;
         UserManager.getClientConfigs name ;;
         ret Completed
     end).

(** [user:enable <name>] and [user:disable <name>]. *)
Definition user_set_enabled (name : string) (enabled : bool) : M Ending :=
  try_catch
    (UserManager.loadState ;;
     UserManager.setUserEnabled name enabled ;;
     ret Completed)
    (fun _ =>
       error (if enabled then "Failed to enable user" else "Failed to disable user") ;;
       ret (Exit 1)).

End Cli.

(* ===================================================================== *)
(** * [server.ts]: the HTTP handlers *)
(* ===================================================================== *)

Module Server.

(** The environment variables [SERVER_HOST] and [SERVER_PORT] (the latter
    already parsed by [parseInt]). *)
Module Env.
Record t := mk {
  SERVER_HOST : option string;
  SERVER_PORT : option Z;
}.
End Env.

Definition envHost (env : Env.t) : string := JS.or_string (Env.SERVER_HOST env) "0.0.0.0".
Definition envPort (env : Env.t) : Z := default 443 (Env.SERVER_PORT env).

Inductive Body :=
| BodyError (error : string)
| BodyUser (id name : string) (configs : list ClientConfig.t)
| BodySuccess (message : option string).

Module Response.
Record t := mk { status : Z; body : Body }.
End Response.

Definition sendJson (data : Body) (status : Z) : M Response.t :=
  ret (Response.mk status data).

(** [JSON.stringify(state, null, 2)].  The server keeps the users as
    [JSON.parse] returned them, their dates still the strings of the file,
    and the users it creates have no expiry date: the text it writes
    denotes the state in memory. *)
Definition saveState : M unit :=
  s <- getState ;;
  writeFile (Disk.set_stateFile (Stored s)).

Definition modifyProc (f : Proc.t -> Proc.t) : M unit :=
  modify (fun w => World.set_proc (f (World.proc w)) w).

(** [execSync('pkill -HUP sing-box')] inside [try { } catch { }]: the signal
    reaches a running process, a failure is swallowed. *)
Definition reloadSingbox : M unit :=
  modifyProc (fun p =>
    if Proc.running p
    then Proc.mk (Proc.running p) (Proc.binaryInstalled p) (S (Proc.hups p))
           (Proc.scheduledStarts p)
    else p).

Definition updateSingboxConfig : M unit :=
  s <- getState ;;
  saveConfig (toSingboxConfig (ManagerState.server s) (ManagerState.users s)) ;;
  reloadSingbox.

(** [loadState()] of the server: the stored state, or a fresh one. *)
Definition loadState (env : Env.t) (e : Entropy.t) : M ManagerState.t :=
  w <- get ;;
  match Disk.stateFile (World.disk w) with
  | Stored s => ret s
  | Garbled => throw SyntaxError
  | NoFile =>
      ret (ManagerState.mk 1
             (generateDefaultServerConfig (envHost env) (envPort env) e) [] [])
  end.

(** [POST /api/users] with the [name] read from the request body. *)
Definition postUsers (name : option string) (random16 : list Z) (now : Z)
  : M Response.t :=
  match name with
  | None => sendJson (BodyError "Name is required") 400
  | Some name =>
      if String.eqb name EmptyString then sendJson (BodyError "Name is required") 400
      else
        let user := User.mk (generateUUID random16) name None now None true 0 0 in
        modifyState (fun s => ManagerState.set_users (ManagerState.users s ++ [user]) s) ;;
        saveState ;;
        updateSingboxConfig ;;
        s <- getState ;;
        configs <- lift (generateClientConfig user (ManagerState.server s)) ;;
        sendJson (BodyUser (User.id user) (User.name user) configs) 200
  end.

(** [DELETE /api/users/:id]. *)
Definition deleteUser (userId : string) : M Response.t :=
  s <- getState ;;
  match findIndex (fun u => String.eqb (User.id u) userId) (ManagerState.users s) with
  | None => sendJson (BodyError "User not found") 404
  | Some index =>
      modifyState (fun s => ManagerState.set_users
                              (delete index (ManagerState.users s)) s) ;;
      saveState ;;
      updateSingboxConfig ;;
      sendJson (BodySuccess None) 200
  end.

(** [POST /api/reset]. *)
Definition reset (env : Env.t) (e : Entropy.t) : M Response.t :=
  let host := envHost env in
  let port := envPort env in
  modifyState (ManagerState.set_server (generateDefaultServerConfig host port e)) ;;
  modifyState (ManagerState.set_users []) ;;
  saveState ;;
  updateSingboxConfig ;;
  modifyProc (fun p =>
    Proc.mk false (Proc.binaryInstalled p) (Proc.hups p) (S (Proc.scheduledStarts p))) ;;
  sendJson (BodySuccess (Some "Server reset, new keys generated")) 200.

(** [startSingbox()]: nothing when a process is running or no binary is
    found, a spawned process otherwise. *)
Definition startSingbox : M unit :=
  modifyProc (fun p =>
    if Proc.running p then p
    else if Proc.binaryInstalled p
         then Proc.mk true (Proc.binaryInstalled p) (Proc.hups p) (Proc.scheduledStarts p)
         else p).

(** [main()] up to [server.listen]. *)
Definition main (env : Env.t) (e : Entropy.t) : M unit :=
  s <- loadState env e ;;
  modifyState (fun _ => s) ;;
  saveState ;;
  updateSingboxConfig ;;
  startSingbox.

(** The [try { ... } catch (error) { sendJson(res, { error: 'Internal server
    error' }, 500) }] around every route of [handleRequest]. *)
Definition handle (route : M Response.t) : M Response.t :=
  try_catch route (fun _ => sendJson (BodyError "Internal server error") 500).

End Server.

(* ===================================================================== *)
(** * The specification's formulas, word for word *)
(* ===================================================================== *)

Module Spec.

(** The canonical form of the connection URI as the specification writes
    it: every query value copied verbatim, only the name percent-encoded. *)
Definition canonicalUri (userId host : string) (port : Z)
    (publicKey sni sid userName : string) : string :=
  "vless://" ++ userId ++ "@" ++ host ++ ":" ++ JS.numberToString port
    ++ "?type=tcp&security=reality&pbk=" ++ publicKey
    ++ "&fp=chrome&sni=" ++ sni
    ++ "&sid=" ++ sid
    ++ "&flow=xtls-rprx-vision#" ++ JS.encodeURIComponent userName.

(** "[generateVlessUri] returns exactly the canonical string" at one input. *)
Definition uriIsCanonical (user : User.t) (serverConfig : ServerConfig.t)
    (inbound : InboundConfig.t) : Prop :=
  exists r sni sid,
    InboundConfig.reality inbound = Some r /\
    head (RealityConfig.serverNames r) = Some sni /\
    head (RealityConfig.shortIds r) = Some sid /\
    generateVlessUri user serverConfig inbound =
      Return (canonicalUri (User.id user) (ServerConfig.host serverConfig)
                (InboundConfig.port inbound) (RealityConfig.publicKey r) sni sid
                (User.name user)).



(** "[op] on an uninitialized manager fails": on a freshly constructed
    manager without a persisted state file the call throws. *)
Definition failsWhenUninitialized {A} (op : M A) : Prop :=
  forall w,
    World.state w = UserManager.initialState ->
    Disk.stateFile (World.disk w) = NoFile ->
    exists e w', op w = (Throw e, w').

(** "After [reset] the roster and the descriptor cache are empty." *)
Definition resetClearsEverything (env : Server.Env.t) (e : Entropy.t)
    (w : World.t) : Prop :=
  let w' := snd (Server.handle (Server.reset env e) w) in
  ManagerState.users (World.state w') = [] /\
  ManagerState.clientConfigs (World.state w') = [].

End Spec.

(** What the code does with the query values: the same shape with the three
    configurable values form-urlencoded. *)
Definition encodedUri (userId host : string) (port : Z)
    (publicKey sni sid userName : string) : string :=
  "vless://" ++ userId ++ "@" ++ host ++ ":" ++ JS.numberToString port
    ++ "?type=tcp&security=reality&pbk=" ++ JS.formUrlencode publicKey
    ++ "&fp=chrome&sni=" ++ JS.formUrlencode sni
    ++ "&sid=" ++ JS.formUrlencode sid
    ++ "&flow=xtls-rprx-vision#" ++ JS.encodeURIComponent userName.

(** A string made only of the bytes the form serializer leaves alone. *)
Fixpoint formSafe (s : string) : bool :=
  match s with
  | EmptyString => true
  | String c r => JS.formUnreserved c && formSafe r
  end.

(** An inbound [generateVlessUri] supports, with the Reality block the data
    model requires. *)
Definition wellFormedInbound (inbound : InboundConfig.t) : Prop :=
  InboundConfig.protocol inbound = Vless /\
  InboundConfig.tlsType inbound = TlsReality /\
  exists r, InboundConfig.reality inbound = Some r /\
            RealityConfig.serverNames r <> [] /\
            RealityConfig.shortIds r <> [].

(* ===================================================================== *)
(** * Observations on a world *)
(* ===================================================================== *)

Definition roster (w : World.t) : list User.t := ManagerState.users (World.state w).
Definition cache (w : World.t) : list ClientConfig.t :=
  ManagerState.clientConfigs (World.state w).
Definition serverOf (w : World.t) : ServerConfig.t := ManagerState.server (World.state w).

(** The world after [saveState()] and [regenerateConfig()] of the manager
    went through. *)
Definition committed (w : World.t) : World.t :=
  World.set_disk
    (Disk.set_configFile (toSingboxConfig (serverOf w) (roster w))
       (Disk.set_stateFile (Stored (UserManager.stringify (World.state w)))
          (World.disk w)))
    w.

(** The world after [saveState()] and [saveConfig] of the HTTP server went
    through. *)
Definition served (w : World.t) : World.t :=
  World.set_disk
    (Disk.set_configFile (toSingboxConfig (serverOf w) (roster w))
       (Disk.set_stateFile (Stored (World.state w)) (World.disk w)))
    w.

(** The key pair of every inbound's Reality block, inbound by inbound. *)
Definition realityKeys (sv : ServerConfig.t) : list (option (string * string)) :=
  List.map
    (fun inbound =>
       option_map (fun r => (RealityConfig.privateKey r, RealityConfig.publicKey r))
         (InboundConfig.reality inbound))
    (ServerConfig.inbounds sv).

(** The short ids of every inbound's Reality block. *)
Definition realityShortIds (sv : ServerConfig.t) : list (option (list string)) :=
  List.map
    (fun inbound => option_map RealityConfig.shortIds (InboundConfig.reality inbound))
    (ServerConfig.inbounds sv).

(** [x], at position [index], is the first roster entry whose name or id is
    [nameOrId]. *)
Definition firstMatch (nameOrId : string) (users : list User.t)
    (index : nat) (x : User.t) : Prop :=
  users !! index = Some x /\
  (User.name x = nameOrId \/ User.id x = nameOrId) /\
  forall j y, (j < index)%nat -> users !! j = Some y ->
              User.name y <> nameOrId /\ User.id y <> nameOrId.

Definition noMatch (nameOrId : string) (users : list User.t) : Prop :=
  forall u, In u users -> User.name u <> nameOrId /\ User.id u <> nameOrId.

(* ===================================================================== *)
(** * Concrete data used to run the definitions *)
(* ===================================================================== *)

Module Example.

Definition entropy : Entropy.t :=
  Entropy.mk ("cFJpdmF0ZUtleQ", "UHVibGljS2V5")
    (fun i => [Z.of_nat i; 171; 205; 239]).

Definition server : ServerConfig.t :=
  generateDefaultServerConfig "203.0.113.5" 443 entropy.

Definition alice : User.t :=
  User.mk "00010203-0405-4607-8809-0a0b0c0d0e0f" "alice" None 1700000000000 None true 0 0.

Definition bob : User.t :=
  User.mk "10111213-1415-4617-9819-1a1b1c1d1e1f" "bob" None 1700000000001 None false 0 0.

(** A Reality block whose public key is written in the standard base64
    alphabet, with [+], [/] and the [=] padding. *)
Definition reality_b64 : RealityConfig.t :=
  RealityConfig.mk "www.google.com" ["www.google.com"] "cFJpdmF0ZUtleQ"
    "Trm5Xv+1mZ8n/0fWx2eXgA3dYb9cK1sQv7hJ4uLp6kE=" ["ab12cd34"].

Definition inbound_b64 : InboundConfig.t :=
  InboundConfig.mk "vless-reality" Vless "0.0.0.0" 443 None TlsReality (Some reality_b64).

Definition server_b64 : ServerConfig.t :=
  ServerConfig.mk "203.0.113.5" [inbound_b64] None LInfo.

Definition inbound_vmess : InboundConfig.t :=
  InboundConfig.mk "vmess-in" Vmess "0.0.0.0" 8443 None TlsPlain None.

(** The bytes 0, 1, ..., 15 as one draw of [randomBytes(16)]. *)
Definition random16 : list Z := List.map Z.of_nat (seq 0 16).

(** A freshly constructed manager on a machine without a state file. *)
Definition fresh : World.t :=
  World.mk UserManager.initialState (Disk.mk NoFile None true)
    (Proc.mk false true 0 0) [].

(** The same machine after [init --host 203.0.113.5] and
    [user:add --name alice] on the command line. *)
Definition after_init : World.t :=
  snd (Cli.init "203.0.113.5" 443 entropy fresh).
Definition after_add : World.t :=
  snd (Cli.user_add "alice" None None random16 1700000000000 after_init).

Definition env : Server.Env.t := Server.Env.mk (Some "203.0.113.5") (Some 443).

(** The HTTP server started on that machine. *)
Definition serving : World.t :=
  snd (Server.main env entropy after_add).

(** The machine of [after_add] with files that cannot be written. *)
Definition read_only : World.t :=
  World.set_disk
    (Disk.mk (Disk.stateFile (World.disk after_add))
       (Disk.configFile (World.disk after_add)) false)
    after_add.

(** A server config with an inbound the URI generator does not support. *)
Definition server_mixed : ServerConfig.t :=
  ServerConfig.mk "203.0.113.5" [inbound_b64; inbound_vmess] None LInfo.

Definition mixed : World.t :=
  World.set_state (ManagerState.set_server server_mixed (World.state after_add)) after_add.

(** The key material a reset draws. *)
Definition entropy' : Entropy.t :=
  Entropy.mk ("bmV3UHJpdmF0ZQ", "bmV3UHVibGlj")
    (fun i => [Z.of_nat i; 1; 2; 3]).

End Example.

(* ===================================================================== *)
(** * [server.ts]: the read routes *)
(* ===================================================================== *)

Module ServerRead.

(** One element of the answer of [GET /api/users]. *)
Module UserLine.
Record t := mk {
  id : string;
  name : string;
  enabled : bool;
  createdAt : Z;
}.
End UserLine.

(** [GET /api/users]. *)
Definition getUsers : M (list UserLine.t) :=
  s <- getState ;;
  ret (List.map
         (fun u => UserLine.mk (User.id u) (User.name u) (User.enabled u) (User.createdAt u))
         (ManagerState.users s)).

(** [GET /api/users/:id/config]. *)
Definition getUserConfig (userId : string) : M Server.Response.t :=
  s <- getState ;;
  match find (fun u => String.eqb (User.id u) userId) (ManagerState.users s) with
  | None => Server.sendJson (Server.BodyError "User not found") 404
  | Some user =>
      configs <- lift (generateClientConfig user (ManagerState.server s)) ;;
      Server.sendJson (Server.BodyUser (User.id user) (User.name user) configs) 200
  end.

(** The answer of [GET /api/server]. *)
Module ServerInfo.
Record t := mk {
  host : string;
  port : option Z;
  publicKey : option string;
}.
End ServerInfo.

(** [GET /api/server]. *)
Definition getServer : M ServerInfo.t :=
  s <- getState ;;
  let first := head (ServerConfig.inbounds (ManagerState.server s)) in
  ret (ServerInfo.mk
         (ServerConfig.host (ManagerState.server s))
         (option_map InboundConfig.port first)
         (match first with
          | Some inbound => option_map RealityConfig.publicKey (InboundConfig.reality inbound)
          | None => None
          end)).

End ServerRead.

(* ===================================================================== *)
(** * [utils/logger.js] *)
(* ===================================================================== *)

Module Logger.

Inductive Level := LvDebug | LvInfo | LvWarn | LvError.

Definition LOG_LEVELS (l : Level) : Z :=
  match l with
  | LvDebug => 0
  | LvInfo => 1
  | LvWarn => 2
  | LvError => 3
  end.

(** [shouldLog(level)], with the module variable [currentLevel] as an
    argument. *)
Definition shouldLog (currentLevel level : Level) : bool :=
  LOG_LEVELS level >=? LOG_LEVELS currentLevel.

(** The methods of the [logger] object. *)
Inductive Method :=
| Mdebug | Minfo | Msuccess | Mwarn | Merror | Msection | Mkv | Mcode.

(** Whether a call of the method writes to the console. *)
Definition prints (currentLevel : Level) (m : Method) : bool :=
  match m with
  | Mdebug => shouldLog currentLevel LvDebug
  | Minfo => shouldLog currentLevel LvInfo
  | Msuccess => shouldLog currentLevel LvInfo
  | Mwarn => shouldLog currentLevel LvWarn
  | Merror => shouldLog currentLevel LvError
  | Msection | Mkv | Mcode => true
  end.

(** The level a method is filed under, for the five filtered methods. *)
Definition levelOf (m : Method) : option Level :=
  match m with
  | Mdebug => Some LvDebug
  | Minfo | Msuccess => Some LvInfo
  | Mwarn => Some LvWarn
  | Merror => Some LvError
  | Msection | Mkv | Mcode => None
  end.

End Logger.

(* ===================================================================== *)
(** * [core/installer.ts]: platform and release selection *)
(* ===================================================================== *)

Module Installer.

(** [s.replace(pattern, replacement)] with a string pattern and a
    replacement without [$]: the first occurrence is replaced. *)
Fixpoint replaceFirst (pattern replacement s : string) : string :=
  if String.prefix pattern s
  then replacement
         ++ String.substring (String.length pattern)
              (String.length s - String.length pattern) s
  else match s with
       | EmptyString => EmptyString
       | String c r => String c (replaceFirst pattern replacement r)
       end.

Module PlatformInfo.
Record t := mk {
  os : string;
  arch : string;
  ext : string;
}.
End PlatformInfo.

(** [getPlatformInfo()], as a function of [platform()] and [arch()]. *)
Definition getPlatformInfo (platform cpuArch : string) : Result PlatformInfo.t :=
  result_bind
    (if String.eqb platform "linux" then Return ("linux", "tar.gz")
     else if String.eqb platform "darwin" then Return ("darwin", "tar.gz")
     else if String.eqb platform "win32" then Return ("windows", "zip")
     else Throw (Error ("Unsupported platform: " ++ platform)))
    (fun '(osName, ext) =>
       result_bind
         (if String.eqb cpuArch "x64" then Return "amd64"
          else if String.eqb cpuArch "arm64" then Return "arm64"
          else if String.eqb cpuArch "arm" then Return "armv7"
          else Throw (Error ("Unsupported architecture: " ++ cpuArch)))
         (fun archName => Return (PlatformInfo.mk osName archName ext))).

Module Asset.
Record t := mk {
  name : string;
  browser_download_url : string;
}.
End Asset.

(** The body of the release request. *)
Module ReleaseData.
Record t := mk {
  tag_name : string;
  assets : list Asset.t;
}.
End ReleaseData.

Module ReleaseInfo.
Record t := mk {
  version : string;
  downloadUrl : string;
  checksumUrl : string;
}.
End ReleaseInfo.

Definition assetNameOf (version : string) (info : PlatformInfo.t) : string :=
  "sing-box-" ++ version ++ "-" ++ PlatformInfo.os info ++ "-"
    ++ PlatformInfo.arch info ++ "." ++ PlatformInfo.ext info.

(** [getLatestRelease()]: [response] is the status text of a response
    that is not ok, or the parsed body of one that is. *)
Definition getLatestRelease (response : string + ReleaseData.t)
    (platform cpuArch : string) : Result ReleaseInfo.t :=
  match response with
  | inl statusText => Throw (Error ("Failed to fetch release info: " ++ statusText))
  | inr data =>
      let version := replaceFirst "v" EmptyString (ReleaseData.tag_name data) in
      result_bind (getPlatformInfo platform cpuArch) (fun info =>
        let assetName := assetNameOf version info in
        match find (fun a => String.eqb (Asset.name a) assetName) (ReleaseData.assets data) with
        | None =>
            Throw (Error ("No release found for " ++ PlatformInfo.os info ++ "-"
                            ++ PlatformInfo.arch info))
        | Some asset =>
            Return (ReleaseInfo.mk version (Asset.browser_download_url asset)
                      (replaceFirst ("." ++ PlatformInfo.ext info) ".sha256"
                         (Asset.browser_download_url asset)))
        end)
  end.

End Installer.

(* ===================================================================== *)
(** * Invariants of a world *)
(* ===================================================================== *)

(** The state file denotes exactly the state in memory and the
    configuration file holds its compilation. *)
Definition filesInSync (w : World.t) : Prop :=
  Disk.stateFile (World.disk w) = Stored (World.state w) /\
  Disk.configFile (World.disk w) = Some (toSingboxConfig (serverOf w) (roster w)).

(** The files hold the state in memory as the manager writes it: the state
    file what [JSON.stringify(this.state)] denotes, the configuration file
    the compiled configuration. *)
Definition persisted (w : World.t) : Prop :=
  Disk.stateFile (World.disk w) = Stored (UserManager.stringify (World.state w)) /\
  Disk.configFile (World.disk w) = Some (toSingboxConfig (serverOf w) (roster w)).

(** No user of the list carries an Invalid Date as expiry date. *)
Definition validExpiryDates (users : list User.t) : Prop :=
  Forall (fun u => User.expiresAt u <> Some JS.Date.Invalid) users.



(** Every cached descriptor belongs to a user of the roster. *)
Definition noOrphanDescriptors (w : World.t) : Prop :=
  forall c, In c (cache w) -> exists u, In u (roster w) /\ User.id u = ClientConfig.userId c.

(** The world after [pkill -HUP sing-box] was tried. *)
Definition signalled (w : World.t) : World.t :=
  World.set_proc
    (if Proc.running (World.proc w)
     then Proc.mk (Proc.running (World.proc w)) (Proc.binaryInstalled (World.proc w))
            (S (Proc.hups (World.proc w))) (Proc.scheduledStarts (World.proc w))
     else World.proc w)
    w.

(** The bytes of a string. *)
Fixpoint chars (s : string) : list ascii :=
  match s with
  | EmptyString => []
  | String c r => c :: chars r
  end.

(** A lower-case hexadecimal digit. *)
Definition isLowerHex (c : ascii) : bool :=
  JS.in_range 48 57 c || JS.in_range 97 102 c.

(** The bytes the form serializer can emit, and those [encodeURIComponent]
    can emit. *)
Definition queryChar (c : ascii) : bool :=
  JS.formUnreserved c || JS.mem_char c "+%".
Definition fragmentChar (c : ascii) : bool :=
  JS.uriUnreserved c || JS.mem_char c "%".

(* ===================================================================== *)
(** * Properties *)
(* ===================================================================== *)

(** ** Strings *)

Lemma string_app_assoc (a b c : string) : (a ++ b) ++ c = a ++ (b ++ c).
Proof.
  induction a as [|x a IH]; [reflexivity |].
  change (String x ((a ++ b) ++ c) = String x (a ++ (b ++ c))).
  f_equal. exact IH.
Qed.

Lemma formUrlencode_safe (s : string) :
  formSafe s = true -> JS.formUrlencode s = s.
Proof.
  induction s as [|c s IH]; simpl; [reflexivity |].
  intros H. apply andb_prop in H as [Hc Hs].
  rewrite Hc, (IH Hs). reflexivity.
Qed.

(** The query string of [generateVlessUri], computed once for symbolic
    values. *)
Lemma vless_params_toString (pk sni sid : string) :
  JS.URLSearchParams_toString
    [ ("type", "tcp"); ("security", "reality"); ("pbk", pk); ("fp", "chrome");
      ("sni", sni); ("sid", sid); ("flow", FLOW) ]
  = "type=tcp&security=reality&pbk=" ++ JS.formUrlencode pk
      ++ "&fp=chrome&sni=" ++ JS.formUrlencode sni
      ++ "&sid=" ++ JS.formUrlencode sid ++ "&flow=xtls-rprx-vision".
Proof. reflexivity. Qed.

(** ** The config compiler *)

Lemma Protocol_eqb_eq (a b : Protocol) : Protocol_eqb a b = true <-> a = b.
Proof. destruct a, b; simpl; split; congruence. Qed.

Lemma TLSType_eqb_eq (a b : TLSType) : TLSType_eqb a b = true <-> a = b.
Proof. destruct a, b; simpl; split; congruence. Qed.

Lemma toSingboxInbound_users (users : list User.t) (inbound : InboundConfig.t) :
  SingboxInbound.users (toSingboxInbound users inbound)
  = List.map (fun u => SingboxUser.mk (User.id u) (User.name u) "xtls-rprx-vision")
      (List.filter (fun u => User.enabled u) users).
Proof. reflexivity. Qed.

(** C1. In the compiled native configuration there is one inbound per
    configured inbound, and the user list of each of them is the roster
    restricted to the users with [enabled = true], in roster order, every
    entry made of the user's id (as uuid), the name and the fixed flow
    "xtls-rprx-vision"; an entry is in the list exactly when it comes from
    an enabled user of the roster, so a disabled user contributes nothing. *)
Theorem toSingboxConfig_emits_enabled_users
    (serverConfig : ServerConfig.t) (users : list User.t) :
  let compiled := SingboxConfig.inbounds (toSingboxConfig serverConfig users) in
  let entry := fun u => SingboxUser.mk (User.id u) (User.name u) "xtls-rprx-vision" in
  length compiled = length (ServerConfig.inbounds serverConfig) /\
  Forall (fun ib =>
            SingboxInbound.users ib
            = List.map entry (List.filter (fun u => User.enabled u) users) /\
            forall e, In e (SingboxInbound.users ib) <->
                      exists u, In u users /\ User.enabled u = true /\ e = entry u)
         compiled.
Proof.
  intros compiled entry. subst compiled. unfold toSingboxConfig. simpl.
  split; [apply length_map |].
  apply List.Forall_forall. intros ib Hib.
  apply in_map_iff in Hib as [inbound [<- _]].
  rewrite toSingboxInbound_users. split; [reflexivity |].
  intros e. rewrite in_map_iff. split.
  - intros [u [<- Hu]]. apply filter_In in Hu as [Hin Hen]. eauto.
  - intros [u [Hin [Hen ->]]]. exists u. split; [reflexivity |].
    apply filter_In. auto.
Qed.

(** ** The URI generator *)

Lemma head_nonempty {A} (l : list A) : l <> [] -> exists x, head l = Some x.
Proof. destruct l as [|x l]; [congruence | eauto]. Qed.

Lemma or_string_Some (s : string) : JS.or_string (Some s) EmptyString = s.
Proof.
  unfold JS.or_string. destruct (String.eqb_spec s EmptyString); congruence.
Qed.

Lemma generateVlessUri_supported (user : User.t) (serverConfig : ServerConfig.t)
    (inbound : InboundConfig.t) (r : RealityConfig.t) (sni sid : string) :
  InboundConfig.protocol inbound = Vless ->
  InboundConfig.tlsType inbound = TlsReality ->
  InboundConfig.reality inbound = Some r ->
  head (RealityConfig.serverNames r) = Some sni ->
  head (RealityConfig.shortIds r) = Some sid ->
  generateVlessUri user serverConfig inbound
  = Return (encodedUri (User.id user) (ServerConfig.host serverConfig)
              (InboundConfig.port inbound) (RealityConfig.publicKey r) sni sid
              (User.name user)).
Proof.
  intros Hp Ht Hr Hsni Hsid. unfold generateVlessUri.
  rewrite Hp, Ht, Hr, Hsni, Hsid.
  cbn [Protocol_eqb TLSType_eqb negb orb JS.toString].
  rewrite vless_params_toString. unfold encodedUri. f_equal.
  repeat (apply (f_equal (String.append _)) || rewrite string_app_assoc).
  reflexivity.
Qed.

Lemma encodedUri_safe (userId host : string) (port : Z)
    (publicKey sni sid userName : string) :
  formSafe publicKey = true -> formSafe sni = true -> formSafe sid = true ->
  encodedUri userId host port publicKey sni sid userName
  = Spec.canonicalUri userId host port publicKey sni sid userName.
Proof.
  intros H1 H2 H3. unfold encodedUri, Spec.canonicalUri.
  now rewrite !formUrlencode_safe.
Qed.

(** The URI for a public key in the standard base64 alphabet. *)
Lemma generateVlessUri_b64_run :
  generateVlessUri Example.alice Example.server_b64 Example.inbound_b64
  = Return ("vless://00010203-0405-4607-8809-0a0b0c0d0e0f@203.0.113.5:443"
            ++ "?type=tcp&security=reality"
            ++ "&pbk=Trm5Xv%2B1mZ8n%2F0fWx2eXgA3dYb9cK1sQv7hJ4uLp6kE%3D"
            ++ "&fp=chrome&sni=www.google.com&sid=ab12cd34"
            ++ "&flow=xtls-rprx-vision#alice").
Proof. vm_compute. reflexivity. Qed.

(** C3 as stated does not hold: with a public key in the standard base64
    alphabet the query string carries the escaped key, not the key itself. *)
Lemma generateVlessUri_not_verbatim :
  generateVlessUri Example.alice Example.server_b64 Example.inbound_b64
  = Return ("vless://00010203-0405-4607-8809-0a0b0c0d0e0f@203.0.113.5:443"
            ++ "?type=tcp&security=reality"
            ++ "&pbk=Trm5Xv%2B1mZ8n%2F0fWx2eXgA3dYb9cK1sQv7hJ4uLp6kE%3D"
            ++ "&fp=chrome&sni=www.google.com&sid=ab12cd34"
            ++ "&flow=xtls-rprx-vision#alice")
  /\ ~ Spec.uriIsCanonical Example.alice Example.server_b64 Example.inbound_b64.
Proof.
  split; [exact generateVlessUri_b64_run |].
  intros (r & sni & sid & Hr & Hsni & Hsid & H).
  injection Hr as <-. injection Hsni as <-. injection Hsid as <-.
  vm_compute in H. discriminate H.
Qed.

(** C3, amended. For an inbound with protocol vless, tlsType reality and a
    Reality block whose serverNames and shortIds are not empty,
    [generateVlessUri] returns the canonical string with the three
    configurable query values (pbk, sni, sid) form-urlencoded, the parameters
    in the fixed order; when these three values consist of the bytes the
    encoding leaves alone (as base64url keys, host names and hexadecimal
    short ids do) this is the canonical string of the specification,
    character for character.  The result depends on the three arguments
    only. *)
Theorem generateVlessUri_canonical_form
    (user : User.t) (serverConfig : ServerConfig.t) (inbound : InboundConfig.t)
    (r : RealityConfig.t) (sni sid : string) :
  InboundConfig.protocol inbound = Vless ->
  InboundConfig.tlsType inbound = TlsReality ->
  InboundConfig.reality inbound = Some r ->
  head (RealityConfig.serverNames r) = Some sni ->
  head (RealityConfig.shortIds r) = Some sid ->
  generateVlessUri user serverConfig inbound
  = Return (encodedUri (User.id user) (ServerConfig.host serverConfig)
              (InboundConfig.port inbound) (RealityConfig.publicKey r) sni sid
              (User.name user))
  /\ (formSafe (RealityConfig.publicKey r) = true ->
      formSafe sni = true -> formSafe sid = true ->
      Spec.uriIsCanonical user serverConfig inbound)
  /\ (forall user' serverConfig' inbound',
        user' = user -> serverConfig' = serverConfig -> inbound' = inbound ->
        generateVlessUri user' serverConfig' inbound'
        = generateVlessUri user serverConfig inbound).
Proof.
  intros Hp Ht Hr Hsni Hsid.
  pose proof (generateVlessUri_supported user serverConfig inbound r sni sid
                Hp Ht Hr Hsni Hsid) as Heq.
  split; [exact Heq |]. split.
  - intros H1 H2 H3. exists r, sni, sid. repeat split; try assumption.
    rewrite Heq. f_equal. now apply encodedUri_safe.
  - intros ? ? ? -> -> ->. reflexivity.
Qed.

Lemma generateVlessUri_canonical_form_witness :
  generateVlessUri Example.alice Example.server_b64 Example.inbound_b64
  = Return (encodedUri "00010203-0405-4607-8809-0a0b0c0d0e0f" "203.0.113.5" 443
              "Trm5Xv+1mZ8n/0fWx2eXgA3dYb9cK1sQv7hJ4uLp6kE=" "www.google.com"
              "ab12cd34" "alice").
Proof.
  exact (proj1 (generateVlessUri_canonical_form Example.alice Example.server_b64
                  Example.inbound_b64 Example.reality_b64 "www.google.com" "ab12cd34"
                  eq_refl eq_refl eq_refl eq_refl eq_refl)).
Defined.

Lemma generateVlessUri_rejects_other_combinations_aux
    (user : User.t) (serverConfig : ServerConfig.t) (inbound : InboundConfig.t) :
  (InboundConfig.protocol inbound <> Vless \/
   InboundConfig.tlsType inbound <> TlsReality ->
   generateVlessUri user serverConfig inbound
   = Throw (Error "Only VLESS+Reality is supported")) /\
  (forall uri,
     generateVlessUri user serverConfig inbound = Return uri ->
     InboundConfig.protocol inbound = Vless /\
     InboundConfig.tlsType inbound = TlsReality).
Proof.
  unfold generateVlessUri. split.
  - intros [H | H].
    + destruct (InboundConfig.protocol inbound); try contradiction; reflexivity.
    + destruct (InboundConfig.protocol inbound), (InboundConfig.tlsType inbound);
        try contradiction; reflexivity.
  - intros uri.
    destruct (InboundConfig.protocol inbound), (InboundConfig.tlsType inbound);
      simpl; try discriminate; auto.
Qed.

(** C4. When the inbound's protocol is not vless or its tlsType is not
    reality, [generateVlessUri] throws the error "Only VLESS+Reality is
    supported" and returns no string; it returns a URI only for protocol
    vless with tlsType reality. *)
Theorem generateVlessUri_rejects_other_combinations
    (user : User.t) (serverConfig : ServerConfig.t) (inbound : InboundConfig.t) :
  (InboundConfig.protocol inbound <> Vless \/
   InboundConfig.tlsType inbound <> TlsReality ->
   generateVlessUri user serverConfig inbound
   = Throw (Error "Only VLESS+Reality is supported")) /\
  (forall uri,
     generateVlessUri user serverConfig inbound = Return uri ->
     InboundConfig.protocol inbound = Vless /\
     InboundConfig.tlsType inbound = TlsReality).
Proof. exact (generateVlessUri_rejects_other_combinations_aux user serverConfig inbound). Qed.

Lemma generateVlessUri_rejects_other_combinations_witness :
  generateVlessUri Example.alice Example.server Example.inbound_vmess
  = Throw (Error "Only VLESS+Reality is supported")
  /\ InboundConfig.protocol Example.inbound_b64 = Vless
  /\ InboundConfig.tlsType Example.inbound_b64 = TlsReality.
Proof.
  split.
  - apply (proj1 (generateVlessUri_rejects_other_combinations
                    Example.alice Example.server Example.inbound_vmess)).
    left. simpl. discriminate.
  - apply (proj2 (generateVlessUri_rejects_other_combinations
                    Example.alice Example.server_b64 Example.inbound_b64)
             _ generateVlessUri_b64_run).
Defined.

(** ** The client descriptors *)

Lemma result_map_Forall2 {A B} (f : A -> Result B) (P : A -> B -> Prop) (xs : list A) :
  (forall x, In x xs -> exists y, f x = Return y /\ P x y) ->
  exists ys, result_map f xs = Return ys /\ Forall2 P xs ys.
Proof.
  induction xs as [|x xs IH]; intros H; simpl.
  - exists []. split; [reflexivity | constructor].
  - destruct (H x (or_introl eq_refl)) as (y & Hy & HP).
    destruct IH as (ys & Hys & HF); [intros; apply H; now right |].
    exists (y :: ys). rewrite Hy, Hys. simpl. split; [reflexivity | now constructor].
Qed.

Lemma result_map_throws {A B} (f : A -> Result B) (xs : list A) :
  Exists (fun x => exists e, f x = Throw e) xs ->
  exists e, result_map f xs = Throw e.
Proof.
  induction 1 as [x xs [e He] | x xs _ [e IH]]; simpl.
  - rewrite He. simpl. eauto.
  - destruct (f x); simpl; [rewrite IH; simpl |]; eauto.
Qed.

Lemma generateClientConfig_b64_run :
  generateClientConfig Example.alice Example.server_b64
  = Return
      [ ClientConfig.mk "00010203-0405-4607-8809-0a0b0c0d0e0f" Vless
          ("vless://00010203-0405-4607-8809-0a0b0c0d0e0f@203.0.113.5:443"
           ++ "?type=tcp&security=reality"
           ++ "&pbk=Trm5Xv%2B1mZ8n%2F0fWx2eXgA3dYb9cK1sQv7hJ4uLp6kE%3D"
           ++ "&fp=chrome&sni=www.google.com&sid=ab12cd34"
           ++ "&flow=xtls-rprx-vision#alice")
          None
          (Some (Manual.mk "203.0.113.5" 443 "00010203-0405-4607-8809-0a0b0c0d0e0f"
                   "xtls-rprx-vision" "reality" "www.google.com" "chrome"
                   "Trm5Xv+1mZ8n/0fWx2eXgA3dYb9cK1sQv7hJ4uLp6kE=" "ab12cd34")) ].
Proof. vm_compute. reflexivity. Qed.




(** ** Identifiers *)

(** The high digit of the seventh byte is the version. *)
Lemma version_nibble (m : Z) : 0 <= m < 16 -> Z.lor m 64 mod 256 / 16 = 4.
Proof.
  intros Hm. rewrite <- (Z2Nat.id m) by lia.
  assert (Z.to_nat m < 16)%nat as Hk by lia.
  set (k := Z.to_nat m) in *. clearbody k. clear Hm.
  do 16 (destruct k as [|k]; [reflexivity |]). lia.
Qed.

Lemma hexDigitLower_isLowerHex (n : N) : isLowerHex (JS.hexDigitLower n) = true.
Proof.
  destruct n as [|p]; [reflexivity |].
  do 4 (destruct p as [p|p|]; try reflexivity).
Qed.

Lemma hexDigitUpper_queryChar (n : N) :
  JS.isAsciiAlphanumeric (JS.hexDigitUpper n) = true.
Proof.
  destruct n as [|p]; [reflexivity |].
  do 4 (destruct p as [p|p|]; try reflexivity).
Qed.

Lemma toHex_chars (bytes : list Z) : Forall (fun c => isLowerHex c = true) (chars (JS.toHex bytes)).
Proof.
  induction bytes as [|b bytes IH]; simpl; [constructor |].
  repeat constructor; try apply hexDigitLower_isLowerHex. exact IH.
Qed.

Lemma toHex_length (bytes : list Z) :
  String.length (JS.toHex bytes) = (2 * length bytes)%nat.
Proof. induction bytes as [|b bytes IH]; simpl; [reflexivity | rewrite IH; lia]. Qed.

Lemma isLowerHex_formUnreserved (c : ascii) :
  isLowerHex c = true -> JS.formUnreserved c = true.
Proof.
  unfold isLowerHex, JS.formUnreserved, JS.isAsciiAlphanumeric, JS.in_range.
  intros H. apply orb_true_iff. left.
  apply orb_true_iff in H as [H | H].
  - rewrite H. reflexivity.
  - apply andb_true_iff in H as [H1 H2].
    apply N.leb_le in H1. apply N.leb_le in H2.
    rewrite !orb_true_iff. right.
    apply andb_true_iff. split; apply N.leb_le; lia.
Qed.

Lemma toHex_formSafe (bytes : list Z) : formSafe (JS.toHex bytes) = true.
Proof.
  induction bytes as [|b bytes IH]; simpl; [reflexivity |].
  rewrite !isLowerHex_formUnreserved by apply hexDigitLower_isLowerHex.
  exact IH.
Qed.

(** The high digit of the ninth byte is the variant. *)
Lemma variant_nibble (m : Z) :
  0 <= m < 64 ->
  JS.mem_char (JS.hexDigitLower (Z.to_N (Z.lor m 128 mod 256 / 16))) "89ab" = true.
Proof.
  intros Hm. rewrite <- (Z2Nat.id m) by lia.
  assert (Z.to_nat m < 64)%nat as Hk by lia.
  set (k := Z.to_nat m) in *. clearbody k. clear Hm.
  do 64 (destruct k as [|k]; [reflexivity |]). lia.
Qed.

(** X1. From 16 random bytes [generateUUID] builds a version-4 UUID in the
    hyphenated form: 36 characters, hyphens at positions 8, 13, 18 and 23,
    the version digit 4 at position 14, a variant digit 8, 9, a or b at
    position 19, and nothing but lower-case hexadecimal digits and
    hyphens. *)
Theorem generateUUID_shape (random16 : list Z) :
  length random16 = 16%nat ->
  String.length (generateUUID random16) = 36%nat /\
  String.get 8 (generateUUID random16) = Some "-"%char /\
  String.get 13 (generateUUID random16) = Some "-"%char /\
  String.get 14 (generateUUID random16) = Some "4"%char /\
  String.get 18 (generateUUID random16) = Some "-"%char /\
  String.get 23 (generateUUID random16) = Some "-"%char /\
  (exists v, String.get 19 (generateUUID random16) = Some v /\
             JS.mem_char v "89ab" = true) /\
  Forall (fun c => isLowerHex c || Ascii.eqb c "-" = true)
    (chars (generateUUID random16)).
Proof.
  intros Hlen.
  do 17 (destruct random16 as [|? random16]; try discriminate Hlen).
  unfold generateUUID, JS.bufferSet, JS.bufferGet. simpl.
  split; [reflexivity |]. split; [reflexivity |]. split; [reflexivity |].
  split.
  { match goal with |- context [Z.lor (Z.land ?b 15) 64] =>
      rewrite (version_nibble (Z.land b 15)); [reflexivity |];
      change 15 with (Z.ones 4); rewrite Z.land_ones by lia;
      apply Z.mod_pos_bound; lia
    end. }
  split; [reflexivity |]. split; [reflexivity |]. split.
  { eexists. split; [reflexivity |].
    match goal with |- context [Z.lor (Z.land ?b 63) 128] =>
      apply (variant_nibble (Z.land b 63));
      change 63 with (Z.ones 6); rewrite Z.land_ones by lia;
      apply Z.mod_pos_bound; lia
    end. }
  repeat (constructor;
          [first [reflexivity | rewrite hexDigitLower_isLowerHex; reflexivity] |]).
  constructor.
Qed.

Lemma generateUUID_shape_witness :
  String.length (generateUUID Example.random16) = 36%nat.
Proof.
  exact (proj1 (generateUUID_shape Example.random16 eq_refl)).
Defined.

Lemma hexValue_hexDigitLower (n : N) : (n < 16)%N -> hexValue (JS.hexDigitLower n) = n.
Proof.
  intros Hn. rewrite <- (N2Nat.id n).
  assert (N.to_nat n < 16)%nat as Hk by lia.
  set (k := N.to_nat n) in *. clearbody k. clear Hn.
  do 16 (destruct k as [|k]; [reflexivity |]). lia.
Qed.

Lemma hex_pair_inj (x y : Z) :
  0 <= x < 256 -> 0 <= y < 256 ->
  JS.hexDigitLower (Z.to_N (x / 16)) = JS.hexDigitLower (Z.to_N (y / 16)) ->
  JS.hexDigitLower (Z.to_N (x mod 16)) = JS.hexDigitLower (Z.to_N (y mod 16)) ->
  x = y.
Proof.
  intros Hx Hy Hhi Hlo.
  assert (0 <= x / 16 < 16) by (split; [apply Z.div_pos | apply Z.div_lt_upper_bound]; lia).
  assert (0 <= y / 16 < 16) by (split; [apply Z.div_pos | apply Z.div_lt_upper_bound]; lia).
  assert (0 <= x mod 16 < 16) by (apply Z.mod_pos_bound; lia).
  assert (0 <= y mod 16 < 16) by (apply Z.mod_pos_bound; lia).
  apply (f_equal hexValue) in Hhi, Hlo.
  rewrite !hexValue_hexDigitLower in Hhi, Hlo by lia.
  apply Z2N.inj in Hhi, Hlo; try lia.
  rewrite (Z.div_mod x 16), (Z.div_mod y 16) by lia. congruence.
Qed.

(** X2. Two calls of [generateUUID] on 16 random bytes return the same id
    only when the random bytes agree up to the bits that the version and the
    variant overwrite. *)
Lemma generateUUID_inj (a b : list Z) :
  length a = 16%nat -> length b = 16%nat ->
  Forall (fun x => 0 <= x < 256) a -> Forall (fun x => 0 <= x < 256) b ->
  generateUUID a = generateUUID b -> uuidBytes a = uuidBytes b.
Proof.
  intros Ha Hb Hra Hrb.
  do 17 (destruct a as [|? a]; try discriminate Ha).
  do 17 (destruct b as [|? b]; try discriminate Hb).
  repeat match goal with
         | H : Forall _ (_ :: _) |- _ => apply Forall_cons in H as [? H]
         end.
  unfold generateUUID, uuidBytes, JS.bufferSet, JS.bufferGet. simpl.
  intros Heq. injection Heq as
    h0 l0 h1 l1 h2 l2 h3 l3 h4 l4 h5 l5 h6 l6 h7 l7
    h8 l8 h9 l9 h10 l10 h11 l11 h12 l12 h13 l13 h14 l14 h15 l15.
  repeat (apply (f_equal2 (@cons Z));
          [apply hex_pair_inj;
           [first [assumption | apply Z.mod_pos_bound; lia]
           |first [assumption | apply Z.mod_pos_bound; lia]
           |assumption | assumption] |]).
  reflexivity.
Qed.





(** ** The roster manager *)

Ltac unfold_monad :=
  unfold bind, ret, get, getState, modifyState, modify, throw, lift, warn, error,
    try_catch, writeFile, saveConfig in *.

Lemma matches_true (nameOrId : string) (u : User.t) :
  matches nameOrId u = true <-> User.name u = nameOrId \/ User.id u = nameOrId.
Proof.
  unfold matches. rewrite orb_true_iff, !String.eqb_eq. reflexivity.
Qed.

Lemma matches_false (nameOrId : string) (u : User.t) :
  matches nameOrId u = false <-> User.name u <> nameOrId /\ User.id u <> nameOrId.
Proof.
  unfold matches. rewrite orb_false_iff, !String.eqb_neq. reflexivity.
Qed.

Lemma findIndex_None {A} (p : A -> bool) (xs : list A) :
  findIndex p xs = None <-> forall x, In x xs -> p x = false.
Proof.
  induction xs as [|x xs IH]; simpl.
  - split; [intros _ ? [] | reflexivity].
  - destruct (p x) eqn:Hx.
    + split; [discriminate |]. intros H. specialize (H x (or_introl eq_refl)). congruence.
    + destruct (findIndex p xs); simpl.
      * split; [discriminate |]. intros H.
        assert (Some n = None) as Habs; [| discriminate Habs].
        apply IH. intros; apply H; now right.
      * split; [| reflexivity]. intros _ y [<- | Hy]; [exact Hx |].
        now apply (proj1 IH).
Qed.

Lemma findIndex_Some {A} (p : A -> bool) (xs : list A) (i : nat) :
  findIndex p xs = Some i <->
  exists x, xs !! i = Some x /\ p x = true /\
            forall j y, (j < i)%nat -> xs !! j = Some y -> p y = false.
Proof.
  revert i. induction xs as [|x xs IH]; intros i; simpl.
  - split; [discriminate | intros (y & Hy & _); discriminate Hy].
  - destruct (p x) eqn:Hx.
    + split.
      * intros [= <-]. exists x. repeat split; [exact Hx | intros; lia].
      * intros (y & Hy & Hpy & Hfirst). destruct i as [|i]; [reflexivity |].
        specialize (Hfirst 0%nat x (Nat.lt_0_succ _) eq_refl). congruence.
    + destruct (findIndex p xs) as [k|] eqn:Hk; simpl.
      * split.
        -- intros [= <-]. destruct (proj1 (IH k) eq_refl) as (y & Hy & Hpy & Hfirst).
           exists y. repeat split; [exact Hy | exact Hpy |].
           intros [|j] z Hj Hz; simpl in Hz; [congruence |].
           apply (Hfirst j z); [lia | exact Hz].
        -- intros (y & Hy & Hpy & Hfirst). destruct i as [|i]; simpl in Hy; [congruence |].
           f_equal. assert (Some k = Some i) as [= ->]; [| reflexivity].
           apply IH. exists y. repeat split; [exact Hy | exact Hpy |].
           intros j z Hj Hz. apply (Hfirst (S j) z); [lia | exact Hz].
      * split; [discriminate |].
        intros (y & Hy & Hpy & Hfirst). destruct i as [|i]; simpl in Hy; [congruence |].
        assert (@None nat = Some i) as Habs; [| discriminate Habs].
        apply IH. exists y. repeat split; [exact Hy | exact Hpy |].
        intros j z Hj Hz. apply (Hfirst (S j) z); [lia | exact Hz].
Qed.

Lemma findIndex_noMatch (nameOrId : string) (users : list User.t) :
  findIndex (matches nameOrId) users = None <-> noMatch nameOrId users.
Proof.
  rewrite findIndex_None. unfold noMatch.
  split; intros H u Hu; apply matches_false; auto.
Qed.

Lemma findIndex_firstMatch (nameOrId : string) (users : list User.t)
    (index : nat) (x : User.t) :
  firstMatch nameOrId users index x <->
  findIndex (matches nameOrId) users = Some index /\ users !! index = Some x.
Proof.
  rewrite findIndex_Some. unfold firstMatch. split.
  - intros (Hx & Hm & Hfirst). split; [| exact Hx].
    exists x. repeat split; [exact Hx | now apply matches_true |].
    intros j y Hj Hy. apply matches_false. eauto.
  - intros ((y & Hy & Hm & Hfirst) & Hx).
    assert (y = x) as -> by congruence.
    split; [exact Hx |]. split; [now apply matches_true |].
    intros j z Hj Hz. apply matches_false. eauto.
Qed.

(** [saveState()] then [regenerateConfig()], then the rest of a method. *)
Lemma commit_then {A} (k : M A) (w : World.t) :
  (UserManager.saveState ;; UserManager.regenerateConfig ;; k) w
  = if Disk.writable (World.disk w) then k (committed w)
    else (Throw (SystemError "EACCES"), w).
Proof.
  unfold UserManager.saveState, UserManager.regenerateConfig, committed,
    roster, serverOf.
  unfold_monad. destruct w as [s [sf cf wr] p l]. simpl.
  destruct wr; reflexivity.
Qed.

Lemma commit_run (w : World.t) :
  (UserManager.saveState ;; UserManager.regenerateConfig) w
  = if Disk.writable (World.disk w) then (Return tt, committed w)
    else (Throw (SystemError "EACCES"), w).
Proof.
  unfold UserManager.saveState, UserManager.regenerateConfig, committed,
    roster, serverOf.
  unfold_monad. destruct w as [s [sf cf wr] p l]. simpl.
  destruct wr; reflexivity.
Qed.

Lemma committed_state (w : World.t) : World.state (committed w) = World.state w.
Proof. reflexivity. Qed.

(** The user record [addUser] builds. *)
Lemma addUser_run (name : string) (options : AddUserOptions.t)
    (random16 : list Z) (now : Z) (w : World.t) :
  let user :=
    User.mk (generateUUID random16) name (AddUserOptions.email options) now
      (AddUserOptions.expiresAt options) true
      (JS.or_zero (AddUserOptions.trafficLimit options)) 0 in
  let w1 := World.set_state
              (ManagerState.set_users (roster w ++ [user]) (World.state w)) w in
  UserManager.addUser name options random16 now w
  = if existsb (fun u => String.eqb (User.name u) name) (roster w)
    then (Throw (Error ("User " ++ JS.dq ++ name ++ JS.dq ++ " already exists")), w)
    else match generateClientConfig user (serverOf w) with
         | Throw e => (Throw e, w1)
         | Return configs =>
             let w2 := World.set_state
                         (ManagerState.set_clientConfigs (cache w ++ configs)
                            (World.state w1)) w1 in
             if Disk.writable (World.disk w)
             then match AddUserOptions.expiresAt options with
                  | Some JS.Date.Invalid =>
                      (Throw (RangeError "Invalid time value"), committed w2)
                  | _ => (Return (user, configs), committed w2)
                  end
             else (Throw (SystemError "EACCES"), w2)
         end.
Proof.
  intros user w1. unfold UserManager.addUser.
  unfold bind at 1. unfold getState at 1. unfold bind at 1, get at 1, ret at 1.
  fold (roster w).
  destruct (existsb _ (roster w)); [reflexivity |].
  fold user.
  unfold bind at 1. unfold modifyState at 1, modify at 1.
  fold (roster w). fold w1.
  unfold bind at 1. unfold getState at 1. unfold bind at 1, get at 1, ret at 1.
  unfold bind at 1, lift at 1.
  change (ManagerState.server (World.state w1)) with (serverOf w).
  destruct (generateClientConfig user (serverOf w)) as [configs | e]; [| reflexivity].
  unfold bind at 1. unfold modifyState at 1, modify at 1.
  rewrite commit_then. unfold UserManager.kvExpires, bind, throw, ret.
  destruct w as [s [sf cf wr] p l]. simpl. destruct wr; [| reflexivity].
  destruct (AddUserOptions.expiresAt options) as [[time |] |]; reflexivity.
Qed.

Lemma existsb_name (name : string) (users : list User.t) :
  existsb (fun u => String.eqb (User.name u) name) users = true
  <-> exists u, In u users /\ User.name u = name.
Proof.
  rewrite existsb_exists. split; intros (u & Hu & Hn); exists u;
    (split; [exact Hu |]); now apply String.eqb_eq.
Qed.

Lemma existsb_name_false (name : string) (users : list User.t) :
  existsb (fun u => String.eqb (User.name u) name) users = false
  <-> forall u, In u users -> User.name u <> name.
Proof.
  split.
  - intros H u Hu Hn.
    assert (existsb (fun u => String.eqb (User.name u) name) users = true) as Ht
      by (apply existsb_name; eauto).
    congruence.
  - intros H. destruct (existsb _ users) eqn:He; [| reflexivity].
    apply existsb_name in He as (u & Hu & Hn). now destruct (H u Hu).
Qed.

Lemma wellFormed_descriptors (user : User.t) (serverConfig : ServerConfig.t) :
  Forall wellFormedInbound (ServerConfig.inbounds serverConfig) ->
  exists configs, generateClientConfig user serverConfig = Return configs.
Proof.
  intros Hwf. unfold generateClientConfig.
  destruct (result_map_Forall2
              (fun inbound =>
                 result_bind (generateVlessUri user serverConfig inbound) (fun uri =>
                 Return (ClientConfig.mk (User.id user) (InboundConfig.protocol inbound)
                           uri None (Some (manualOf user serverConfig inbound)))))
              (fun _ _ => True) (ServerConfig.inbounds serverConfig))
    as (configs & Hrun & _); [| eauto].
  intros inbound Hin. rewrite List.Forall_forall in Hwf.
  destruct (Hwf inbound Hin) as (Hp & Ht & r & Hr & Hsn & Hsi).
  destruct (head_nonempty _ Hsn) as (sni & Hsni).
  destruct (head_nonempty _ Hsi) as (sid & Hsid).
  rewrite (generateVlessUri_supported user serverConfig inbound r sni sid
             Hp Ht Hr Hsni Hsid).
  simpl. eauto.
Qed.



Lemma removeUser_run (nameOrId : string) (w : World.t) :
  UserManager.removeUser nameOrId w
  = match findIndex (matches nameOrId) (roster w) with
    | None =>
        (Return false,
         World.add_diagnostic LogWarn ("User " ++ JS.dq ++ nameOrId ++ JS.dq ++ " not found") w)
    | Some index =>
        match roster w !! index with
        | None => (Throw (TypeError "Cannot read properties of undefined (reading 'id')"), w)
        | Some user =>
            let w1 :=
              World.set_state
                (ManagerState.mk (ManagerState.version (World.state w)) (serverOf w)
                   (delete index (roster w))
                   (List.filter
                      (fun c => negb (String.eqb (ClientConfig.userId c) (User.id user)))
                      (cache w)))
                w in
            if Disk.writable (World.disk w)
            then (Return true, committed w1)
            else (Throw (SystemError "EACCES"), w1)
        end
    end.
Proof.
  unfold UserManager.removeUser.
  unfold bind at 1. unfold getState at 1. unfold bind at 1, get at 1, ret at 1.
  fold (roster w).
  destruct (findIndex (matches nameOrId) (roster w)) as [index |]; [| reflexivity].
  destruct (roster w !! index) as [user |]; [| reflexivity].
  unfold bind at 1. unfold modifyState at 1, modify at 1.
  unfold bind at 1. unfold modifyState at 1, modify at 1.
  rewrite commit_then. unfold ret.
  destruct w as [s [sf cf wr] p l]. simpl. destruct wr; reflexivity.
Qed.

Lemma setUserEnabled_run (nameOrId : string) (enabled : bool) (w : World.t) :
  UserManager.setUserEnabled nameOrId enabled w
  = match findIndex (matches nameOrId) (roster w) with
    | None =>
        (Return false,
         World.add_diagnostic LogWarn ("User " ++ JS.dq ++ nameOrId ++ JS.dq ++ " not found") w)
    | Some index =>
        let w1 :=
          World.set_state
            (ManagerState.set_users
               (alter (User.set_enabled enabled) index (roster w)) (World.state w))
            w in
        if Disk.writable (World.disk w)
        then (Return true, committed w1)
        else (Throw (SystemError "EACCES"), w1)
    end.
Proof.
  unfold UserManager.setUserEnabled.
  unfold bind at 1. unfold getState at 1. unfold bind at 1, get at 1, ret at 1.
  fold (roster w).
  destruct (findIndex (matches nameOrId) (roster w)) as [index |]; [| reflexivity].
  unfold bind at 1. unfold modifyState at 1, modify at 1.
  rewrite commit_then. unfold ret.
  destruct w as [s [sf cf wr] p l]. simpl. destruct wr; reflexivity.
Qed.

Lemma delete_removes_NoDup {A} (l : list A) (i : nat) (x : A) :
  List.NoDup l -> l !! i = Some x -> ~ In x (delete i l).
Proof.
  intros Hnd Hi Hin. apply NoDup_ListNoDup in Hnd.
  rewrite delete_take_drop in Hin.
  rewrite <- (take_drop_middle l i x Hi) in Hnd.
  apply NoDup_app in Hnd as (_ & Hdisj & Hnd).
  apply NoDup_cons in Hnd as (Hnotin & _).
  apply in_app_or in Hin as [Hin | Hin].
  - apply (Hdisj x); [now apply list_elem_of_In | left].
  - apply Hnotin. now apply list_elem_of_In.
Qed.

Lemma map_delete {A B} (f : A -> B) (l : list A) (i : nat) :
  List.map f (delete i l) = delete i (List.map f l).
Proof.
  revert i. induction l as [|a l IH]; intros [|i]; simpl; try reflexivity.
  f_equal. apply IH.
Qed.

Lemma delete_removes_id (users : list User.t) (i : nat) (x : User.t) :
  List.NoDup (List.map User.id users) -> users !! i = Some x ->
  forall y, In y (delete i users) -> User.id y <> User.id x.
Proof.
  intros Hnd Hi y Hy Heq.
  apply (delete_removes_NoDup (List.map User.id users) i (User.id x) Hnd).
  - change (List.map User.id users) with (User.id <$> users).
    now rewrite list_lookup_fmap, Hi.
  - rewrite <- map_delete, <- Heq. now apply in_map.
Qed.

(** C6. When [nameOrId] names no roster entry, by name or by id,
    [removeUser] reports "not found" (it returns false after a warning) and
    the manager's state and the files are unchanged.  When [x] is the first
    roster entry whose name or id is [nameOrId], then on a writable disk
    [removeUser] returns true, and whenever it returns true the roster is
    the old one without the entry at [x]'s position (so [x] is absent from a
    roster without repeated entries, and no entry with [x]'s id is left in
    a roster whose ids are pairwise distinct), no descriptor whose userId is
    [x]'s id remains in the cache, the descriptors of other users stay, and
    the server config is unchanged. *)
Theorem removeUser_cascades (nameOrId : string) (w : World.t) :
  (noMatch nameOrId (roster w) ->
   UserManager.removeUser nameOrId w
   = (Return false,
      World.add_diagnostic LogWarn ("User " ++ JS.dq ++ nameOrId ++ JS.dq ++ " not found") w)) /\
  (forall index x,
     firstMatch nameOrId (roster w) index x ->
     (Disk.writable (World.disk w) = true ->
      exists w', UserManager.removeUser nameOrId w = (Return true, w')) /\
     (forall w',
        UserManager.removeUser nameOrId w = (Return true, w') ->
        roster w' = delete index (roster w) /\
        length (roster w') = (length (roster w) - 1)%nat /\
        (List.NoDup (roster w) -> ~ In x (roster w')) /\
        (List.NoDup (List.map User.id (roster w)) ->
         forall y, In y (roster w') -> User.id y <> User.id x) /\
        (forall c, In c (cache w') -> ClientConfig.userId c <> User.id x) /\
        (forall c, In c (cache w) -> ClientConfig.userId c <> User.id x ->
                   In c (cache w')) /\
        (forall c, In c (cache w') -> In c (cache w)) /\
        serverOf w' = serverOf w)).
Proof.
  rewrite removeUser_run. split.
  - intros Hno. apply findIndex_noMatch in Hno. now rewrite Hno.
  - intros index x Hfirst.
    apply findIndex_firstMatch in Hfirst as [Hidx Hx]. rewrite Hidx, Hx. cbv zeta.
    split.
    + intros ->. eauto.
    + intros w' Hrun.
      destruct (Disk.writable (World.disk w)); [| discriminate Hrun].
      injection Hrun as <-.
      split; [reflexivity |].
      split; [unfold roster at 1; simpl; apply length_delete; eauto |].
      split; [intros Hnd; now apply delete_removes_NoDup |].
      split; [intros Hnd; now apply delete_removes_id |].
      split; [| split; [| split; [| reflexivity]]].
      * intros c Hc. unfold cache at 1 in Hc. simpl in Hc.
        apply filter_In in Hc as [_ Hc].
        apply negb_true_iff, String.eqb_neq in Hc. exact Hc.
      * intros c Hc Hne. unfold cache at 1. simpl.
        apply filter_In. split; [exact Hc |].
        now apply negb_true_iff, String.eqb_neq.
      * intros c Hc. unfold cache at 1 in Hc. simpl in Hc.
        now apply filter_In in Hc as [Hc _].
Qed.

Lemma removeUser_cascades_witness :
  exists w', UserManager.removeUser "alice" Example.after_add = (Return true, w').
Proof.
  apply (proj1 (proj2 (removeUser_cascades "alice" Example.after_add)
                  0%nat Example.alice
                  (conj eq_refl
                     (conj (or_introl eq_refl)
                        (fun j y (H : (j < 0)%nat) _ =>
                           match Nat.nlt_0_r j H with end))))).
  reflexivity.
Defined.

(** C10. When [nameOrId] names no roster entry, [setUserEnabled] returns
    false and the manager's state and the files are unchanged.  When [x] is
    the first roster entry whose name or id is [nameOrId], then on a writable
    disk [setUserEnabled] returns true, and whenever it returns true the
    roster has the same length and order, the entry at [x]'s position is [x]
    with only its enabled flag replaced (id, name, email, createdAt,
    expiresAt, trafficLimit and trafficUsed are [x]'s), every other entry is
    unchanged, and so are the server config and the descriptor cache. *)
Theorem setUserEnabled_changes_only_the_flag
    (nameOrId : string) (enabled : bool) (w : World.t) :
  (noMatch nameOrId (roster w) ->
   UserManager.setUserEnabled nameOrId enabled w
   = (Return false,
      World.add_diagnostic LogWarn ("User " ++ JS.dq ++ nameOrId ++ JS.dq ++ " not found") w)) /\
  (forall index x,
     firstMatch nameOrId (roster w) index x ->
     (Disk.writable (World.disk w) = true ->
      exists w', UserManager.setUserEnabled nameOrId enabled w = (Return true, w')) /\
     (forall w',
        UserManager.setUserEnabled nameOrId enabled w = (Return true, w') ->
        length (roster w') = length (roster w) /\
        roster w' !! index
        = Some (User.mk (User.id x) (User.name x) (User.email x) (User.createdAt x)
                  (User.expiresAt x) enabled (User.trafficLimit x) (User.trafficUsed x)) /\
        (forall j, j <> index -> roster w' !! j = roster w !! j) /\
        serverOf w' = serverOf w /\
        cache w' = cache w /\
        ManagerState.version (World.state w') = ManagerState.version (World.state w))).
Proof.
  rewrite setUserEnabled_run. split.
  - intros Hno. apply findIndex_noMatch in Hno. now rewrite Hno.
  - intros index x Hfirst.
    apply findIndex_firstMatch in Hfirst as [Hidx Hx]. rewrite Hidx. cbv zeta.
    split.
    + intros ->. eauto.
    + intros w' Hrun.
      destruct (Disk.writable (World.disk w)); [| discriminate Hrun].
      injection Hrun as <-.
      unfold roster at 1 3 4. simpl. fold (roster w).
      split; [apply length_alter |].
      split; [rewrite list_lookup_alter_eq, Hx; reflexivity |].
      split; [intros j Hj; apply list_lookup_alter_ne; congruence |].
      repeat split.
Qed.

Lemma setUserEnabled_changes_only_the_flag_witness :
  exists w', UserManager.setUserEnabled "alice" false Example.after_add = (Return true, w').
Proof.
  apply (proj1 (proj2 (setUserEnabled_changes_only_the_flag "alice" false Example.after_add)
                  0%nat Example.alice
                  (conj eq_refl
                     (conj (or_introl eq_refl)
                        (fun j y (H : (j < 0)%nat) _ =>
                           match Nat.nlt_0_r j H with end))))).
  reflexivity.
Defined.

(** ** [initialize] *)

Lemma reviveUser_id (u : User.t) : UserManager.reviveUser u = u.
Proof. destruct u as [i n m c [x|] en tl tu]; reflexivity. Qed.

Lemma map_reviveUser (users : list User.t) :
  List.map UserManager.reviveUser users = users.
Proof.
  induction users as [|u users IH]; simpl; [reflexivity |].
  now rewrite reviveUser_id, IH.
Qed.

Lemma loadState_run (w : World.t) :
  UserManager.loadState w
  = match Disk.stateFile (World.disk w) with
    | NoFile => (Throw (SystemError "ENOENT"), w)
    | Garbled => (Throw SyntaxError, w)
    | Stored s => (Return tt, World.set_state s w)
    end.
Proof.
  unfold UserManager.loadState. unfold_monad.
  destruct (Disk.stateFile (World.disk w)) as [| | s]; try reflexivity.
  simpl. rewrite map_reviveUser. destruct s; reflexivity.
Qed.

Lemma initialize_run (host : string) (port : Z) (e : Entropy.t) (w : World.t) :
  UserManager.initialize host port e w
  = match Disk.stateFile (World.disk w) with
    | NoFile =>
        let w1 := World.set_state
                    (ManagerState.set_server (generateDefaultServerConfig host port e)
                       (World.state w)) w in
        if Disk.writable (World.disk w) then (Return tt, committed w1)
        else (Throw (SystemError "EACCES"), w1)
    | Garbled => (Throw SyntaxError, w)
    | Stored s => (Return tt, World.set_state s w)
    end.
Proof.
  unfold UserManager.initialize.
  unfold bind at 1. unfold UserManager.existsSync_statePath.
  unfold bind at 1, get at 1, ret at 1.
  destruct (Disk.stateFile (World.disk w)) as [| | s] eqn:Hf.
  - unfold bind at 1. unfold modifyState at 1, modify at 1.
    rewrite commit_run.
    destruct w as [st [sf cf wr] p l]. simpl. destruct wr; reflexivity.
  - unfold bind at 1. rewrite loadState_run, Hf. reflexivity.
  - unfold bind at 1. rewrite loadState_run, Hf. reflexivity.
Qed.

Lemma set_state_same (w : World.t) : World.set_state (World.state w) w = w.
Proof. destruct w; reflexivity. Qed.

(** When no state file exists, [initialize] is where the key material is
    drawn: the server config is built from the entropy of this call. *)
Lemma initialize_fresh (host : string) (port : Z) (e : Entropy.t) (w : World.t) :
  Disk.stateFile (World.disk w) = NoFile ->
  Disk.writable (World.disk w) = true ->
  exists w',
    UserManager.initialize host port e w = (Return tt, w') /\
    serverOf w' = generateDefaultServerConfig host port e /\
    realityKeys (serverOf w') = [Some (Entropy.keyPair e)] /\
    Disk.stateFile (World.disk w') = Stored (UserManager.stringify (World.state w')).
Proof.
  intros Hf Hw. rewrite initialize_run, Hf. cbv zeta. rewrite Hw.
  eexists. split; [reflexivity |]. split; [reflexivity |].
  split; [| reflexivity].
  unfold serverOf, realityKeys, generateDefaultServerConfig, generateRealityConfig.
  simpl. destruct (Entropy.keyPair e). reflexivity.
Qed.

(** C7. When a persisted state [s] exists, [initialize(host, port)] loads
    it: the manager's state becomes [s], so the roster and the server config
    with its Reality private and public keys are the persisted ones, the
    files are not touched, and neither the arguments nor any fresh key
    material influence the result.  Calling it again gives the same state,
    and when the manager already holds the persisted state the call changes
    nothing at all. *)
Theorem initialize_loads_existing_state
    (host : string) (port : Z) (e : Entropy.t) (w : World.t) (s : ManagerState.t) :
  Disk.stateFile (World.disk w) = Stored s ->
  let w' := snd (UserManager.initialize host port e w) in
  UserManager.initialize host port e w = (Return tt, World.set_state s w) /\
  roster w' = ManagerState.users s /\
  serverOf w' = ManagerState.server s /\
  realityKeys (serverOf w') = realityKeys (ManagerState.server s) /\
  World.disk w' = World.disk w /\
  UserManager.initialize host port e w' = (Return tt, w') /\
  (World.state w = s -> w' = w) /\
  (forall host' port' e',
     UserManager.initialize host' port' e' w = UserManager.initialize host port e w).
Proof.
  intros Hf w'.
  assert (forall h p en, UserManager.initialize h p en w = (Return tt, World.set_state s w))
    as Hrun by (intros; now rewrite initialize_run, Hf).
  subst w'. rewrite Hrun. simpl.
  split; [reflexivity |]. split; [reflexivity |]. split; [reflexivity |].
  split; [reflexivity |]. split; [reflexivity |]. split; [| split].
  - rewrite initialize_run. simpl. rewrite Hf. destruct w; reflexivity.
  - intros <-. apply set_state_same.
  - intros. now rewrite !Hrun.
Qed.

Lemma initialize_loads_existing_state_witness :
  UserManager.initialize "198.51.100.7" 8443 Example.entropy' Example.after_add
  = (Return tt, Example.after_add).
Proof.
  rewrite (proj1 (initialize_loads_existing_state "198.51.100.7" 8443 Example.entropy'
                    Example.after_add (World.state Example.after_add) eq_refl)).
  reflexivity.
Defined.

(** ** The uninitialized manager *)

(** C8 as stated does not hold: on a freshly constructed manager, with
    no state file, [addUser] goes through. *)
Lemma addUser_runs_uninitialized :
  ~ Spec.failsWhenUninitialized
      (UserManager.addUser "alice" AddUserOptions.none Example.random16 1700000000000).
Proof.
  intros H. destruct (H Example.fresh eq_refl eq_refl) as (e & w' & Hrun).
  vm_compute in Hrun. discriminate Hrun.
Qed.

Lemma loadOrExit_no_file (msg : string) (rest : M Cli.Ending) (w : World.t) :
  Disk.stateFile (World.disk w) = NoFile ->
  Cli.loadOrExit msg rest w
  = (Return (Cli.Exit 1), World.add_diagnostic LogError msg w).
Proof.
  intros Hf. unfold Cli.loadOrExit.
  unfold bind at 1. unfold try_catch. unfold bind at 1.
  rewrite loadState_run, Hf. reflexivity.
Qed.

(** C8, amended. The command-line operations [user:add], [user:remove],
    [user:list] and [user:show], invoked when no persisted state file exists,
    fail with the distinguished "Manager not initialized" error and exit
    status 1 instead of running the operation: the manager's state and the
    files are unchanged. *)
Theorem cli_reports_not_initialized (w : World.t) :
  Disk.stateFile (World.disk w) = NoFile ->
  (forall name email expiresAt random16 now,
     Cli.user_add name email expiresAt random16 now w
     = (Return (Cli.Exit 1),
        World.add_diagnostic LogError
          ("Manager not initialized. Run " ++ JS.dq ++ "singbox-manager init"
             ++ JS.dq ++ " first.") w)) /\
  (forall name,
     Cli.user_remove name w
     = (Return (Cli.Exit 1),
        World.add_diagnostic LogError "Manager not initialized." w)) /\
  Cli.user_list w
  = (Return (Cli.Exit 1), World.add_diagnostic LogError "Manager not initialized." w) /\
  (forall name,
     Cli.user_show name w
     = (Return (Cli.Exit 1),
        World.add_diagnostic LogError "Manager not initialized." w)).
Proof.
  intros Hf. repeat split; intros;
    unfold Cli.user_add, Cli.user_remove, Cli.user_list, Cli.user_show;
    now rewrite loadOrExit_no_file.
Qed.

Lemma cli_reports_not_initialized_witness :
  Cli.user_remove "alice" Example.fresh
  = (Return (Cli.Exit 1),
     World.add_diagnostic LogError "Manager not initialized." Example.fresh).
Proof.
  exact (proj1 (proj2 (cli_reports_not_initialized Example.fresh eq_refl)) "alice").
Defined.

(** ** [POST /api/reset] *)

(** C2 as stated does not hold: the server started on a state file
    written by the command line holds alice's descriptor in the cache, and
    the descriptor is still there after the reset. *)
Lemma reset_keeps_descriptor_cache :
  cache Example.serving <> [] /\
  ~ Spec.resetClearsEverything Example.env Example.entropy' Example.serving.
Proof.
  split; [vm_compute; discriminate |].
  intros [_ H]. vm_compute in H. discriminate H.
Qed.

(** C2, amended. On a writable disk the reset answers 200 and afterwards
    the server config is a newly generated default config, whose Reality key
    pair is the one drawn from the key provider during the reset and whose
    short ids are four newly drawn ones, and the user roster is empty; the
    new state is persisted and compiled.  The client-descriptor cache is
    left as it was. *)
Theorem reset_regenerates_server_and_empties_roster
    (env : Server.Env.t) (e : Entropy.t) (w : World.t) :
  Disk.writable (World.disk w) = true ->
  exists w',
    Server.handle (Server.reset env e) w
    = (Return (Server.Response.mk 200
                 (Server.BodySuccess (Some "Server reset, new keys generated"))), w') /\
    serverOf w' = generateDefaultServerConfig (Server.envHost env) (Server.envPort env) e /\
    realityKeys (serverOf w') = [Some (Entropy.keyPair e)] /\
    realityShortIds (serverOf w')
    = [Some (List.map (fun i => JS.toHex (Entropy.shortIdBytes e i)) [0; 1; 2; 3]%nat)] /\
    roster w' = [] /\
    cache w' = cache w /\
    Disk.stateFile (World.disk w') = Stored (World.state w') /\
    Disk.configFile (World.disk w') = Some (toSingboxConfig (serverOf w') []) /\
    Proc.running (World.proc w') = false /\
    Proc.scheduledStarts (World.proc w') = S (Proc.scheduledStarts (World.proc w)).
Proof.
  intros Hw. destruct w as [s [sf cf wr] [run bin h sch] l]. simpl in Hw. subst wr.
  unfold Server.handle, Server.reset, Server.saveState, Server.updateSingboxConfig,
    Server.reloadSingbox, Server.modifyProc, Server.sendJson.
  unfold_monad. simpl.
  eexists. split; [reflexivity |]. simpl.
  split; [reflexivity |].
  split; [unfold realityKeys, generateDefaultServerConfig, generateRealityConfig; simpl;
          destruct (Entropy.keyPair e); reflexivity |].
  split; [unfold realityShortIds, generateDefaultServerConfig, generateRealityConfig; simpl;
          destruct (Entropy.keyPair e); reflexivity |].
  repeat split. destruct run; reflexivity.
Qed.

Lemma reset_regenerates_server_and_empties_roster_witness :
  exists w',
    fst (Server.handle (Server.reset Example.env Example.entropy') Example.serving)
    = Return (Server.Response.mk 200
                (Server.BodySuccess (Some "Server reset, new keys generated"))) /\
    w' = snd (Server.handle (Server.reset Example.env Example.entropy') Example.serving) /\
    roster w' = [] /\
    realityKeys (serverOf w') = [Some ("bmV3UHJpdmF0ZQ", "bmV3UHVibGlj")].
Proof.
  destruct (reset_regenerates_server_and_empties_roster Example.env Example.entropy'
              Example.serving eq_refl)
    as (w' & Hrun & _ & Hkeys & _ & Hroster & _).
  exists w'. rewrite Hrun. repeat split; assumption.
Defined.

(** ** The HTTP routes and the remaining commands, for comparison *)

(** [POST /api/users] does not go through [addUser]: a second alice is
    accepted. *)
Lemma postUsers_accepts_duplicate_name :
  let run := Server.handle (Server.postUsers (Some "alice") Example.random16 1700000000002)
               Example.serving in
  List.map User.name (roster Example.serving) = ["alice"] /\
  (exists configs,
     fst run = Return (Server.Response.mk 200
                         (Server.BodyUser "00010203-0405-4607-8809-0a0b0c0d0e0f" "alice"
                            configs))) /\
  List.map User.name (roster (snd run)) = ["alice"; "alice"] /\
  cache (snd run) = cache Example.serving.
Proof.
  cbv zeta. split; [reflexivity |]. split; [eexists; vm_compute; reflexivity |].
  split; vm_compute; reflexivity.
Qed.

(** [DELETE /api/users/:id] does not go through [removeUser]: the roster
    entry goes, its descriptor stays in the cache. *)
Lemma deleteUser_keeps_descriptors :
  let run := Server.handle (Server.deleteUser "00010203-0405-4607-8809-0a0b0c0d0e0f")
               Example.serving in
  fst run = Return (Server.Response.mk 200 (Server.BodySuccess None)) /\
  roster (snd run) = [] /\
  List.map ClientConfig.userId (cache (snd run))
  = ["00010203-0405-4607-8809-0a0b0c0d0e0f"].
Proof. cbv zeta. repeat split; vm_compute; reflexivity. Qed.

(** [user:enable] without a state file ends with its own message. *)
Lemma user_enable_without_state_file (name : string) (enabled : bool) (w : World.t) :
  Disk.stateFile (World.disk w) = NoFile ->
  Cli.user_set_enabled name enabled w
  = (Return (Cli.Exit 1),
     World.add_diagnostic LogError
       (if enabled then "Failed to enable user" else "Failed to disable user") w).
Proof.
  intros Hf. unfold Cli.user_set_enabled, try_catch.
  unfold bind at 1. rewrite loadState_run, Hf. reflexivity.
Qed.

(** The methods of a freshly constructed manager work on the empty default
    state. *)
Lemma fresh_manager_reads :
  fst (UserManager.getUsers Example.fresh) = Return [] /\
  fst (UserManager.getStats Example.fresh) = Return (0, 0, 0)%nat /\
  fst (UserManager.getPublicKey Example.fresh) = Return None /\
  fst (UserManager.removeUser "alice" Example.fresh) = Return false /\
  fst (UserManager.setUserEnabled "alice" true Example.fresh) = Return false.
Proof. repeat split; reflexivity. Qed.

(** The scenario of the specification: initialize, add alice, disable her,
    remove her. *)
Lemma scenario :
  ServerConfig.host (serverOf Example.after_init) = "203.0.113.5" /\
  List.map (fun i => (InboundConfig.port i, InboundConfig.tlsType i))
    (ServerConfig.inbounds (serverOf Example.after_init)) = [(443, TlsReality)] /\
  List.map ClientConfig.uri (cache Example.after_add)
  = [ "vless://00010203-0405-4607-8809-0a0b0c0d0e0f@203.0.113.5:443"
      ++ "?type=tcp&security=reality&pbk=UHVibGljS2V5&fp=chrome"
      ++ "&sni=www.google.com&sid=00abcdef&flow=xtls-rprx-vision#alice" ] /\
  (let disabled := snd (UserManager.setUserEnabled "alice" false Example.after_add) in
   List.map SingboxInbound.users
     (SingboxConfig.inbounds (toSingboxConfig (serverOf disabled) (roster disabled)))
   = [[]] /\
   let removed := snd (UserManager.removeUser "alice" disabled) in
   fst (UserManager.getUsers removed) = Return [] /\
   fst (UserManager.getClientConfigs "alice" removed) = Return []).
Proof. repeat split; vm_compute; reflexivity. Qed.

(** * Further properties of the sources *)

(** ** [utils/crypto.js] *)

Lemma generateUUID_inj_witness :
  uuidBytes (<[6%nat := 6]> Example.random16) = uuidBytes (<[6%nat := 22]> Example.random16).
Proof.
  apply (generateUUID_inj (<[6%nat := 6]> Example.random16) (<[6%nat := 22]> Example.random16));
    try reflexivity;
    vm_compute; repeat constructor; discriminate.
Defined.

(** X3. [generateShortIds(count)] returns exactly [count] ids; each is
    twice as long as its random buffer (8 characters for four bytes) and made
    of lower-case hexadecimal digits only, so the form serializer of the URI
    leaves it untouched. *)
Theorem generateShortIds_shape (count : nat) (draw : nat -> list Z) :
  length (generateShortIds count draw) = count /\
  Forall (fun id => Forall (fun c => isLowerHex c = true) (chars id) /\
                    formSafe id = true)
         (generateShortIds count draw) /\
  ((forall i, length (draw i) = 4%nat) ->
   Forall (fun id => String.length id = 8%nat) (generateShortIds count draw)).
Proof.
  unfold generateShortIds, generateShortId. split; [| split].
  - now rewrite length_map, length_seq.
  - apply List.Forall_forall. intros id Hid.
    apply in_map_iff in Hid as (i & <- & _).
    split; [apply toHex_chars | apply toHex_formSafe].
  - intros Hlen. apply List.Forall_forall. intros id Hid.
    apply in_map_iff in Hid as (i & <- & _).
    now rewrite toHex_length, Hlen.
Qed.

Lemma generateShortIds_shape_witness :
  Forall (fun id => String.length id = 8%nat)
    (generateShortIds 4 (Entropy.shortIdBytes Example.entropy)).
Proof.
  apply (proj2 (proj2 (generateShortIds_shape 4 (Entropy.shortIdBytes Example.entropy)))).
  intros i. reflexivity.
Defined.

(** ** [core/config-generator.js] *)

(** X4. For a server config made by [generateDefaultServerConfig], whatever
    the host, the port and the key material, [generateClientConfig] returns
    exactly one descriptor; its uri names the host, the port, the public key
    of the key pair, www.google.com as sni and the first generated short id,
    and its manual map holds the same values.  When the public key needs no
    escaping the uri is the canonical string of the specification. *)
Theorem default_server_descriptor
    (user : User.t) (host : string) (port : Z) (e : Entropy.t) :
  let publicKey := snd (Entropy.keyPair e) in
  let sid := JS.toHex (Entropy.shortIdBytes e 0) in
  generateClientConfig user (generateDefaultServerConfig host port e)
  = Return
      [ ClientConfig.mk (User.id user) Vless
          (encodedUri (User.id user) host port publicKey "www.google.com" sid
             (User.name user))
          None
          (Some (Manual.mk host port (User.id user) "xtls-rprx-vision" "reality"
                   "www.google.com" "chrome" publicKey sid)) ] /\
  (formSafe publicKey = true ->
   encodedUri (User.id user) host port publicKey "www.google.com" sid (User.name user)
   = Spec.canonicalUri (User.id user) host port publicKey "www.google.com" sid
       (User.name user)).
Proof.
  cbv zeta. split.
  - unfold generateClientConfig, generateDefaultServerConfig, generateRealityConfig.
    destruct (Entropy.keyPair e) as [privateKey publicKey].
    cbn [ServerConfig.inbounds result_map snd].
    match goal with |- context [generateVlessUri user ?sv ?ib] =>
      rewrite (generateVlessUri_supported user sv ib
                 (RealityConfig.mk "www.google.com" ["www.google.com"] privateKey publicKey
                    (generateShortIds 4 (Entropy.shortIdBytes e)))
                 "www.google.com" (JS.toHex (Entropy.shortIdBytes e 0))
                 eq_refl eq_refl eq_refl eq_refl eq_refl)
    end.
    cbn [result_bind ServerConfig.host InboundConfig.port InboundConfig.protocol
         RealityConfig.publicKey].
    unfold manualOf, realityFieldOrEmpty.
    cbn [InboundConfig.reality RealityConfig.serverNames RealityConfig.shortIds
         RealityConfig.publicKey ServerConfig.host InboundConfig.port head].
    unfold generateShortIds. cbn [seq List.map head generateShortId].
    now rewrite !or_string_Some.
  - intros Hpk. apply encodedUri_safe; [exact Hpk | reflexivity | apply toHex_formSafe].
Qed.

Lemma default_server_descriptor_witness :
  encodedUri "00010203-0405-4607-8809-0a0b0c0d0e0f" "203.0.113.5" 443 "UHVibGljS2V5"
    "www.google.com" "00abcdef" "alice"
  = Spec.canonicalUri "00010203-0405-4607-8809-0a0b0c0d0e0f" "203.0.113.5" 443
      "UHVibGljS2V5" "www.google.com" "00abcdef" "alice".
Proof.
  exact (proj2 (default_server_descriptor Example.alice "203.0.113.5" 443 Example.entropy)
           eq_refl).
Defined.

Lemma filter_enabled_alter_disable (users : list User.t) (i : nat) :
  List.filter (fun u => User.enabled u) (alter (User.set_enabled false) i users)
  = List.filter (fun u => User.enabled u) (delete i users).
Proof.
  revert i. induction users as [|u users IH]; intros [|i]; try reflexivity.
  change (alter (User.set_enabled false) (S i) (u :: users))
    with (u :: alter (User.set_enabled false) i users).
  change (delete (S i) (u :: users)) with (u :: delete i users).
  cbn [List.filter]. now rewrite IH.
Qed.

Lemma filter_filter_same {A} (p : A -> bool) (l : list A) :
  List.filter p (List.filter p l) = List.filter p l.
Proof.
  induction l as [|a l IH]; simpl; [reflexivity |].
  destruct (p a) eqn:Ha; simpl; [rewrite Ha, IH |]; auto.
Qed.

Lemma toSingboxConfig_filter (serverConfig : ServerConfig.t) (users users' : list User.t) :
  List.filter (fun u => User.enabled u) users
  = List.filter (fun u => User.enabled u) users' ->
  toSingboxConfig serverConfig users = toSingboxConfig serverConfig users'.
Proof.
  intros H. unfold toSingboxConfig. f_equal.
  apply map_ext. intros inbound. unfold toSingboxInbound. now rewrite H.
Qed.

(** X5. The compiled configuration depends on the roster through its
    enabled users only: compiling a roster equals compiling the list of its
    enabled users, and disabling the user at some position gives the same
    compiled configuration as removing that user from the roster. *)
Theorem toSingboxConfig_ignores_disabled_users
    (serverConfig : ServerConfig.t) (users : list User.t) (i : nat) :
  toSingboxConfig serverConfig users
  = toSingboxConfig serverConfig (List.filter (fun u => User.enabled u) users) /\
  toSingboxConfig serverConfig (alter (User.set_enabled false) i users)
  = toSingboxConfig serverConfig (delete i users).
Proof.
  split; apply toSingboxConfig_filter.
  - symmetry. apply filter_filter_same.
  - apply filter_enabled_alter_disable.
Qed.

Lemma dns_tag_inj : Inj (=) (=) (fun i : nat => "dns-" ++ JS.numberToString (Z.of_nat i)).
Proof.
  intros i j H. apply (inj (String.append "dns-")) in H.
  unfold JS.numberToString in H. apply (inj pretty) in H. lia.
Qed.

(** X6. The DNS servers of the server config are passed to the compiled
    configuration one by one, in order and without change of the addresses,
    the server at position i tagged dns-i; the tags are pairwise distinct.
    Without a DNS policy no server list is emitted. *)
Theorem toSingboxConfig_dns_tags (serverConfig : ServerConfig.t) (users : list User.t) :
  match ServerConfig.dns serverConfig with
  | None => SingboxConfig.dns_servers (toSingboxConfig serverConfig users) = None
  | Some d =>
      exists out,
        SingboxConfig.dns_servers (toSingboxConfig serverConfig users) = Some out /\
        List.map SingboxDnsServer.address out = DNSConfig.servers d /\
        List.map SingboxDnsServer.tag out
        = List.map (fun i => "dns-" ++ JS.numberToString (Z.of_nat i))
            (seq 0 (length (DNSConfig.servers d))) /\
        List.NoDup (List.map SingboxDnsServer.tag out)
  end.
Proof.
  unfold toSingboxConfig. cbn [SingboxConfig.dns_servers].
  destruct (ServerConfig.dns serverConfig) as [d |]; [| reflexivity].
  cbn [option_map]. eexists. split; [reflexivity |].
  assert (forall (l : list string) k,
            List.map SingboxDnsServer.address
              (imap (fun i s => SingboxDnsServer.mk
                                  ("dns-" ++ JS.numberToString (Z.of_nat (k + i))) s) l) = l
            /\ List.map SingboxDnsServer.tag
                 (imap (fun i s => SingboxDnsServer.mk
                                     ("dns-" ++ JS.numberToString (Z.of_nat (k + i))) s) l)
               = List.map (fun i => "dns-" ++ JS.numberToString (Z.of_nat i))
                   (seq k (length l))) as Himap.
  { induction l as [|a l IH]; intros k; [split; reflexivity |].
    cbn [imap length seq List.map SingboxDnsServer.address SingboxDnsServer.tag].
    rewrite Nat.add_0_r.
    destruct (IH (S k)) as [IH1 IH2].
    assert (imap ((fun i s => SingboxDnsServer.mk
                                ("dns-" ++ JS.numberToString (Z.of_nat (k + i))) s) ∘ S) l
            = imap (fun i s => SingboxDnsServer.mk
                                 ("dns-" ++ JS.numberToString (Z.of_nat (S k + i))) s) l)
      as ->.
    { apply imap_ext. intros i x _. cbn. now rewrite Nat.add_succ_r. }
    now rewrite IH1, IH2. }
  destruct (Himap (DNSConfig.servers d) 0%nat) as [Ha Ht].
  split; [exact Ha |]. split; [exact Ht |].
  match goal with |- List.NoDup ?t =>
    replace t with (List.map (fun i => "dns-" ++ JS.numberToString (Z.of_nat i))
                      (seq 0 (length (DNSConfig.servers d))))
      by (symmetry; exact Ht)
  end.
  apply NoDup_ListNoDup.
  apply (NoDup_fmap_2 (fun i : nat => "dns-" ++ JS.numberToString (Z.of_nat i))).
  apply NoDup_seq.
Qed.

Lemma chars_app (a b : string) : chars (a ++ b) = (chars a ++ chars b)%list.
Proof.
  induction a as [|c a IH]; [reflexivity |].
  change (c :: chars (a ++ b) = c :: (chars a ++ chars b)%list). now rewrite IH.
Qed.

Lemma percentEncodeByte_chars (c : ascii) :
  Forall (fun x => JS.isAsciiAlphanumeric x || JS.mem_char x "%" = true)
    (chars (JS.percentEncodeByte c)).
Proof.
  unfold JS.percentEncodeByte. cbn [chars].
  repeat constructor; rewrite hexDigitUpper_queryChar; reflexivity.
Qed.

Lemma formUrlencode_chars (s : string) :
  Forall (fun c => queryChar c = true) (chars (JS.formUrlencode s)).
Proof.
  induction s as [|c s IH]; [constructor |].
  cbn [JS.formUrlencode]. rewrite chars_app. apply Forall_app. split; [| exact IH].
  destruct (JS.formUnreserved c) eqn:Hc.
  - repeat constructor. unfold queryChar. now rewrite Hc.
  - destruct (Ascii.eqb c " ").
    + repeat constructor.
    + eapply Forall_impl; [apply percentEncodeByte_chars |].
      intros x Hx. unfold queryChar, JS.formUnreserved.
      apply orb_true_iff in Hx as [Hx | Hx].
      * now rewrite Hx.
      * apply orb_true_iff. right. simpl in Hx. simpl.
        apply orb_true_iff in Hx as [Hx | Hx]; [| discriminate Hx].
        rewrite Hx. now rewrite orb_true_r.
Qed.

Lemma encodeURIComponent_chars (s : string) :
  Forall (fun c => fragmentChar c = true) (chars (JS.encodeURIComponent s)).
Proof.
  induction s as [|c s IH]; [constructor |].
  cbn [JS.encodeURIComponent]. rewrite chars_app. apply Forall_app. split; [| exact IH].
  destruct (JS.uriUnreserved c) eqn:Hc.
  - repeat constructor. unfold fragmentChar. now rewrite Hc.
  - eapply Forall_impl; [apply percentEncodeByte_chars |].
    intros x Hx. unfold fragmentChar, JS.uriUnreserved.
    apply orb_true_iff in Hx as [Hx | Hx]; [now rewrite Hx |].
    apply orb_true_iff. now right.
Qed.

(** X7. In the URI that [generateVlessUri] returns, the three configurable
    query values and the fragment are escaped: the values of pbk, sni and sid
    consist of letters, digits and the characters * - . _ + % only, and the
    fragment of letters, digits and - _ . ! ~ * ' ( ) % only.  No content of
    the public key, the server name, the short id or the user name can
    therefore end a parameter (with an ampersand), start the fragment (with a
    hash) or add a parameter of its own (with an equals sign). *)
Theorem generateVlessUri_escapes_values
    (user : User.t) (serverConfig : ServerConfig.t) (inbound : InboundConfig.t)
    (uri : string) :
  generateVlessUri user serverConfig inbound = Return uri ->
  exists pbk sni sid fragment,
    uri = "vless://" ++ User.id user ++ "@" ++ ServerConfig.host serverConfig ++ ":"
            ++ JS.numberToString (InboundConfig.port inbound)
            ++ "?type=tcp&security=reality&pbk=" ++ pbk
            ++ "&fp=chrome&sni=" ++ sni
            ++ "&sid=" ++ sid
            ++ "&flow=xtls-rprx-vision#" ++ fragment /\
    Forall (fun c => queryChar c = true) (chars pbk) /\
    Forall (fun c => queryChar c = true) (chars sni) /\
    Forall (fun c => queryChar c = true) (chars sid) /\
    Forall (fun c => fragmentChar c = true) (chars fragment) /\
    Forall (fun c => JS.mem_char c "&=#? " = false)
      (chars pbk ++ chars sni ++ chars sid) /\
    Forall (fun c => JS.mem_char c "&=#? " = false) (chars fragment).
Proof.
  unfold generateVlessUri.
  destruct (negb _ || negb _); [discriminate |].
  destruct (InboundConfig.reality inbound) as [r |]; [| discriminate].
  rewrite vless_params_toString. intros Hret. injection Hret as <-.
  exists (JS.formUrlencode (RealityConfig.publicKey r)),
         (JS.formUrlencode (JS.toString (head (RealityConfig.serverNames r)))),
         (JS.formUrlencode (JS.toString (head (RealityConfig.shortIds r)))),
         (JS.encodeURIComponent (User.name user)).
  assert (forall c, queryChar c = true -> JS.mem_char c "&=#? " = false) as Hq.
  { intros c Hc. destruct (JS.mem_char c "&=#? ") eqn:Hm; [| reflexivity].
    simpl in Hm. repeat (apply orb_true_iff in Hm as [Hm | Hm]);
      try discriminate Hm; apply Ascii.eqb_eq in Hm; subst c; discriminate Hc. }
  assert (forall c, fragmentChar c = true -> JS.mem_char c "&=#? " = false) as Hf.
  { intros c Hc. destruct (JS.mem_char c "&=#? ") eqn:Hm; [| reflexivity].
    simpl in Hm. repeat (apply orb_true_iff in Hm as [Hm | Hm]);
      try discriminate Hm; apply Ascii.eqb_eq in Hm; subst c; discriminate Hc. }
  split.
  { repeat (apply (f_equal (String.append _)) || rewrite string_app_assoc).
    reflexivity. }
  split; [apply formUrlencode_chars |].
  split; [apply formUrlencode_chars |].
  split; [apply formUrlencode_chars |].
  split; [apply encodeURIComponent_chars |].
  split.
  - repeat (apply Forall_app; split);
      (eapply Forall_impl; [apply formUrlencode_chars | exact Hq]).
  - eapply Forall_impl; [apply encodeURIComponent_chars | exact Hf].
Qed.

Lemma generateVlessUri_escapes_values_witness :
  exists pbk sni sid fragment,
    Forall (fun c => JS.mem_char c "&=#? " = false)
      (chars pbk ++ chars sni ++ chars sid) /\
    Forall (fun c => JS.mem_char c "&=#? " = false) (chars fragment).
Proof.
  destruct (generateVlessUri_escapes_values Example.alice Example.server_b64
              Example.inbound_b64 _ generateVlessUri_b64_run)
    as (pbk & sni & sid & fragment & _ & _ & _ & _ & _ & Hq & Hf).
  exists pbk, sni, sid, fragment. split; assumption.
Defined.

Lemma result_map_Return {A B} (f : A -> Result B) (xs : list A) (ys : list B) :
  result_map f xs = Return ys -> Forall2 (fun x y => f x = Return y) xs ys.
Proof.
  revert ys. induction xs as [|x xs IH]; intros ys; simpl.
  - intros [= <-]. constructor.
  - destruct (f x) as [y | e] eqn:Hy; simpl; [| discriminate].
    destruct (result_map f xs) as [ys' | e]; simpl; [| discriminate].
    intros [= <-]. constructor; [exact Hy | now apply IH].
Qed.

(** X8. [generateClientConfig] is all or nothing: when it returns, every
    inbound of the server config has protocol vless, tlsType reality and a
    Reality block, and the result holds one descriptor per inbound, in order,
    each with the user's id as userId, the protocol vless, the uri that
    [generateVlessUri] returns for that inbound, and a manual map. *)
Theorem generateClientConfig_all_or_nothing
    (user : User.t) (serverConfig : ServerConfig.t) (configs : list ClientConfig.t) :
  generateClientConfig user serverConfig = Return configs ->
  Forall2
    (fun inbound c =>
       InboundConfig.protocol inbound = Vless /\
       InboundConfig.tlsType inbound = TlsReality /\
       InboundConfig.reality inbound <> None /\
       ClientConfig.userId c = User.id user /\
       ClientConfig.protocol c = Vless /\
       generateVlessUri user serverConfig inbound = Return (ClientConfig.uri c) /\
       ClientConfig.manual c <> None)
    (ServerConfig.inbounds serverConfig) configs.
Proof.
  unfold generateClientConfig. intros Hrun.
  apply result_map_Return in Hrun.
  eapply Forall2_impl; [exact Hrun |].
  intros inbound c Hc. cbv beta in Hc.
  destruct (generateVlessUri user serverConfig inbound) as [uri | e] eqn:Huri;
    [| discriminate Hc].
  injection Hc as <-.
  destruct (proj2 (generateVlessUri_rejects_other_combinations_aux user serverConfig inbound)
              uri Huri) as [Hp Ht].
  cbn [ClientConfig.userId ClientConfig.protocol ClientConfig.uri ClientConfig.manual].
  repeat split; try assumption; try discriminate.
  intros Hr. unfold generateVlessUri in Huri. rewrite Hp, Ht, Hr in Huri.
  discriminate Huri.
Qed.

Lemma generateClientConfig_all_or_nothing_witness :
  Forall2
    (fun inbound c => InboundConfig.protocol inbound = Vless /\
                      ClientConfig.userId c = "00010203-0405-4607-8809-0a0b0c0d0e0f")
    (ServerConfig.inbounds Example.server_b64)
    [ ClientConfig.mk "00010203-0405-4607-8809-0a0b0c0d0e0f" Vless
        ("vless://00010203-0405-4607-8809-0a0b0c0d0e0f@203.0.113.5:443"
         ++ "?type=tcp&security=reality"
         ++ "&pbk=Trm5Xv%2B1mZ8n%2F0fWx2eXgA3dYb9cK1sQv7hJ4uLp6kE%3D"
         ++ "&fp=chrome&sni=www.google.com&sid=ab12cd34"
         ++ "&flow=xtls-rprx-vision#alice")
        None
        (Some (Manual.mk "203.0.113.5" 443 "00010203-0405-4607-8809-0a0b0c0d0e0f"
                 "xtls-rprx-vision" "reality" "www.google.com" "chrome"
                 "Trm5Xv+1mZ8n/0fWx2eXgA3dYb9cK1sQv7hJ4uLp6kE=" "ab12cd34")) ].
Proof.
  eapply Forall2_impl;
    [exact (generateClientConfig_all_or_nothing Example.alice Example.server_b64 _
              generateClientConfig_b64_run) |].
  intros inbound c (Hp & _ & _ & Hid & _). split; [exact Hp | exact Hid].
Defined.

(** ** [core/user-manager.js] *)

Lemma committed_persisted (w : World.t) : persisted (committed w).
Proof. split; reflexivity. Qed.

Lemma stringifyUser_valid (u : User.t) :
  User.expiresAt u <> Some JS.Date.Invalid -> UserManager.stringifyUser u = u.
Proof.
  destruct u as [i n m c [[time |] |] en tl tu]; intros H;
    [reflexivity | now destruct H | reflexivity].
Qed.

Lemma stringify_valid (s : ManagerState.t) :
  validExpiryDates (ManagerState.users s) -> UserManager.stringify s = s.
Proof.
  intros H. destruct s as [v sv users cs].
  unfold UserManager.stringify, ManagerState.set_users. simpl in *.
  f_equal. induction H as [| u users Hu _ IH]; [reflexivity |].
  cbn [List.map]. now rewrite (stringifyUser_valid u Hu), IH.
Qed.

(** Without an Invalid Date in memory the state file written by the manager
    denotes exactly the state in memory. *)
Lemma persisted_filesInSync (w : World.t) :
  persisted w -> validExpiryDates (roster w) -> filesInSync w.
Proof.
  intros [Hstate Hconfig] Hvalid. split; [| exact Hconfig].
  now rewrite Hstate, (stringify_valid _ Hvalid).
Qed.

(** X9. Every mutating method that goes through leaves the two files in
    step with the memory: after [addUser] returns, after [removeUser] or
    [setUserEnabled] return true, and after [initialize] on a machine without
    state file returns, the state file holds the state in memory as
    [JSON.stringify] writes it and the configuration file holds its
    compilation.  What [JSON.stringify] writes is exactly the state in memory
    unless an expiry date in memory is an Invalid Date, which is written as
    no date. *)
Theorem mutations_leave_files_in_sync (w : World.t) :
  (forall name options random16 now r w',
     UserManager.addUser name options random16 now w = (Return r, w') ->
     persisted w') /\
  (forall nameOrId w',
     UserManager.removeUser nameOrId w = (Return true, w') -> persisted w') /\
  (forall nameOrId enabled w',
     UserManager.setUserEnabled nameOrId enabled w = (Return true, w') ->
     persisted w') /\
  (forall host port e w',
     Disk.stateFile (World.disk w) = NoFile ->
     UserManager.initialize host port e w = (Return tt, w') -> persisted w') /\
  (forall w', persisted w' -> validExpiryDates (roster w') -> filesInSync w').
Proof.
  split; [| split; [| split; [| split]]].
  - intros name options random16 now r w'. rewrite addUser_run. cbv zeta.
    destruct (existsb _ _); [discriminate |].
    destruct (generateClientConfig _ _); [| discriminate].
    destruct (Disk.writable _); [| discriminate].
    destruct (AddUserOptions.expiresAt options) as [[time |] |];
      [| discriminate |]; intros [= _ <-]; apply committed_persisted.
  - intros nameOrId w'. rewrite removeUser_run.
    destruct (findIndex _ _) as [index |]; [| discriminate].
    destruct (roster w !! index); [| discriminate]. cbv zeta.
    destruct (Disk.writable _); [| discriminate].
    intros [= <-]. apply committed_persisted.
  - intros nameOrId enabled w'. rewrite setUserEnabled_run.
    destruct (findIndex _ _); [| discriminate]. cbv zeta.
    destruct (Disk.writable _); [| discriminate].
    intros [= <-]. apply committed_persisted.
  - intros host port e w' Hf. rewrite initialize_run, Hf. cbv zeta.
    destruct (Disk.writable _); [| discriminate].
    intros [= <-]. apply committed_persisted.
  - exact persisted_filesInSync.
Qed.

Lemma mutations_leave_files_in_sync_witness :
  persisted Example.after_init /\ filesInSync Example.after_init.
Proof.
  assert (persisted Example.after_init) as H.
  { apply (proj1 (proj2 (proj2 (proj2 (mutations_leave_files_in_sync Example.fresh))))
             "203.0.113.5" 443 Example.entropy Example.after_init eq_refl).
    reflexivity. }
  split; [exact H |].
  apply (proj2 (proj2 (proj2 (proj2 (mutations_leave_files_in_sync Example.fresh))))
           Example.after_init H).
  constructor.
Defined.

(** X10. When the files cannot be written, a mutating method throws the
    file-system error after it has changed the state in memory: the files are
    as before, but the roster in memory already holds the added user, lacks
    the removed one, or carries the new enabled flag. *)
Theorem write_failure_leaves_memory_changed (w : World.t) :
  Disk.writable (World.disk w) = false ->
  (forall name options random16 now,
     (forall u, In u (roster w) -> User.name u <> name) ->
     Forall wellFormedInbound (ServerConfig.inbounds (serverOf w)) ->
     exists user w',
       UserManager.addUser name options random16 now w
       = (Throw (SystemError "EACCES"), w') /\
       World.disk w' = World.disk w /\
       User.name user = name /\
       roster w' = (roster w ++ [user])%list) /\
  (forall nameOrId index x,
     firstMatch nameOrId (roster w) index x ->
     exists w',
       UserManager.removeUser nameOrId w = (Throw (SystemError "EACCES"), w') /\
       World.disk w' = World.disk w /\
       roster w' = delete index (roster w)) /\
  (forall nameOrId enabled index x,
     firstMatch nameOrId (roster w) index x ->
     exists w',
       UserManager.setUserEnabled nameOrId enabled w
       = (Throw (SystemError "EACCES"), w') /\
       World.disk w' = World.disk w /\
       roster w' = alter (User.set_enabled enabled) index (roster w)).
Proof.
  intros Hw. split; [| split].
  - intros name options random16 now Hnew Hwf.
    rewrite addUser_run. cbv zeta.
    apply existsb_name_false in Hnew. rewrite Hnew, Hw.
    match goal with |- context [generateClientConfig ?u _] =>
      destruct (wellFormed_descriptors u (serverOf w) Hwf) as (configs & ->)
    end.
    exists (User.mk (generateUUID random16) name (AddUserOptions.email options) now
              (AddUserOptions.expiresAt options) true
              (JS.or_zero (AddUserOptions.trafficLimit options)) 0).
    eexists. split; [reflexivity |].
    split; [reflexivity |]. split; reflexivity.
  - intros nameOrId index x Hfirst.
    apply findIndex_firstMatch in Hfirst as [Hidx Hx].
    rewrite removeUser_run, Hidx, Hx. cbv zeta. rewrite Hw.
    eexists. split; [reflexivity |]. split; reflexivity.
  - intros nameOrId enabled index x Hfirst.
    apply findIndex_firstMatch in Hfirst as [Hidx Hx].
    rewrite setUserEnabled_run, Hidx. cbv zeta. rewrite Hw.
    eexists. split; [reflexivity |]. split; reflexivity.
Qed.

Lemma write_failure_leaves_memory_changed_witness :
  exists w',
    UserManager.removeUser "alice" Example.read_only
    = (Throw (SystemError "EACCES"), w') /\
    World.disk w' = World.disk Example.read_only /\
    roster w' = [].
Proof.
  apply (proj1 (proj2 (write_failure_leaves_memory_changed Example.read_only eq_refl))
           "alice" 0%nat Example.alice).
  split; [reflexivity |]. split; [left; reflexivity |].
  intros j y Hj. lia.
Defined.

Lemma names_app_fresh (users : list User.t) (u : User.t) :
  List.NoDup (List.map User.name users) ->
  (forall v, In v users -> User.name v <> User.name u) ->
  List.NoDup (List.map User.name (users ++ [u])).
Proof.
  intros Hnd Hnew. rewrite List.map_app. simpl.
  apply NoDup_ListNoDup. apply NoDup_app. split; [now apply NoDup_ListNoDup |].
  split; [| apply NoDup_singleton].
  intros n Hn Hn'. apply list_elem_of_In in Hn. apply list_elem_of_In in Hn'.
  destruct Hn' as [<- | []]. apply in_map_iff in Hn as (v & Hv & Hin).
  now apply (Hnew v Hin).
Qed.

Lemma NoDup_delete {A} (l : list A) (i : nat) : List.NoDup l -> List.NoDup (delete i l).
Proof.
  intros Hnd. apply NoDup_ListNoDup. apply NoDup_ListNoDup in Hnd.
  eapply sublist_NoDup; [exact Hnd | apply sublist_delete].
Qed.

Lemma map_name_alter (users : list User.t) (i : nat) (b : bool) :
  List.map User.name (alter (User.set_enabled b) i users) = List.map User.name users.
Proof.
  revert i. induction users as [|u users IH]; intros [|i]; try reflexivity.
  change (alter (User.set_enabled b) (S i) (u :: users))
    with (u :: alter (User.set_enabled b) i users).
  cbn [List.map]. now rewrite IH.
Qed.

Lemma map_id_alter (users : list User.t) (i : nat) (b : bool) :
  List.map User.id (alter (User.set_enabled b) i users) = List.map User.id users.
Proof.
  revert i. induction users as [|u users IH]; intros [|i]; try reflexivity.
  change (alter (User.set_enabled b) (S i) (u :: users))
    with (u :: alter (User.set_enabled b) i users).
  cbn [List.map]. now rewrite IH.
Qed.

(** What [addUser], [removeUser] and [setUserEnabled] can do to the roster
    and the cache, whatever the outcome of the call. *)
Lemma addUser_outcomes (name : string) (options : AddUserOptions.t)
    (random16 : list Z) (now : Z) (w : World.t) r w' :
  UserManager.addUser name options random16 now w = (r, w') ->
  (roster w' = roster w /\ cache w' = cache w) \/
  (exists user configs,
     User.name user = name /\
     (forall u, In u (roster w) -> User.name u <> name) /\
     roster w' = (roster w ++ [user])%list /\
     (cache w' = cache w \/
      (cache w' = (cache w ++ configs)%list /\
       generateClientConfig user (serverOf w) = Return configs))).
Proof.
  rewrite addUser_run. cbv zeta.
  destruct (existsb _ (roster w)) eqn:Hex'; [intros [= _ <-]; now left |].
  pose proof (proj1 (existsb_name_false _ _) Hex') as Hex. clear Hex'.
  match goal with |- context [generateClientConfig ?u _] => set (user := u) end.
  destruct (generateClientConfig user (serverOf w)) as [configs | e] eqn:Hgen.
  - destruct (Disk.writable _);
      [destruct (AddUserOptions.expiresAt options) as [[time |] |] eqn:Hexp |];
      intros [= _ <-]; right;
      exists user, configs; (split; [reflexivity |]); (split; [exact Hex |]);
      (split; [reflexivity |]); right; (split; [reflexivity | exact Hgen]).
  - intros [= _ <-]. right. exists user, []. split; [reflexivity |].
    split; [exact Hex |]. split; [reflexivity |]. now left.
Qed.

Lemma removeUser_outcomes (nameOrId : string) (w : World.t) r w' :
  UserManager.removeUser nameOrId w = (r, w') ->
  (roster w' = roster w /\ cache w' = cache w) \/
  (exists index x,
     roster w !! index = Some x /\
     roster w' = delete index (roster w) /\
     cache w' = List.filter
                  (fun c => negb (String.eqb (ClientConfig.userId c) (User.id x)))
                  (cache w)).
Proof.
  rewrite removeUser_run.
  destruct (findIndex _ _) as [index |]; [| intros [= _ <-]; now left].
  destruct (roster w !! index) as [x |] eqn:Hx; [| intros [= _ <-]; now left].
  cbv zeta. destruct (Disk.writable _); intros [= _ <-]; right;
    exists index, x; (split; [exact Hx |]); split; reflexivity.
Qed.

Lemma setUserEnabled_outcomes (nameOrId : string) (enabled : bool) (w : World.t) r w' :
  UserManager.setUserEnabled nameOrId enabled w = (r, w') ->
  cache w' = cache w /\
  (roster w' = roster w \/
   exists index, roster w' = alter (User.set_enabled enabled) index (roster w)).
Proof.
  rewrite setUserEnabled_run.
  destruct (findIndex _ _) as [index |]; [| intros [= _ <-]; split; [reflexivity | now left]].
  cbv zeta. destruct (Disk.writable _); intros [= _ <-];
    (split; [reflexivity | right; exists index; reflexivity]).
Qed.

(** X11. The three mutating methods keep the names of the roster pairwise
    distinct: if no two roster entries share a name before a call of
    [addUser], [removeUser] or [setUserEnabled], none do after it, however
    the call ends. *)
Theorem roster_names_stay_distinct (w : World.t) :
  List.NoDup (List.map User.name (roster w)) ->
  (forall name options random16 now r w',
     UserManager.addUser name options random16 now w = (r, w') ->
     List.NoDup (List.map User.name (roster w'))) /\
  (forall nameOrId r w',
     UserManager.removeUser nameOrId w = (r, w') ->
     List.NoDup (List.map User.name (roster w'))) /\
  (forall nameOrId enabled r w',
     UserManager.setUserEnabled nameOrId enabled w = (r, w') ->
     List.NoDup (List.map User.name (roster w'))).
Proof.
  intros Hnd. split; [| split].
  - intros name options random16 now r w' Hrun.
    apply addUser_outcomes in Hrun as [[-> _] | (user & configs & Hn & Hnew & -> & _)];
      [exact Hnd |].
    apply names_app_fresh; [exact Hnd |]. intros v Hv. rewrite Hn. now apply Hnew.
  - intros nameOrId r w' Hrun.
    apply removeUser_outcomes in Hrun as [[-> _] | (index & x & _ & -> & _)];
      [exact Hnd |].
    rewrite map_delete. now apply NoDup_delete.
  - intros nameOrId enabled r w' Hrun.
    apply setUserEnabled_outcomes in Hrun as [_ [-> | (index & ->)]]; [exact Hnd |].
    now rewrite map_name_alter.
Qed.

Lemma roster_names_stay_distinct_witness :
  List.NoDup (List.map User.name
                (roster (snd (UserManager.addUser "bob" AddUserOptions.none
                                Example.random16 1700000000003 Example.after_add)))).
Proof.
  eapply (proj1 (roster_names_stay_distinct Example.after_add _)).
  apply surjective_pairing.
  Unshelve. vm_compute. repeat constructor. intros [].
Defined.

Lemma result_map_In {A B} (f : A -> Result B) (xs : list A) (ys : list B) :
  result_map f xs = Return ys ->
  forall y, In y ys -> exists x, In x xs /\ f x = Return y.
Proof.
  intros Hrun. apply result_map_Return in Hrun.
  induction Hrun as [|x y xs ys Hxy _ IH]; intros c Hc; [destruct Hc |].
  destruct Hc as [<- | Hc].
  - exists x. split; [now left | exact Hxy].
  - destruct (IH c Hc) as (x' & Hx' & Hf). exists x'. split; [now right | exact Hf].
Qed.

Lemma generateClientConfig_userIds (user : User.t) (serverConfig : ServerConfig.t)
    (configs : list ClientConfig.t) :
  generateClientConfig user serverConfig = Return configs ->
  forall c, In c configs -> ClientConfig.userId c = User.id user.
Proof.
  unfold generateClientConfig. intros Hrun c Hc.
  destruct (result_map_In _ _ _ Hrun c Hc) as (inbound & _ & Hdesc).
  destruct (generateVlessUri user serverConfig inbound); [| discriminate Hdesc].
  injection Hdesc as <-. reflexivity.
Qed.

Lemma In_alter_id (users : list User.t) (i : nat) (b : bool) (u : User.t) :
  In u users -> exists v, In v (alter (User.set_enabled b) i users) /\ User.id v = User.id u.
Proof.
  intros Hu. apply (in_map User.id) in Hu. rewrite <- (map_id_alter users i b) in Hu.
  apply in_map_iff in Hu as (v & Hv & Hin). eauto.
Qed.

(** X12. The three mutating methods never leave a descriptor without its
    user: if every cached descriptor carries the id of some roster entry
    before a call of [addUser], [removeUser] or [setUserEnabled], the same
    holds after it, however the call ends. *)
Theorem descriptors_keep_their_users (w : World.t) :
  noOrphanDescriptors w ->
  (forall name options random16 now r w',
     UserManager.addUser name options random16 now w = (r, w') ->
     noOrphanDescriptors w') /\
  (forall nameOrId r w',
     UserManager.removeUser nameOrId w = (r, w') -> noOrphanDescriptors w') /\
  (forall nameOrId enabled r w',
     UserManager.setUserEnabled nameOrId enabled w = (r, w') ->
     noOrphanDescriptors w').
Proof.
  intros Hinv. unfold noOrphanDescriptors in *. split; [| split].
  - intros name options random16 now r w' Hrun.
    apply addUser_outcomes in Hrun
      as [[-> ->] | (user & configs & _ & _ & -> & [-> | [-> Hgen]])];
      [exact Hinv | |].
    + intros c Hc. destruct (Hinv c Hc) as (u & Hu & Hid).
      exists u. split; [apply in_or_app; now left | exact Hid].
    + intros c Hc. apply in_app_or in Hc as [Hc | Hc].
      * destruct (Hinv c Hc) as (u & Hu & Hid).
        exists u. split; [apply in_or_app; now left | exact Hid].
      * exists user. split; [apply in_or_app; right; now left |].
        symmetry. exact (generateClientConfig_userIds _ _ _ Hgen c Hc).
  - intros nameOrId r w' Hrun.
    apply removeUser_outcomes in Hrun as [[-> ->] | (index & x & Hx & -> & ->)];
      [exact Hinv |].
    intros c Hc. apply filter_In in Hc as [Hc Hne].
    apply negb_true_iff, String.eqb_neq in Hne.
    destruct (Hinv c Hc) as (u & Hu & Hid). exists u. split; [| exact Hid].
    apply list_elem_of_In in Hu. apply list_elem_of_lookup in Hu as (j & Hj).
    apply list_elem_of_In. apply list_elem_of_lookup.
    destruct (decide (j < index)%nat) as [Hlt | Hge].
    + exists j. now rewrite list_lookup_delete_lt.
    + assert (j <> index) by (intros ->; congruence).
      exists (pred j). rewrite list_lookup_delete_ge by lia.
      now replace (S (pred j)) with j by lia.
  - intros nameOrId enabled r w' Hrun.
    apply setUserEnabled_outcomes in Hrun as [-> [-> | (index & ->)]]; [exact Hinv |].
    intros c Hc. destruct (Hinv c Hc) as (u & Hu & Hid).
    destruct (In_alter_id (roster w) index enabled u Hu) as (v & Hv & Hvid).
    exists v. split; [exact Hv | congruence].
Qed.

Lemma descriptors_keep_their_users_witness :
  noOrphanDescriptors (snd (UserManager.removeUser "alice" Example.after_add)).
Proof.
  eapply (proj1 (proj2 (descriptors_keep_their_users Example.after_add _))).
  apply surjective_pairing.
  Unshelve.
  intros c Hc. vm_compute in Hc. destruct Hc as [<- | []].
  exists Example.alice. split; [left; reflexivity | reflexivity].
Defined.

Lemma find_app_last {A} (p : A -> bool) (l : list A) (x : A) :
  (forall y, In y l -> p y = false) -> p x = true ->
  find p (l ++ [x])%list = Some x /\ findIndex p (l ++ [x])%list = Some (length l).
Proof.
  intros Hl Hx. unfold find. induction l as [|a l IH]; simpl.
  - now rewrite Hx.
  - rewrite (Hl a (or_introl eq_refl)).
    destruct IH as [IH1 IH2]; [intros; apply Hl; now right |].
    now rewrite IH1, IH2.
Qed.

Lemma delete_app_last {A} (l : list A) (x : A) :
  delete (length l) (l ++ [x])%list = l.
Proof.
  induction l as [|a l IH]; [reflexivity |].
  change (a :: delete (length l) (l ++ [x])%list = a :: l). now rewrite IH.
Qed.

Lemma filter_all {A} (p : A -> bool) (l : list A) :
  (forall y, In y l -> p y = true) -> List.filter p l = l.
Proof.
  induction l as [|a l IH]; intros H; simpl; [reflexivity |].
  rewrite (H a (or_introl eq_refl)), IH; [reflexivity | intros; apply H; now right].
Qed.

Lemma filter_none {A} (p : A -> bool) (l : list A) :
  (forall y, In y l -> p y = false) -> List.filter p l = [].
Proof.
  induction l as [|a l IH]; intros H; simpl; [reflexivity |].
  rewrite (H a (or_introl eq_refl)), IH; [reflexivity | intros; apply H; now right].
Qed.

Lemma addUser_returns (name : string) (options : AddUserOptions.t)
    (random16 : list Z) (now : Z) (w : World.t) user configs w' :
  UserManager.addUser name options random16 now w = (Return (user, configs), w') ->
  (forall u, In u (roster w) -> User.name u <> name) /\
  User.name user = name /\
  User.id user = generateUUID random16 /\
  generateClientConfig user (serverOf w) = Return configs /\
  Disk.writable (World.disk w) = true /\
  w' = committed
         (World.set_state
            (ManagerState.mk (ManagerState.version (World.state w)) (serverOf w)
               (roster w ++ [user]) (cache w ++ configs)) w).
Proof.
  rewrite addUser_run. cbv zeta.
  destruct (existsb _ (roster w)) eqn:Hex; [discriminate |].
  match goal with |- context [generateClientConfig ?u _] => set (u0 := u) end.
  destruct (generateClientConfig u0 (serverOf w)) as [cs | e] eqn:Hgen; [| discriminate].
  destruct (Disk.writable (World.disk w)); [| discriminate].
  destruct (AddUserOptions.expiresAt options) as [[time |] |] eqn:Hexp;
    [| discriminate |]; intros [= <- <- <-];
  (split; [exact (proj1 (existsb_name_false _ _) Hex) |]);
  repeat (split; [reflexivity || exact Hgen |]); reflexivity.
Qed.

Lemma getUser_run (nameOrId : string) (w : World.t) :
  UserManager.getUser nameOrId w = (Return (find (matches nameOrId) (roster w)), w).
Proof. reflexivity. Qed.

Lemma getClientConfigs_run (nameOrId : string) (w : World.t) :
  UserManager.getClientConfigs nameOrId w
  = (Return (match find (matches nameOrId) (roster w) with
             | None => []
             | Some user =>
                 List.filter
                   (fun c => String.eqb (ClientConfig.userId c) (User.id user)) (cache w)
             end), w).
Proof.
  unfold UserManager.getClientConfigs. unfold bind at 1. rewrite getUser_run.
  destruct (find (matches nameOrId) (roster w)); reflexivity.
Qed.

Lemma exportUserConfig_run (nameOrId : string) (w : World.t) :
  UserManager.exportUserConfig nameOrId w
  = (Return (option_map ClientConfig.uri
               (head (match find (matches nameOrId) (roster w) with
                      | None => []
                      | Some user =>
                          List.filter
                            (fun c => String.eqb (ClientConfig.userId c) (User.id user))
                            (cache w)
                      end))), w).
Proof.
  unfold UserManager.exportUserConfig. unfold bind at 1.
  now rewrite getClientConfigs_run.
Qed.

(** X13. What [addUser] returns can be looked up again by the name:
    provided the name is not the id of an older roster entry and no cached
    descriptor already carries the new id, after [addUser] returned a user
    and its descriptors, [getUser] finds that user, [getClientConfigs]
    returns exactly those descriptors and [exportUserConfig] the uri of the
    first of them. *)
Theorem addUser_then_lookup
    (name : string) (options : AddUserOptions.t) (random16 : list Z) (now : Z)
    (w w' : World.t) (user : User.t) (configs : list ClientConfig.t) :
  UserManager.addUser name options random16 now w = (Return (user, configs), w') ->
  (forall u, In u (roster w) -> User.id u <> name) ->
  (forall c, In c (cache w) -> ClientConfig.userId c <> User.id user) ->
  UserManager.getUser name w' = (Return (Some user), w') /\
  UserManager.getClientConfigs name w' = (Return configs, w') /\
  UserManager.exportUserConfig name w'
  = (Return (option_map ClientConfig.uri (head configs)), w').
Proof.
  intros Hrun Hids Hcache.
  apply addUser_returns in Hrun as (Hnew & Hname & _ & Hgen & _ & ->).
  assert (find (matches name) (roster w ++ [user]) = Some user) as Hfind.
  { apply find_app_last.
    - intros y Hy. apply matches_false. split; [now apply Hnew | now apply Hids].
    - apply matches_true. now left. }
  assert (List.filter (fun c => String.eqb (ClientConfig.userId c) (User.id user))
            (cache w ++ configs) = configs) as Hfilter.
  { rewrite List.filter_app, filter_none, filter_all; [reflexivity | |].
    - intros c Hc. apply String.eqb_eq.
      exact (generateClientConfig_userIds _ _ _ Hgen c Hc).
    - intros c Hc. apply String.eqb_neq. now apply Hcache. }
  set (w' := committed
               (World.set_state
                  (ManagerState.mk (ManagerState.version (World.state w)) (serverOf w)
                     (roster w ++ [user]) (cache w ++ configs)) w)).
  assert (roster w' = (roster w ++ [user])%list) as Hroster by reflexivity.
  assert (cache w' = (cache w ++ configs)%list) as Hcfgs by reflexivity.
  clearbody w'.
  rewrite getUser_run, getClientConfigs_run, exportUserConfig_run.
  rewrite Hroster, Hcfgs, Hfind, Hfilter. repeat split.
Qed.

Lemma addUser_then_lookup_witness :
  fst (UserManager.getUser "alice" Example.after_add) = Return (Some Example.alice).
Proof.
  destruct (addUser_then_lookup "alice" (AddUserOptions.mk None None None)
              Example.random16 1700000000000
              (World.set_state (World.state Example.after_init) Example.after_init)
              Example.after_add Example.alice (cache Example.after_add))
    as (Hget & _).
  - vm_compute. reflexivity.
  - intros u Hu. vm_compute in Hu. destruct Hu.
  - intros c Hc. vm_compute in Hc. destruct Hc.
  - now rewrite Hget.
Defined.

Lemma filter_partition_length {A} (p : A -> bool) (l : list A) :
  length l = (length (List.filter p l) + length (List.filter (fun x => negb (p x)) l))%nat.
Proof.
  induction l as [|a l IH]; simpl; [reflexivity |].
  destruct (p a); simpl; lia.
Qed.

(** X14. [getStats] changes nothing and its three counts fit together: the
    total is the length of the roster and the sum of the active and the
    disabled count, and the active count is the number of users in every
    inbound of the compiled configuration. *)
Theorem getStats_counts (w : World.t) :
  exists total active disabled,
    UserManager.getStats w = (Return (total, active, disabled), w) /\
    total = length (roster w) /\
    total = (active + disabled)%nat /\
    Forall (fun ib => length (SingboxInbound.users ib) = active)
      (SingboxConfig.inbounds (toSingboxConfig (serverOf w) (roster w))).
Proof.
  eexists. eexists. eexists. split; [reflexivity |].
  split; [reflexivity |]. split; [apply filter_partition_length |].
  apply List.Forall_forall. intros ib Hib.
  unfold toSingboxConfig in Hib. cbn [SingboxConfig.inbounds] in Hib.
  apply in_map_iff in Hib as (inbound & <- & _).
  rewrite toSingboxInbound_users. now rewrite length_map.
Qed.

(** X15. When some inbound of the server config is not vless+reality,
    [addUser] with a new name throws, but only after the user has been pushed
    to the roster in memory: the roster ends with the new user, while the
    descriptor cache and the files are unchanged. *)
Theorem addUser_unsupported_inbound
    (name : string) (options : AddUserOptions.t) (random16 : list Z) (now : Z)
    (w : World.t) :
  (forall u, In u (roster w) -> User.name u <> name) ->
  Exists (fun inbound => InboundConfig.protocol inbound <> Vless \/
                         InboundConfig.tlsType inbound <> TlsReality)
         (ServerConfig.inbounds (serverOf w)) ->
  exists e user w',
    UserManager.addUser name options random16 now w = (Throw e, w') /\
    User.name user = name /\
    User.id user = generateUUID random16 /\
    roster w' = (roster w ++ [user])%list /\
    cache w' = cache w /\
    World.disk w' = World.disk w.
Proof.
  intros Hnew Hbad. rewrite addUser_run. cbv zeta.
  apply existsb_name_false in Hnew. rewrite Hnew.
  match goal with |- context [generateClientConfig ?u _] => set (user := u) end.
  assert (exists e, generateClientConfig user (serverOf w) = Throw e) as (e & ->).
  { unfold generateClientConfig. apply result_map_throws.
    apply List.Exists_exists in Hbad as (inbound & Hin & Hb).
    apply List.Exists_exists. exists inbound. split; [exact Hin |].
    exists (Error "Only VLESS+Reality is supported").
    now rewrite (proj1 (generateVlessUri_rejects_other_combinations_aux
                          user (serverOf w) inbound) Hb). }
  exists e, user. eexists. split; [reflexivity |]. repeat split.
Qed.

Lemma addUser_unsupported_inbound_witness :
  exists e user w',
    UserManager.addUser "bob" AddUserOptions.none Example.random16 1700000000003
      Example.mixed = (Throw e, w') /\
    User.name user = "bob" /\
    roster w' = (roster Example.mixed ++ [user])%list.
Proof.
  destruct (addUser_unsupported_inbound "bob" AddUserOptions.none Example.random16
              1700000000003 Example.mixed)
    as (e & user & w' & Hrun & Hname & _ & Hroster & _).
  - intros u Hu. vm_compute in Hu. destruct Hu as [<- | []]. discriminate.
  - right. left. left. discriminate.
  - exists e, user, w'. repeat split; assumption.
Defined.

(** X16. [removeUser] undoes [addUser]: provided the name is not the id
    of an older roster entry and no cached descriptor already carried the new
    id, removing by name the user that [addUser] just returned gives true and
    brings the roster, the descriptor cache and the server config back to
    what they were before the addition; the state file again holds the state
    in memory as [JSON.stringify] writes it, which is exactly that state when
    no older expiry date is an Invalid Date. *)
Theorem addUser_then_removeUser
    (name : string) (options : AddUserOptions.t) (random16 : list Z) (now : Z)
    (w w1 : World.t) (user : User.t) (configs : list ClientConfig.t) :
  UserManager.addUser name options random16 now w = (Return (user, configs), w1) ->
  (forall u, In u (roster w) -> User.id u <> name) ->
  (forall c, In c (cache w) -> ClientConfig.userId c <> User.id user) ->
  exists w2,
    UserManager.removeUser name w1 = (Return true, w2) /\
    roster w2 = roster w /\
    cache w2 = cache w /\
    serverOf w2 = serverOf w /\
    persisted w2 /\
    (validExpiryDates (roster w) -> filesInSync w2).
Proof.
  intros Hrun Hids Hcache.
  apply addUser_returns in Hrun as (Hnew & Hname & _ & Hgen & Hwr & ->).
  set (w1 := committed _).
  assert (roster w1 = (roster w ++ [user])%list) as Hroster by reflexivity.
  assert (cache w1 = (cache w ++ configs)%list) as Hcfgs by reflexivity.
  assert (serverOf w1 = serverOf w) as Hserver by reflexivity.
  assert (Disk.writable (World.disk w1) = true) as Hwr1 by exact Hwr.
  clearbody w1.
  rewrite removeUser_run, Hroster.
  destruct (find_app_last (matches name) (roster w) user) as [_ ->].
  { intros y Hy. apply matches_false. split; [now apply Hnew | now apply Hids]. }
  { apply matches_true. now left. }
  rewrite lookup_app_r by lia. rewrite Nat.sub_diag. cbn [lookup list_lookup].
  cbv zeta. rewrite Hwr1. eexists. split; [reflexivity |].
  assert (forall w0 : World.t,
            roster w0 = delete (length (roster w)) (roster w ++ [user])%list ->
            roster w0 = roster w) as Hback
    by (intros w0 ->; apply delete_app_last).
  split; [apply Hback; reflexivity |].
  split; [| split; [exact Hserver | split; [apply committed_persisted |]]];
    [| intros Hvalid; apply persisted_filesInSync; [apply committed_persisted |];
       rewrite Hback; [exact Hvalid | reflexivity]].
  unfold cache at 1. cbn. rewrite Hcfgs, List.filter_app, filter_all, filter_none.
  - apply app_nil_r.
  - intros c Hc. apply negb_false_iff, String.eqb_eq.
    exact (generateClientConfig_userIds _ _ _ Hgen c Hc).
  - intros c Hc. apply negb_true_iff, String.eqb_neq. now apply Hcache.
Qed.

Lemma addUser_then_removeUser_witness :
  exists w2,
    UserManager.removeUser "alice" Example.after_add = (Return true, w2) /\
    roster w2 = [] /\ cache w2 = [].
Proof.
  destruct (addUser_then_removeUser "alice" (AddUserOptions.mk None None None)
              Example.random16 1700000000000
              (World.set_state (World.state Example.after_init) Example.after_init)
              Example.after_add Example.alice (cache Example.after_add))
    as (w2 & Hrun & Hroster & Hcache & _).
  - vm_compute. reflexivity.
  - intros u Hu. vm_compute in Hu. destruct Hu.
  - intros c Hc. vm_compute in Hc. destruct Hc.
  - exists w2. split; [exact Hrun |]. split; [exact Hroster | exact Hcache].
Defined.

Lemma findIndex_alter (nameOrId : string) (users : list User.t) (i : nat) (b : bool) :
  findIndex (matches nameOrId) (alter (User.set_enabled b) i users)
  = findIndex (matches nameOrId) users.
Proof.
  revert i. induction users as [|u users IH]; intros [|i]; try reflexivity.
  change (alter (User.set_enabled b) (S i) (u :: users))
    with (u :: alter (User.set_enabled b) i users).
  cbn [findIndex]. now rewrite IH.
Qed.

Lemma set_enabled_twice (b1 b2 : bool) (u : User.t) :
  User.set_enabled b2 (User.set_enabled b1 u) = User.set_enabled b2 u.
Proof. reflexivity. Qed.

(** X17. For [setUserEnabled] the last call wins: after a call that
    returned true, a second call for the same name or id returns true again
    and leaves exactly the world a single call with the second flag would
    have left; in particular, repeating a call changes nothing. *)
Theorem setUserEnabled_last_call_wins
    (nameOrId : string) (first second : bool) (w w1 : World.t) :
  UserManager.setUserEnabled nameOrId first w = (Return true, w1) ->
  UserManager.setUserEnabled nameOrId second w1
  = UserManager.setUserEnabled nameOrId second w /\
  (exists w2, UserManager.setUserEnabled nameOrId second w1 = (Return true, w2)) /\
  UserManager.setUserEnabled nameOrId first w1 = (Return true, w1).
Proof.
  intros Hrun. rewrite setUserEnabled_run in Hrun.
  destruct (findIndex (matches nameOrId) (roster w)) as [index |] eqn:Hidx;
    [| discriminate].
  cbv zeta in Hrun. destruct (Disk.writable (World.disk w)) eqn:Hwr; [| discriminate].
  injection Hrun as <-.
  assert (forall b,
            UserManager.setUserEnabled nameOrId b
              (committed
                 (World.set_state
                    (ManagerState.set_users
                       (alter (User.set_enabled first) index (roster w)) (World.state w)) w))
            = (Return true,
               committed
                 (World.set_state
                    (ManagerState.set_users
                       (alter (User.set_enabled b) index (roster w)) (World.state w)) w)))
    as Hsecond.
  { intros b. rewrite setUserEnabled_run.
    unfold roster at 1 3. cbn [committed World.state World.set_disk World.set_state
                                ManagerState.set_users ManagerState.users].
    fold (roster w). rewrite findIndex_alter, Hidx. cbv zeta.
    cbn [World.disk World.set_disk Disk.writable Disk.set_configFile Disk.set_stateFile
         committed World.set_state].
    rewrite Hwr. f_equal.
    rewrite list_alter_alter_eq.
    destruct w as [s [sf cf wr] p l]. reflexivity. }
  rewrite !Hsecond.
  split; [| split; [eauto | reflexivity]].
  rewrite setUserEnabled_run, Hidx. cbv zeta. now rewrite Hwr.
Qed.

Lemma setUserEnabled_last_call_wins_witness :
  UserManager.setUserEnabled "alice" true
    (snd (UserManager.setUserEnabled "alice" false Example.after_add))
  = UserManager.setUserEnabled "alice" true Example.after_add.
Proof.
  apply (proj1 (setUserEnabled_last_call_wins "alice" false true Example.after_add
                  (snd (UserManager.setUserEnabled "alice" false Example.after_add))
                  eq_refl)).
Defined.

(** X18. On a machine without state file and with writable files,
    [initialize(host, port)] returns and leaves the default server: host as
    given, one inbound vless-reality listening on 0.0.0.0 at the given port
    with the Reality key pair drawn during the call and four short ids; the
    roster and the descriptor cache are untouched, the files are in step with
    the memory (the state file holds the state as [JSON.stringify] writes
    it, exactly the state in memory when no expiry date is an Invalid Date),
    and [getPublicKey] now returns the public key of that pair. *)
Theorem initialize_creates_default_server
    (host : string) (port : Z) (e : Entropy.t) (w : World.t) :
  Disk.stateFile (World.disk w) = NoFile ->
  Disk.writable (World.disk w) = true ->
  exists w' inbound r,
    UserManager.initialize host port e w = (Return tt, w') /\
    ServerConfig.host (serverOf w') = host /\
    ServerConfig.inbounds (serverOf w') = [inbound] /\
    InboundConfig.tag inbound = "vless-reality" /\
    InboundConfig.protocol inbound = Vless /\
    InboundConfig.listen inbound = "0.0.0.0" /\
    InboundConfig.port inbound = port /\
    InboundConfig.tlsType inbound = TlsReality /\
    InboundConfig.reality inbound = Some r /\
    (RealityConfig.privateKey r, RealityConfig.publicKey r) = Entropy.keyPair e /\
    length (RealityConfig.shortIds r) = 4%nat /\
    roster w' = roster w /\
    cache w' = cache w /\
    persisted w' /\
    (validExpiryDates (roster w) -> filesInSync w') /\
    UserManager.getPublicKey w' = (Return (Some (snd (Entropy.keyPair e))), w').
Proof.
  intros Hf Hw. rewrite initialize_run, Hf. cbv zeta. rewrite Hw.
  unfold generateDefaultServerConfig, generateRealityConfig.
  destruct (Entropy.keyPair e) as [privateKey publicKey].
  eexists. eexists. eexists. split; [reflexivity |].
  repeat (split; [reflexivity |]). split; [apply committed_persisted |].
  split; [| reflexivity].
  intros Hvalid. apply persisted_filesInSync; [apply committed_persisted | exact Hvalid].
Qed.

Lemma initialize_creates_default_server_witness :
  exists w',
    UserManager.initialize "203.0.113.5" 443 Example.entropy Example.fresh
    = (Return tt, w') /\
    UserManager.getPublicKey w' = (Return (Some "UHVibGljS2V5"), w').
Proof.
  destruct (initialize_creates_default_server "203.0.113.5" 443 Example.entropy
              Example.fresh eq_refl eq_refl)
    as (w' & inbound & r & Hrun & _ & _ & _ & _ & _ & _ & _ & _ & _ & _ & _ & _ & _
        & _ & Hkey).
  exists w'. split; [exact Hrun | exact Hkey].
Defined.

(** X30. With an Invalid Date as expiry date (what [user:add --expires abc]
    hands in), [addUser] on a roster without the name, with supported
    inbounds and writable files, throws a [RangeError], but only at its last
    statement: the user is in the roster, the descriptors are in the cache
    and both files are written.  The state file holds the user without
    expiry date, so it no longer denotes the state in memory, and
    [loadState] brings the user back as one that never expires. *)
Theorem addUser_invalid_expiry
    (name : string) (options : AddUserOptions.t) (random16 : list Z) (now : Z)
    (w : World.t) :
  AddUserOptions.expiresAt options = Some JS.Date.Invalid ->
  (forall u, In u (roster w) -> User.name u <> name) ->
  Forall wellFormedInbound (ServerConfig.inbounds (serverOf w)) ->
  Disk.writable (World.disk w) = true ->
  exists user configs w',
    UserManager.addUser name options random16 now w
    = (Throw (RangeError "Invalid time value"), w') /\
    User.id user = generateUUID random16 /\
    User.name user = name /\
    User.expiresAt user = Some JS.Date.Invalid /\
    generateClientConfig user (serverOf w) = Return configs /\
    roster w' = (roster w ++ [user])%list /\
    cache w' = (cache w ++ configs)%list /\
    persisted w' /\
    ~ filesInSync w' /\
    exists w'',
      UserManager.loadState w' = (Return tt, w'') /\
      last (roster w'')
      = Some (User.mk (generateUUID random16) name (AddUserOptions.email options) now
                None true (JS.or_zero (AddUserOptions.trafficLimit options)) 0).
Proof.
  intros Hexp Hnew Hwf Hwr. rewrite addUser_run. cbv zeta.
  apply existsb_name_false in Hnew. rewrite Hnew, Hwr.
  match goal with |- context [generateClientConfig ?u _] => set (user := u) end.
  destruct (wellFormed_descriptors user (serverOf w) Hwf) as (configs & Hgen).
  rewrite Hgen, Hexp. exists user, configs. eexists. split; [reflexivity |].
  split; [reflexivity |]. split; [reflexivity |]. split; [exact Hexp |].
  split; [exact Hgen |]. split; [reflexivity |]. split; [reflexivity |].
  split; [apply committed_persisted |]. split.
  - intros [Hstate _]. cbn in Hstate. injection Hstate as Hstate.
    rewrite List.map_app in Hstate. cbn [List.map] in Hstate.
    apply app_inj_tail in Hstate as [_ Huser].
    apply (f_equal User.expiresAt) in Huser. cbn in Huser.
    rewrite Hexp in Huser. discriminate Huser.
  - eexists. rewrite loadState_run. split; [reflexivity |].
    unfold roster. cbn. rewrite List.map_app. cbn [List.map].
    rewrite last_snoc. unfold UserManager.stringifyUser. cbn. now rewrite Hexp.
Qed.

Lemma addUser_invalid_expiry_witness :
  exists w',
    UserManager.addUser "carol" (AddUserOptions.mk None (Some JS.Date.Invalid) None)
      Example.random16 1700000000002 Example.after_init
    = (Throw (RangeError "Invalid time value"), w') /\
    List.map User.name (roster w') = ["carol"] /\
    ~ filesInSync w'.
Proof.
  destruct (addUser_invalid_expiry "carol"
              (AddUserOptions.mk None (Some JS.Date.Invalid) None)
              Example.random16 1700000000002 Example.after_init)
    as (user & configs & w' & Hrun & _ & Hname & _ & _ & Hroster & _ & _ & Hsync & _).
  - reflexivity.
  - intros u Hu. vm_compute in Hu. destruct Hu.
  - vm_compute. repeat constructor; try discriminate.
    eexists. repeat split; discriminate.
  - reflexivity.
  - exists w'. split; [exact Hrun |]. split; [| exact Hsync].
    rewrite Hroster, List.map_app. cbn [List.map]. rewrite Hname. reflexivity.
Defined.

(** ** [cli/index.ts] *)

Lemma loadOrExit_stored (msg : string) (rest : M Cli.Ending) (w : World.t)
    (s : ManagerState.t) :
  Disk.stateFile (World.disk w) = Stored s ->
  Cli.loadOrExit msg rest w = rest (World.set_state s w).
Proof.
  intros Hf. unfold Cli.loadOrExit.
  unfold bind at 1. unfold try_catch. unfold bind at 1.
  rewrite loadState_run, Hf. reflexivity.
Qed.

Lemma user_set_enabled_stored (name : string) (enabled : bool) (w : World.t)
    (s : ManagerState.t) :
  Disk.stateFile (World.disk w) = Stored s ->
  Cli.user_set_enabled name enabled w
  = try_catch
      (UserManager.setUserEnabled name enabled ;; ret Cli.Completed)
      (fun _ =>
         error (if enabled then "Failed to enable user" else "Failed to disable user") ;;
         ret (Cli.Exit 1))
      (World.set_state s w).
Proof.
  intros Hf. unfold Cli.user_set_enabled, try_catch.
  unfold bind at 1. rewrite loadState_run, Hf. reflexivity.
Qed.

Lemma set_state_twice (s s0 : ManagerState.t) (w : World.t) :
  World.set_state s (World.set_state s0 w) = World.set_state s w.
Proof. reflexivity. Qed.

(** X19. Every user command of the command line starts from the persisted
    state: with a readable state file, the outcome of [user:add],
    [user:remove], [user:list], [user:show], [user:enable] and
    [user:disable], and the world they leave, do not depend on the state the
    manager object held in memory before. *)
Theorem cli_commands_start_from_the_state_file
    (w : World.t) (s s0 : ManagerState.t) :
  Disk.stateFile (World.disk w) = Stored s ->
  (forall name email expiresAt random16 now,
     Cli.user_add name email expiresAt random16 now (World.set_state s0 w)
     = Cli.user_add name email expiresAt random16 now w) /\
  (forall name, Cli.user_remove name (World.set_state s0 w) = Cli.user_remove name w) /\
  Cli.user_list (World.set_state s0 w) = Cli.user_list w /\
  (forall name, Cli.user_show name (World.set_state s0 w) = Cli.user_show name w) /\
  (forall name enabled,
     Cli.user_set_enabled name enabled (World.set_state s0 w)
     = Cli.user_set_enabled name enabled w).
Proof.
  intros Hf.
  assert (Disk.stateFile (World.disk (World.set_state s0 w)) = Stored s) as Hf0
    by exact Hf.
  repeat split; intros;
    unfold Cli.user_add, Cli.user_remove, Cli.user_list, Cli.user_show;
    try (rewrite (loadOrExit_stored _ _ _ s Hf0), (loadOrExit_stored _ _ _ s Hf);
         reflexivity).
  rewrite (user_set_enabled_stored _ _ _ s Hf0), (user_set_enabled_stored _ _ _ s Hf).
  reflexivity.
Qed.

Lemma cli_commands_start_from_the_state_file_witness :
  Cli.user_remove "alice" (World.set_state UserManager.initialState Example.after_add)
  = Cli.user_remove "alice" Example.after_add.
Proof.
  exact (proj1 (proj2 (cli_commands_start_from_the_state_file Example.after_add
                         (World.state Example.after_add) UserManager.initialState
                         eq_refl)) "alice").
Defined.

(** X20. For a name that matches no user of the persisted state,
    [user:remove] ends with exit status 1 while [user:enable] and
    [user:disable] run to their end without failing; all three leave the
    files as they are and log only the warning that the user was not
    found. *)
Theorem cli_unknown_user (name : string) (w : World.t) (s : ManagerState.t) :
  Disk.stateFile (World.disk w) = Stored s ->
  noMatch name (ManagerState.users s) ->
  let w' := World.add_diagnostic LogWarn ("User " ++ JS.dq ++ name ++ JS.dq ++ " not found")
              (World.set_state s w) in
  Cli.user_remove name w = (Return (Cli.Exit 1), w') /\
  (forall enabled, Cli.user_set_enabled name enabled w = (Return Cli.Completed, w')) /\
  World.disk w' = World.disk w.
Proof.
  intros Hf Hno w'. apply findIndex_noMatch in Hno.
  split; [| split; [| reflexivity]].
  - unfold Cli.user_remove. rewrite (loadOrExit_stored _ _ _ s Hf).
    unfold bind at 1. rewrite removeUser_run.
    unfold roster. cbn [World.state World.set_state]. now rewrite Hno.
  - intros enabled. rewrite (user_set_enabled_stored _ _ _ s Hf).
    unfold try_catch. unfold bind at 1. rewrite setUserEnabled_run.
    unfold roster. cbn [World.state World.set_state]. now rewrite Hno.
Qed.

Lemma cli_unknown_user_witness :
  fst (Cli.user_remove "ghost" Example.after_add) = Return (Cli.Exit 1) /\
  fst (Cli.user_set_enabled "ghost" true Example.after_add) = Return Cli.Completed.
Proof.
  destruct (cli_unknown_user "ghost" Example.after_add (World.state Example.after_add)
              eq_refl) as (Hremove & Henable & _).
  - intros u Hu. vm_compute in Hu. destruct Hu as [<- | []].
    split; discriminate.
  - rewrite Hremove, (Henable true). split; reflexivity.
Defined.

(** ** [server.ts] *)

(** [saveState()] then [updateSingboxConfig()], then the rest of a route. *)
Lemma server_commit_then {A} (k : M A) (w : World.t) :
  (Server.saveState ;; Server.updateSingboxConfig ;; k) w
  = if Disk.writable (World.disk w) then k (signalled (served w))
    else (Throw (SystemError "EACCES"), w).
Proof.
  unfold Server.saveState, Server.updateSingboxConfig, Server.reloadSingbox,
    Server.modifyProc, signalled, served, roster, serverOf.
  unfold_monad. unfold getState, bind, get, ret.
  destruct w as [s [sf cf wr] p l]. simpl.
  destruct wr; reflexivity.
Qed.

Lemma signalled_served_inSync (w : World.t) : filesInSync (signalled (served w)).
Proof. split; reflexivity. Qed.

Lemma postUsers_run (name : string) (random16 : list Z) (now : Z) (w : World.t) :
  name <> EmptyString ->
  let user := User.mk (generateUUID random16) name None now None true 0 0 in
  let w1 := World.set_state
              (ManagerState.set_users (roster w ++ [user]) (World.state w)) w in
  Server.postUsers (Some name) random16 now w
  = if Disk.writable (World.disk w)
    then match generateClientConfig user (serverOf w) with
         | Return configs =>
             (Return (Server.Response.mk 200 (Server.BodyUser (User.id user) name configs)),
              signalled (served w1))
         | Throw e => (Throw e, signalled (served w1))
         end
    else (Throw (SystemError "EACCES"), w1).
Proof.
  intros Hname user w1. unfold Server.postUsers.
  apply String.eqb_neq in Hname. rewrite Hname. fold user.
  unfold bind at 1. unfold modifyState at 1, modify at 1.
  fold (roster w). fold w1.
  rewrite server_commit_then.
  change (Disk.writable (World.disk w1)) with (Disk.writable (World.disk w)).
  destruct (Disk.writable (World.disk w)); [| reflexivity].
  unfold bind at 1. unfold getState at 1. unfold bind at 1, get at 1, ret at 1.
  unfold bind at 1, lift at 1.
  change (ManagerState.server (World.state (signalled (served w1)))) with (serverOf w).
  destruct (generateClientConfig user (serverOf w)); reflexivity.
Qed.

(** X21. [POST /api/users] answers 400 "Name is required" and changes
    nothing when the name is missing or empty.  With a non-empty name,
    writable files and supported inbounds it answers 200 with the new user's
    id, the name and the descriptors [generateClientConfig] returns, after it
    appended the user to the roster, whether or not the name was already
    taken; the files are in step with the memory and the descriptor cache is
    as before. *)
Theorem postUsers_outcomes (random16 : list Z) (now : Z) (w : World.t) :
  Server.handle (Server.postUsers None random16 now) w
  = (Return (Server.Response.mk 400 (Server.BodyError "Name is required")), w) /\
  Server.handle (Server.postUsers (Some EmptyString) random16 now) w
  = (Return (Server.Response.mk 400 (Server.BodyError "Name is required")), w) /\
  (forall name,
     name <> EmptyString ->
     Disk.writable (World.disk w) = true ->
     Forall wellFormedInbound (ServerConfig.inbounds (serverOf w)) ->
     exists user configs w',
       Server.handle (Server.postUsers (Some name) random16 now) w
       = (Return (Server.Response.mk 200
                    (Server.BodyUser (generateUUID random16) name configs)), w') /\
       generateClientConfig user (serverOf w) = Return configs /\
       User.id user = generateUUID random16 /\
       User.name user = name /\
       User.enabled user = true /\
       roster w' = (roster w ++ [user])%list /\
       cache w' = cache w /\
       serverOf w' = serverOf w /\
       filesInSync w').
Proof.
  split; [reflexivity |]. split; [reflexivity |].
  intros name Hname Hwr Hwf. unfold Server.handle, try_catch.
  rewrite (postUsers_run name random16 now w Hname). cbv zeta. rewrite Hwr.
  match goal with |- context [generateClientConfig ?u _] => set (user := u) end.
  destruct (wellFormed_descriptors user (serverOf w) Hwf) as (configs & Hgen).
  rewrite Hgen. exists user, configs. eexists. split; [reflexivity |].
  split; [exact Hgen |]. repeat (split; [reflexivity |]).
  apply signalled_served_inSync.
Qed.

Lemma postUsers_outcomes_witness :
  exists user configs w',
    Server.handle (Server.postUsers (Some "alice") Example.random16 1700000000002)
      Example.serving
    = (Return (Server.Response.mk 200
                 (Server.BodyUser (generateUUID Example.random16) "alice" configs)), w') /\
    roster w' = (roster Example.serving ++ [user])%list.
Proof.
  destruct (proj2 (proj2 (postUsers_outcomes Example.random16 1700000000002
                            Example.serving)) "alice")
    as (user & configs & w' & Hrun & _ & _ & _ & _ & Hroster & _).
  - discriminate.
  - reflexivity.
  - repeat constructor; simpl; try discriminate.
    eexists. repeat split; simpl; discriminate.
  - exists user, configs, w'. split; [exact Hrun | exact Hroster].
Defined.

(** X22. When some inbound of the server config is not vless+reality,
    [POST /api/users] with a non-empty name on writable files answers 500
    "Internal server error", and yet the user has been added: the roster in
    memory ends with the new user and the state file and the compiled
    configuration already contain it. *)
Theorem postUsers_failure_after_commit
    (name : string) (random16 : list Z) (now : Z) (w : World.t) :
  name <> EmptyString ->
  Disk.writable (World.disk w) = true ->
  Exists (fun inbound => InboundConfig.protocol inbound <> Vless \/
                         InboundConfig.tlsType inbound <> TlsReality)
         (ServerConfig.inbounds (serverOf w)) ->
  exists user w',
    Server.handle (Server.postUsers (Some name) random16 now) w
    = (Return (Server.Response.mk 500 (Server.BodyError "Internal server error")), w') /\
    User.name user = name /\
    roster w' = (roster w ++ [user])%list /\
    filesInSync w'.
Proof.
  intros Hname Hwr Hbad. unfold Server.handle, try_catch.
  rewrite (postUsers_run name random16 now w Hname). cbv zeta. rewrite Hwr.
  match goal with |- context [generateClientConfig ?u _] => set (user := u) end.
  assert (exists e, generateClientConfig user (serverOf w) = Throw e) as (e & ->).
  { unfold generateClientConfig. apply result_map_throws.
    apply List.Exists_exists in Hbad as (inbound & Hin & Hb).
    apply List.Exists_exists. exists inbound. split; [exact Hin |].
    exists (Error "Only VLESS+Reality is supported").
    now rewrite (proj1 (generateVlessUri_rejects_other_combinations_aux
                          user (serverOf w) inbound) Hb). }
  exists user. eexists. split; [reflexivity |]. split; [reflexivity |].
  split; [reflexivity |]. apply signalled_served_inSync.
Qed.

Lemma postUsers_failure_after_commit_witness :
  exists user w',
    Server.handle (Server.postUsers (Some "bob") Example.random16 1700000000003)
      Example.mixed
    = (Return (Server.Response.mk 500 (Server.BodyError "Internal server error")), w') /\
    roster w' = (roster Example.mixed ++ [user])%list.
Proof.
  destruct (postUsers_failure_after_commit "bob" Example.random16 1700000000003
              Example.mixed)
    as (user & w' & Hrun & _ & Hroster & _).
  - discriminate.
  - reflexivity.
  - right. left. left. discriminate.
  - exists user, w'. split; [exact Hrun | exact Hroster].
Defined.

Lemma deleteUser_run (userId : string) (w : World.t) :
  Server.deleteUser userId w
  = match findIndex (fun u => String.eqb (User.id u) userId) (roster w) with
    | None => (Return (Server.Response.mk 404 (Server.BodyError "User not found")), w)
    | Some index =>
        let w1 := World.set_state
                    (ManagerState.set_users (delete index (roster w)) (World.state w)) w in
        if Disk.writable (World.disk w)
        then (Return (Server.Response.mk 200 (Server.BodySuccess None)),
              signalled (served w1))
        else (Throw (SystemError "EACCES"), w1)
    end.
Proof.
  unfold Server.deleteUser.
  unfold bind at 1. unfold getState at 1. unfold bind at 1, get at 1, ret at 1.
  fold (roster w).
  destruct (findIndex _ (roster w)) as [index |]; [| reflexivity].
  unfold bind at 1. unfold modifyState at 1, modify at 1.
  rewrite server_commit_then. cbv zeta.
  destruct w as [s [sf cf wr] p l]. simpl. destruct wr; reflexivity.
Qed.

(** X23. [DELETE /api/users/:id] looks the user up by id only.  When no
    roster entry has the id it answers 404 "User not found" and changes
    nothing, also when the text is the name of a user.  When [x] is the first
    roster entry with the id and the files are writable, it answers 200, the
    roster loses the entry at [x]'s position and nothing else, the files are
    in step with the memory, and the descriptor cache, the descriptors of [x]
    included, and the server config are as before. *)
Theorem deleteUser_outcomes (userId : string) (w : World.t) :
  ((forall u, In u (roster w) -> User.id u <> userId) ->
   Server.handle (Server.deleteUser userId) w
   = (Return (Server.Response.mk 404 (Server.BodyError "User not found")), w)) /\
  (forall index x,
     roster w !! index = Some x ->
     User.id x = userId ->
     (forall j y, (j < index)%nat -> roster w !! j = Some y -> User.id y <> userId) ->
     Disk.writable (World.disk w) = true ->
     exists w',
       Server.handle (Server.deleteUser userId) w
       = (Return (Server.Response.mk 200 (Server.BodySuccess None)), w') /\
       roster w' = delete index (roster w) /\
       cache w' = cache w /\
       serverOf w' = serverOf w /\
       filesInSync w').
Proof.
  unfold Server.handle, try_catch. rewrite deleteUser_run. split.
  - intros Hno.
    assert (findIndex (fun u => String.eqb (User.id u) userId) (roster w) = None) as ->;
      [| reflexivity].
    apply findIndex_None. intros u Hu. apply String.eqb_neq. now apply Hno.
  - intros index x Hx Hid Hfirst Hwr.
    assert (findIndex (fun u => String.eqb (User.id u) userId) (roster w) = Some index)
      as ->.
    { apply findIndex_Some. exists x. split; [exact Hx |].
      split; [now apply String.eqb_eq |].
      intros j y Hj Hy. apply String.eqb_neq. eauto. }
    cbv zeta. rewrite Hwr. eexists. split; [reflexivity |].
    repeat (split; [reflexivity |]). apply signalled_served_inSync.
Qed.

Lemma deleteUser_outcomes_witness :
  Server.handle (Server.deleteUser "alice") Example.serving
  = (Return (Server.Response.mk 404 (Server.BodyError "User not found")), Example.serving).
Proof.
  apply (proj1 (deleteUser_outcomes "alice" Example.serving)).
  intros u Hu. vm_compute in Hu. destruct Hu as [<- | []]. discriminate.
Defined.

Lemma getUserConfig_run (userId : string) (w : World.t) :
  ServerRead.getUserConfig userId w
  = match find (fun u => String.eqb (User.id u) userId) (roster w) with
    | None => (Return (Server.Response.mk 404 (Server.BodyError "User not found")), w)
    | Some user =>
        match generateClientConfig user (serverOf w) with
        | Return configs =>
            (Return (Server.Response.mk 200
                       (Server.BodyUser (User.id user) (User.name user) configs)), w)
        | Throw e => (Throw e, w)
        end
    end.
Proof.
  unfold ServerRead.getUserConfig.
  unfold bind at 1. unfold getState at 1. unfold bind at 1, get at 1, ret at 1.
  fold (roster w). fold (serverOf w).
  destruct (find _ (roster w)) as [user |]; [| reflexivity].
  unfold bind, lift. destruct (generateClientConfig user (serverOf w)); reflexivity.
Qed.

(** X24. What [POST /api/users] answered can be fetched again: provided
    no older roster entry has the new id, after a 200 answer of the POST
    route, [GET /api/users/:id/config] for the id of that answer returns the
    same id, name and descriptors, and changes nothing. *)
Theorem postUsers_then_getUserConfig
    (name : string) (random16 : list Z) (now : Z) (w w' : World.t)
    (id : string) (configs : list ClientConfig.t) :
  name <> EmptyString ->
  Server.postUsers (Some name) random16 now w
  = (Return (Server.Response.mk 200 (Server.BodyUser id name configs)), w') ->
  (forall u, In u (roster w) -> User.id u <> id) ->
  Server.handle (ServerRead.getUserConfig id) w'
  = (Return (Server.Response.mk 200 (Server.BodyUser id name configs)), w').
Proof.
  intros Hname Hrun Hfresh.
  rewrite (postUsers_run name random16 now w Hname) in Hrun. cbv zeta in Hrun.
  destruct (Disk.writable (World.disk w)); [| discriminate Hrun].
  match type of Hrun with context [generateClientConfig ?u _] => set (user := u) in * end.
  destruct (generateClientConfig user (serverOf w)) as [cs | e] eqn:Hgen;
    [| discriminate Hrun].
  injection Hrun as <- <- <-.
  unfold Server.handle, try_catch. rewrite getUserConfig_run.
  match goal with |- context [roster ?x] =>
    change (roster x) with (roster w ++ [user])%list;
    change (serverOf x) with (serverOf w)
  end.
  match goal with |- context [find ?p _] =>
    destruct (find_app_last p (roster w) user) as [-> _]
  end.
  - intros y Hy. apply String.eqb_neq. now apply Hfresh.
  - apply String.eqb_eq. reflexivity.
  - now rewrite Hgen.
Qed.

Lemma postUsers_then_getUserConfig_witness :
  exists configs,
    fst (Server.handle (ServerRead.getUserConfig "00010203-0405-4607-8809-0a0b0c0d0e0f")
           (snd (Server.postUsers (Some "carol") Example.random16 1700000000004
                   Example.after_init)))
    = Return (Server.Response.mk 200
                (Server.BodyUser "00010203-0405-4607-8809-0a0b0c0d0e0f" "carol" configs)).
Proof.
  eexists.
  erewrite (postUsers_then_getUserConfig "carol" Example.random16 1700000000004
              Example.after_init _ "00010203-0405-4607-8809-0a0b0c0d0e0f").
  - reflexivity.
  - discriminate.
  - vm_compute. reflexivity.
  - intros u Hu. vm_compute in Hu. destruct Hu.
Defined.

(** X25. On writable files [main()] of the HTTP server keeps a stored
    state as it is, keys and users included, and only when no state file
    exists builds a new state: the default server config for the host and
    port of the environment ("0.0.0.0" and 443 when unset) with fresh key
    material, an empty roster and an empty descriptor cache.  In both cases
    the files are afterwards in step with the memory.  A state file that
    cannot be parsed makes [main()] fail without touching anything. *)
Theorem main_outcomes (env : Server.Env.t) (e : Entropy.t) (w : World.t) :
  Disk.writable (World.disk w) = true ->
  match Disk.stateFile (World.disk w) with
  | Garbled => Server.main env e w = (Throw SyntaxError, w)
  | Stored s =>
      exists w',
        Server.main env e w = (Return tt, w') /\
        World.state w' = s /\
        filesInSync w'
  | NoFile =>
      exists w',
        Server.main env e w = (Return tt, w') /\
        World.state w'
        = ManagerState.mk 1
            (generateDefaultServerConfig
               (JS.or_string (Server.Env.SERVER_HOST env) "0.0.0.0")
               (default 443 (Server.Env.SERVER_PORT env)) e) [] [] /\
        filesInSync w'
  end.
Proof.
  intros Hwr. destruct w as [s0 [sf cf wr] [run bin h sch] l].
  cbn [World.disk Disk.writable] in Hwr. subst wr.
  cbn [World.disk Disk.stateFile].
  unfold Server.main, Server.loadState, Server.saveState, Server.updateSingboxConfig,
    Server.reloadSingbox, Server.startSingbox, Server.modifyProc.
  unfold_monad. unfold getState, bind, get, ret.
  destruct sf as [| | s]; cbn.
  - eexists. split; [reflexivity |]. cbn.
    split; [reflexivity |]. destruct run, bin; split; reflexivity.
  - reflexivity.
  - eexists. split; [reflexivity |]. cbn.
    split; [reflexivity |]. destruct run, bin; split; reflexivity.
Qed.

Lemma main_outcomes_witness :
  exists w',
    Server.main Example.env Example.entropy' Example.after_add = (Return tt, w') /\
    World.state w' = World.state Example.after_add.
Proof.
  destruct (main_outcomes Example.env Example.entropy' Example.after_add eq_refl)
    as (w' & Hrun & Hstate & _).
  exists w'. split; [exact Hrun | exact Hstate].
Defined.

(** X26. After a reset that went through, the read routes show the new
    server and no user: [GET /api/server] reports the host and port of the
    environment and the public key drawn during the reset, [GET /api/users]
    returns the empty list, and [GET /api/users/:id/config] answers 404 for
    every id, so no descriptor of an earlier user can be fetched any more. *)
Theorem reset_then_reads (env : Server.Env.t) (e : Entropy.t) (w : World.t) :
  Disk.writable (World.disk w) = true ->
  let w' := snd (Server.handle (Server.reset env e) w) in
  ServerRead.getServer w'
  = (Return (ServerRead.ServerInfo.mk (Server.envHost env) (Some (Server.envPort env))
               (Some (snd (Entropy.keyPair e)))), w') /\
  ServerRead.getUsers w' = (Return [], w') /\
  (forall userId,
     Server.handle (ServerRead.getUserConfig userId) w'
     = (Return (Server.Response.mk 404 (Server.BodyError "User not found")), w')).
Proof.
  intros Hwr. destruct w as [s0 [sf cf wr] [run bin h sch] l].
  cbn [World.disk Disk.writable] in Hwr. subst wr.
  unfold Server.handle, Server.reset, Server.saveState, Server.updateSingboxConfig,
    Server.reloadSingbox, Server.modifyProc, Server.sendJson.
  unfold_monad. unfold getState, bind, get, ret. cbn.
  unfold ServerRead.getServer, ServerRead.getUsers, ServerRead.getUserConfig,
    Server.sendJson, generateDefaultServerConfig, generateRealityConfig.
  unfold_monad. unfold getState, bind, get, ret. cbn.
  destruct (Entropy.keyPair e) as [privateKey publicKey]. cbn.
  repeat split.
Qed.

Lemma reset_then_reads_witness :
  Server.handle (ServerRead.getUserConfig "00010203-0405-4607-8809-0a0b0c0d0e0f")
    (snd (Server.handle (Server.reset Example.env Example.entropy') Example.serving))
  = (Return (Server.Response.mk 404 (Server.BodyError "User not found")),
     snd (Server.handle (Server.reset Example.env Example.entropy') Example.serving)).
Proof.
  exact (proj2 (proj2 (reset_then_reads Example.env Example.entropy' Example.serving
                         eq_refl)) "00010203-0405-4607-8809-0a0b0c0d0e0f").
Defined.

(** ** [utils/logger.js] *)

(** X27. Whatever level [setLogLevel] installed, [logger.error] lines and
    the section, key-value and code output are written; [logger.success]
    is written exactly when [logger.info] is; and raising the level never
    brings a line back: a method that is silent at some level is silent at
    every higher one.  At the initial level info only [logger.debug] is
    silent. *)
Theorem logger_filtering (currentLevel : Logger.Level) :
  Logger.prints currentLevel Logger.Merror = true /\
  Logger.prints currentLevel Logger.Msection = true /\
  Logger.prints currentLevel Logger.Mkv = true /\
  Logger.prints currentLevel Logger.Mcode = true /\
  Logger.prints currentLevel Logger.Msuccess = Logger.prints currentLevel Logger.Minfo /\
  (forall m higher,
     Logger.LOG_LEVELS currentLevel <= Logger.LOG_LEVELS higher ->
     Logger.prints currentLevel m = false -> Logger.prints higher m = false) /\
  (forall m, Logger.prints Logger.LvInfo m = false <-> m = Logger.Mdebug).
Proof.
  repeat split; try (destruct currentLevel; reflexivity).
  - intros m higher Hle Hsilent.
    destruct currentLevel, higher, m; simpl in *; try reflexivity; try discriminate; lia.
  - destruct m; simpl; intros H; try discriminate; reflexivity.
  - intros ->. reflexivity.
Qed.

Lemma logger_filtering_witness :
  Logger.prints Logger.LvError Logger.Minfo = false.
Proof.
  apply (proj1 (proj2 (proj2 (proj2 (proj2 (proj2 (logger_filtering Logger.LvWarn))))))
           Logger.Minfo Logger.LvError).
  - simpl. lia.
  - reflexivity.
Defined.

(** ** [core/installer.ts] *)

(** X28. [getPlatformInfo] returns exactly for the platforms linux, darwin
    and win32 combined with the architectures x64, arm64 and arm; the archive
    extension is zip for win32 and tar.gz otherwise.  An unsupported platform
    is reported first, by its name, whatever the architecture; with a
    supported platform an unsupported architecture is reported by its
    name. *)
Theorem getPlatformInfo_outcomes (platform cpuArch : string) :
  let supportedPlatform :=
    platform = "linux" \/ platform = "darwin" \/ platform = "win32" in
  let supportedArch := cpuArch = "x64" \/ cpuArch = "arm64" \/ cpuArch = "arm" in
  ((exists info, Installer.getPlatformInfo platform cpuArch = Return info)
   <-> supportedPlatform /\ supportedArch) /\
  (forall info,
     Installer.getPlatformInfo platform cpuArch = Return info ->
     (Installer.PlatformInfo.ext info = "zip" <-> platform = "win32") /\
     (Installer.PlatformInfo.ext info = "tar.gz" <-> platform <> "win32")) /\
  (~ supportedPlatform ->
   Installer.getPlatformInfo platform cpuArch
   = Throw (Error ("Unsupported platform: " ++ platform))) /\
  (supportedPlatform -> ~ supportedArch ->
   Installer.getPlatformInfo platform cpuArch
   = Throw (Error ("Unsupported architecture: " ++ cpuArch))).
Proof.
  cbv zeta. unfold Installer.getPlatformInfo.
  destruct (String.eqb_spec platform "linux") as [-> | Hl];
    [| destruct (String.eqb_spec platform "darwin") as [-> | Hd];
       [| destruct (String.eqb_spec platform "win32") as [-> | Hw]]];
    cbn [result_bind];
    (destruct (String.eqb_spec cpuArch "x64") as [-> | Hx];
     [| destruct (String.eqb_spec cpuArch "arm64") as [-> | Ha];
        [| destruct (String.eqb_spec cpuArch "arm") as [-> | Hr]]]);
    cbn [result_bind];
    (split; [split; [intros [info H]; first [discriminate H | tauto]
                    | intros [Hp Hc]; first [eexists; reflexivity | tauto]] |]);
    (split; [intros info H; first [discriminate H | injection H as <-;
                                   cbn [Installer.PlatformInfo.ext];
                                   split; split; intros; congruence] |]);
    (split; [intros H; first [reflexivity | exfalso; tauto]
            | intros Hp Hc; first [reflexivity | exfalso; tauto]]).
Qed.

Lemma getPlatformInfo_outcomes_witness :
  Installer.getPlatformInfo "freebsd" "x64"
  = Throw (Error ("Unsupported platform: " ++ "freebsd")).
Proof.
  apply (proj1 (proj2 (proj2 (getPlatformInfo_outcomes "freebsd" "x64")))).
  intros [H | [H | H]]; discriminate H.
Defined.

Lemma substring_all (s : string) : String.substring 0 (String.length s) s = s.
Proof. induction s as [|c s IH]; simpl; [reflexivity | now rewrite IH]. Qed.

(** [s.replace(c, r)] on a text that contains the character: the first
    occurrence, wherever it stands, is replaced and nothing else. *)
Lemma replaceFirst_first (c : ascii) (r pre rest : string) :
  Forall (fun x => x <> c) (chars pre) ->
  Installer.replaceFirst (String c EmptyString) r (pre ++ String c rest)
  = pre ++ r ++ rest.
Proof.
  induction pre as [|x pre IH]; intros H.
  - change (EmptyString ++ ?s) with s.
    cbn [Installer.replaceFirst String.prefix].
    destruct (Ascii.ascii_dec c c) as [_ | Hne]; [| now destruct Hne].
    replace (String.prefix EmptyString rest) with true by (now destruct rest).
    cbn [String.length Nat.sub String.substring].
    rewrite Nat.sub_0_r. now rewrite substring_all.
  - cbn [chars] in H. apply Forall_cons in H as [Hx Hpre].
    change (String x pre ++ ?s) with (String x (pre ++ s)).
    cbn [Installer.replaceFirst String.prefix].
    destruct (Ascii.ascii_dec c x) as [-> | _]; [now destruct Hx |].
    now rewrite (IH Hpre).
Qed.

Lemma replaceFirst_absent (c : ascii) (s : string) :
  Forall (fun x => x <> c) (chars s) ->
  Installer.replaceFirst (String c EmptyString) EmptyString s = s.
Proof.
  induction s as [|x s IH]; intros H; [reflexivity |].
  cbn [chars] in H. apply Forall_cons in H as [Hx Hs].
  cbn [Installer.replaceFirst String.prefix].
  destruct (Ascii.ascii_dec c x) as [-> | _]; [now destruct Hx |].
  cbn [String.prefix]. now rewrite (IH Hs).
Qed.

(** X29. [getLatestRelease] fails with the status text when the response
    is not ok.  When it returns, the platform is supported, the version is
    the tag with its first letter v removed, wherever in the tag that letter
    stands (the tag itself when it has no v), and the download URL is that
    of an asset of the release whose name is exactly
    sing-box-<version>-<os>-<arch>.<ext> for this platform.  On a supported
    platform without such an asset it fails with "No release found for
    <os>-<arch>". *)
Theorem getLatestRelease_outcomes
    (response : string + Installer.ReleaseData.t) (platform cpuArch : string) :
  (forall statusText,
     response = inl statusText ->
     Installer.getLatestRelease response platform cpuArch
     = Throw (Error ("Failed to fetch release info: " ++ statusText))) /\
  (forall data release,
     response = inr data ->
     Installer.getLatestRelease response platform cpuArch = Return release ->
     exists info asset,
       Installer.getPlatformInfo platform cpuArch = Return info /\
       In asset (Installer.ReleaseData.assets data) /\
       Installer.Asset.name asset
       = "sing-box-" ++ Installer.ReleaseInfo.version release ++ "-"
           ++ Installer.PlatformInfo.os info ++ "-" ++ Installer.PlatformInfo.arch info
           ++ "." ++ Installer.PlatformInfo.ext info /\
       Installer.ReleaseInfo.downloadUrl release = Installer.Asset.browser_download_url asset /\
       (forall pre rest,
          Installer.ReleaseData.tag_name data = pre ++ String "v" rest ->
          Forall (fun c => c <> "v"%char) (chars pre) ->
          Installer.ReleaseInfo.version release = pre ++ rest) /\
       (Forall (fun c => c <> "v"%char) (chars (Installer.ReleaseData.tag_name data)) ->
        Installer.ReleaseInfo.version release = Installer.ReleaseData.tag_name data)) /\
  (forall data info,
     response = inr data ->
     Installer.getPlatformInfo platform cpuArch = Return info ->
     (forall asset, In asset (Installer.ReleaseData.assets data) ->
        Installer.Asset.name asset
        <> Installer.assetNameOf
             (Installer.replaceFirst "v" EmptyString (Installer.ReleaseData.tag_name data))
             info) ->
     Installer.getLatestRelease response platform cpuArch
     = Throw (Error ("No release found for " ++ Installer.PlatformInfo.os info ++ "-"
                       ++ Installer.PlatformInfo.arch info))).
Proof.
  split; [| split].
  - intros statusText ->. reflexivity.
  - intros data release -> Hrun. unfold Installer.getLatestRelease in Hrun.
    destruct (Installer.getPlatformInfo platform cpuArch) as [info | e];
      [| discriminate Hrun].
    cbn [result_bind] in Hrun.
    destruct (find _ (Installer.ReleaseData.assets data)) as [asset |] eqn:Hfind;
      [| discriminate Hrun].
    injection Hrun as <-. apply List.find_some in Hfind as [Hin Hname].
    apply String.eqb_eq in Hname.
    exists info, asset. split; [reflexivity |]. split; [exact Hin |].
    split; [exact Hname |]. split; [reflexivity |].
    cbn [Installer.ReleaseInfo.version]. split.
    + intros pre rest -> Hpre. rewrite (replaceFirst_first _ _ _ _ Hpre).
      reflexivity.
    + apply replaceFirst_absent.
  - intros data info -> Hinfo Hnone. unfold Installer.getLatestRelease.
    rewrite Hinfo. cbn [result_bind].
    destruct (find _ (Installer.ReleaseData.assets data)) as [asset |] eqn:Hfind;
      [| reflexivity].
    apply List.find_some in Hfind as [Hin Hname]. apply String.eqb_eq in Hname.
    now destruct (Hnone asset Hin).
Qed.

Lemma getLatestRelease_outcomes_witness :
  exists release,
    Installer.getLatestRelease
      (inr (Installer.ReleaseData.mk "1.9.0-dev.v2"
              [Installer.Asset.mk "sing-box-1.9.0-de.v2-linux-amd64.tar.gz"
                 "https://example.org/sing-box-1.9.0-de.v2-linux-amd64.tar.gz"]))
      "linux" "x64"
    = Return release /\
    Installer.ReleaseInfo.version release = "1.9.0-de.v2".
Proof.
  eassert (Installer.getLatestRelease
             (inr (Installer.ReleaseData.mk "1.9.0-dev.v2"
                     [Installer.Asset.mk "sing-box-1.9.0-de.v2-linux-amd64.tar.gz"
                        "https://example.org/sing-box-1.9.0-de.v2-linux-amd64.tar.gz"]))
             "linux" "x64"
           = Return _) as Hrun by (vm_compute; reflexivity).
  eexists. split; [exact Hrun |].
  destruct (proj1 (proj2 (getLatestRelease_outcomes _ "linux" "x64")) _ _
              eq_refl Hrun)
    as (info & asset & _ & _ & _ & _ & Hversion & _).
  apply (Hversion "1.9.0-de" ".v2"); [reflexivity |].
  repeat constructor; discriminate.
Defined.
